(** * errata_tool_cdn_repo: the reconciliation engine, embedded in Rocq

    The module under study is [library/errata_tool_cdn_repo.py].  It is
    dynamically typed Python, so the embedding has three layers:

    - [Py]: the fragment of Python values and built-in operations the module
      uses (JSON-like values, dicts in insertion order, sets, [%s]
      formatting, truthiness, [==]);
    - [Transport]: the HTTP client as the module sees it, a verb, a path,
      query parameters and a JSON body, answered by a status code and a JSON
      body; calls are recorded in a trace and thread the remote state;
    - [CdnRepo]: the functions of the module, one definition per Python
      function, with the names of the source.

    [Collaborators] declares what the module imports from
    [common_errata_tool]; [Reference] gives concrete collaborators and an
    in-memory remote service, on which the module can be run.

    Python 3 semantics are assumed throughout ([string_types] is [str],
    dicts iterate in insertion order). *)

From Stdlib Require Import String Ascii List ZArith Bool Lia Permutation.
From Stdlib Require Import DecimalString.
Import ListNotations.

Set Warnings "-register-all".

Local Open Scope string_scope.
Local Open Scope list_scope.

(** String concatenation, written in the order of the format string. *)
Infix "@@" := String.append (at level 60, right associativity).

(* ================================================================== *)
(** ** Python values *)
(* ================================================================== *)

Module Py.

(** JSON-like values.  Dict keys are strings (JSON objects, YAML mappings);
    a dict is an association list in insertion order, without repeated
    keys when it is built by [dict_set]. *)
Inductive pyval : Type :=
| VNone
| VBool (b : bool)
| VInt (z : Z)
| VStr (s : string)
| VList (l : list pyval)
| VDict (d : list (string * pyval)).

Definition dict := list (string * pyval).

(** Exceptions the module can raise or let through. *)
Inductive exn : Type :=
| ValueError (arg : pyval)
| KeyError (key : pyval)
| IndexError
| TypeError
| AttributeError
| StopIteration
| HTTPError (status : Z)
| LoopBound.  (* the model's iteration bound was reached; never Python's *)

Inductive outcome (A : Type) : Type :=
| Ok (a : A)
| Raise (e : exn).
Arguments Ok {A} a.
Arguments Raise {A} e.

(** *** Dicts *)

Fixpoint dict_get (k : string) (d : dict) : option pyval :=
  match d with
  | [] => None
  | (k', v) :: d' => if String.eqb k k' then Some v else dict_get k d'
  end.

(** [d[k] = v]: an existing key keeps its position, a new key goes last. *)
Fixpoint dict_set (k : string) (v : pyval) (d : dict) : dict :=
  match d with
  | [] => [(k, v)]
  | (k', v') :: d' =>
      if String.eqb k k' then (k', v) :: d' else (k', v') :: dict_set k v d'
  end.

Fixpoint dict_del (k : string) (d : dict) : dict :=
  match d with
  | [] => []
  | (k', v') :: d' =>
      if String.eqb k k' then d' else (k', v') :: dict_del k d'
  end.

Definition dict_keys (d : dict) : list string := map fst d.

Definition dict_mem (k : string) (d : dict) : bool :=
  match dict_get k d with Some _ => true | None => false end.

(** *** Truthiness, equality, hashing *)

Definition truthy (v : pyval) : bool :=
  match v with
  | VNone => false
  | VBool b => b
  | VInt z => negb (z =? 0)%Z
  | VStr s => negb (String.eqb s EmptyString)
  | VList l => match l with [] => false | _ => true end
  | VDict d => match d with [] => false | _ => true end
  end.

Definition Z_of_bool (b : bool) : Z := if b then 1%Z else 0%Z.

(** Python's [==]: [bool] is a subtype of [int]; lists compare element by
    element; dicts compare as maps, whatever the insertion order. *)
Fixpoint py_eqb (a b : pyval) {struct a} : bool :=
  match a, b with
  | VNone, VNone => true
  | VBool x, VBool y => Bool.eqb x y
  | VBool x, VInt y => (Z_of_bool x =? y)%Z
  | VInt x, VBool y => (x =? Z_of_bool y)%Z
  | VInt x, VInt y => (x =? y)%Z
  | VStr x, VStr y => String.eqb x y
  | VList x, VList y =>
      (fix eq_list (x : list pyval) (y : list pyval) {struct x} : bool :=
         match x, y with
         | [], [] => true
         | u :: x', v :: y' => py_eqb u v && eq_list x' y'
         | _, _ => false
         end) x y
  | VDict x, VDict y =>
      Nat.eqb (length x) (length y)
      && forallb (fun kv : string * pyval =>
                    match dict_get (fst kv) y with
                    | Some v' => py_eqb (snd kv) v'
                    | None => false
                    end) x
  | _, _ => false
  end.

Definition hashable (v : pyval) : bool :=
  match v with
  | VList _ | VDict _ => false
  | _ => true
  end.

(** *** [str()] and [repr()], as used by [%s] *)

Definition dq : string := String (ascii_of_nat 34) EmptyString.
Definition sq : string := String (ascii_of_nat 39) EmptyString.
Definition bs : string := String (ascii_of_nat 92) EmptyString.

Definition str_of_Z (z : Z) : string := NilZero.string_of_int (Z.to_int z).

Definition hex_digit (n : nat) : string :=
  String (ascii_of_nat (if Nat.ltb n 10 then 48 + n else 87 + n)) EmptyString.

Fixpoint has_char (c : ascii) (s : string) : bool :=
  match s with
  | EmptyString => false
  | String c' s' => Ascii.eqb c c' || has_char c s'
  end.

(** [repr] of a [str]: single quotes, unless the text has a single quote and
    no double quote; backslash, the chosen quote and control characters are
    escaped.  Bytes above 127 are taken to be UTF-8 of printable text. *)
Fixpoint escape (q : ascii) (s : string) : string :=
  match s with
  | EmptyString => EmptyString
  | String c s' =>
      let n := nat_of_ascii c in
      (if Ascii.eqb c q then bs @@ String c EmptyString
       else if Nat.eqb n 92 then bs @@ bs
       else if Nat.eqb n 10 then bs @@ "n"
       else if Nat.eqb n 13 then bs @@ "r"
       else if Nat.eqb n 9 then bs @@ "t"
       else if Nat.ltb n 32 || Nat.eqb n 127
            then bs @@ "x" @@ hex_digit (n / 16) @@ hex_digit (n mod 16)
       else String c EmptyString) @@ escape q s'
  end.

Definition repr_str (s : string) : string :=
  let q := if has_char (ascii_of_nat 39) s && negb (has_char (ascii_of_nat 34) s)
           then ascii_of_nat 34 else ascii_of_nat 39 in
  String q EmptyString @@ escape q s @@ String q EmptyString.

Fixpoint py_repr (v : pyval) : string :=
  match v with
  | VNone => "None"
  | VBool true => "True"
  | VBool false => "False"
  | VInt z => str_of_Z z
  | VStr s => repr_str s
  | VList l => "[" @@ String.concat ", " (map py_repr l) @@ "]"
  | VDict d =>
      "{" @@ String.concat ", "
               (map (fun kv : string * pyval =>
                       repr_str (fst kv) @@ ": " @@ py_repr (snd kv)) d)
          @@ "}"
  end.

(** [str(v)], what [%s] inserts. *)
Definition py_str (v : pyval) : string :=
  match v with
  | VStr s => s
  | _ => py_repr v
  end.

(** [type(v)] as [%s] prints it. *)
Definition type_name (v : pyval) : string :=
  "<class '" @@
  match v with
  | VNone => "NoneType"
  | VBool _ => "bool"
  | VInt _ => "int"
  | VStr _ => "str"
  | VList _ => "list"
  | VDict _ => "dict"
  end @@ "'>".

(** *** Subscription, iteration, membership *)

Definition as_index (v : pyval) : option Z :=
  match v with
  | VInt z => Some z
  | VBool b => Some (Z_of_bool b)
  | _ => None
  end.

Definition nth_py {A : Type} (l : list A) (i : Z) : option A :=
  let n := Z.of_nat (length l) in
  let j := if (i <? 0)%Z then (n + i)%Z else i in
  if (j <? 0)%Z then None else nth_error l (Z.to_nat j).

(** [c[k]]. *)
Definition py_getitem (c k : pyval) : outcome pyval :=
  match c with
  | VDict d =>
      match k with
      | VStr s => match dict_get s d with
                  | Some v => Ok v
                  | None => Raise (KeyError k)
                  end
      | VList _ | VDict _ => Raise TypeError
      | _ => Raise (KeyError k)
      end
  | VList l =>
      match as_index k with
      | Some i => match nth_py l i with
                  | Some v => Ok v
                  | None => Raise IndexError
                  end
      | None => Raise TypeError
      end
  | VStr s =>
      match as_index k with
      | Some i => match nth_py (list_ascii_of_string s) i with
                  | Some c => Ok (VStr (String c EmptyString))
                  | None => Raise IndexError
                  end
      | None => Raise TypeError
      end
  | _ => Raise TypeError
  end.

(** [c.get(k)] and [c.get(k, default)]: only dicts have [get]. *)
Definition py_get (c : pyval) (k : string) (default : pyval) : outcome pyval :=
  match c with
  | VDict d => Ok (match dict_get k d with Some v => v | None => default end)
  | _ => Raise AttributeError
  end.

(** What [for x in v] visits. *)
Definition py_iter (v : pyval) : outcome (list pyval) :=
  match v with
  | VList l => Ok l
  | VDict d => Ok (map VStr (dict_keys d))
  | VStr s => Ok (map (fun c => VStr (String c EmptyString))
                      (list_ascii_of_string s))
  | _ => Raise TypeError
  end.

Definition py_len (v : pyval) : outcome Z :=
  match v with
  | VList l => Ok (Z.of_nat (length l))
  | VDict d => Ok (Z.of_nat (length d))
  | VStr s => Ok (Z.of_nat (String.length s))
  | _ => Raise TypeError
  end.

Definition is_substring (k s : string) : bool :=
  match String.index 0 k s with Some _ => true | None => false end.

(** [k in c] for a string [k]. *)
Definition py_in (k : string) (c : pyval) : outcome bool :=
  match c with
  | VDict d => Ok (dict_mem k d)
  | VList l => Ok (existsb (py_eqb (VStr k)) l)
  | VStr s => Ok (is_substring k s)
  | _ => Raise TypeError
  end.

(** [v.copy()]: dicts and lists have it; the copy is shallow, and nothing in
    the module mutates a nested value through a copy. *)
Definition py_copy (v : pyval) : outcome pyval :=
  match v with
  | VDict _ | VList _ => Ok v
  | _ => Raise AttributeError
  end.

(** [v.pop(k)] on a dict: the value and the dict without the key. *)
Definition py_pop (v : pyval) (k : string) : outcome (pyval * pyval) :=
  match v with
  | VDict d =>
      match dict_get k d with
      | Some x => Ok (x, VDict (dict_del k d))
      | None => Raise (KeyError (VStr k))
      end
  | VList _ => Raise TypeError
  | _ => Raise AttributeError
  end.

(** The operand of [%d]. *)
Definition py_int (v : pyval) : outcome Z :=
  match as_index v with
  | Some z => Ok z
  | None => Raise TypeError
  end.

(** *** Sets *)

Definition mem (x : pyval) (l : list pyval) : bool := existsb (py_eqb x) l.

Fixpoint dedup (l : list pyval) : list pyval :=
  match l with
  | [] => []
  | x :: l' => if mem x l' then dedup l' else x :: dedup l'
  end.

(** [set(v)]: the distinct elements of [v]; every element must be hashable.
    A set is kept as a list of distinct values; the order in which Python
    visits it is chosen by [set_iter] below. *)
Definition py_set (v : pyval) : outcome (list pyval) :=
  match py_iter v with
  | Ok l => if forallb hashable l then Ok (dedup l) else Raise TypeError
  | Raise e => Raise e
  end.

Definition set_sub (a b : list pyval) : list pyval :=
  filter (fun x => negb (mem x b)) a.

Definition set_and (a b : list pyval) : list pyval :=
  filter (fun x => mem x b) a.

(** The iteration order of a Python set is unspecified: any rearrangement
    of the elements. *)
Class SetOrder : Type := {
  set_iter : list pyval -> list pyval;
  set_iter_perm : forall l, Permutation (set_iter l) l
}.

End Py.

(* ================================================================== *)
(** ** The transport client *)
(* ================================================================== *)

Module Transport.
Import Py.

Inductive verb : Type := GET | POST | PUT | DELETE.

(** One call of [client.get], [client.post], [client.put] or
    [client.delete]: the path, the query parameters ([params=]) and the
    JSON body ([json=]). *)
Record request : Type := {
  req_verb : verb;
  req_path : string;
  req_params : dict;
  req_json : option pyval
}.

(** What the module reads of a response: [status_code], [json()] and
    [text]. *)
Record response : Type := {
  status_code : Z;
  json : pyval;
  text : string
}.

(** The remote service: any state, any deterministic reaction to a
    request. *)
Class Client : Type := {
  remote : Type;
  serve : request -> remote -> response * remote
}.

Definition mutating (r : request) : bool :=
  match req_verb r with
  | GET => false
  | _ => true
  end.

Section Monad.
Context {C : Client}.

(** The remote state and the calls issued so far, oldest first. *)
Record world : Type := {
  server : remote;
  calls : list request
}.

(** A computation may raise and may talk to the remote service. *)
Definition M (A : Type) : Type := world -> outcome A * world.

Definition ret {A : Type} (a : A) : M A := fun w => (Ok a, w).

Definition throw {A : Type} (e : exn) : M A := fun w => (Raise e, w).

Definition bind {A B : Type} (m : M A) (k : A -> M B) : M B :=
  fun w =>
    match m w with
    | (Ok a, w') => k a w'
    | (Raise e, w') => (Raise e, w')
    end.

Definition lift {A : Type} (o : outcome A) : M A := fun w => (o, w).

Definition call (r : request) : M response :=
  fun w =>
    let (resp, s) := serve r (server w) in
    (Ok resp, {| server := s; calls := calls w ++ [r] |}).

Definition client_get (path : string) (params : dict) : M response :=
  call {| req_verb := GET; req_path := path;
          req_params := params; req_json := None |}.

Definition client_post (path : string) (body : pyval) : M response :=
  call {| req_verb := POST; req_path := path;
          req_params := []; req_json := Some body |}.

Definition client_put (path : string) (body : pyval) : M response :=
  call {| req_verb := PUT; req_path := path;
          req_params := []; req_json := Some body |}.

Definition client_delete (path : string) : M response :=
  call {| req_verb := DELETE; req_path := path;
          req_params := []; req_json := None |}.

(** [for x in l: acc = body(x, acc)], stopping at the first exception. *)
Fixpoint for_each {A S : Type} (l : list A) (body : A -> S -> M S) (acc : S)
  : M S :=
  match l with
  | [] => ret acc
  | x :: l' => bind (body x acc) (for_each l' body)
  end.

(** Start a run against a remote state, with an empty trace. *)
Definition fresh (s : remote) : world := {| server := s; calls := [] |}.

End Monad.

(** [response.raise_for_status()]. *)
Definition raise_for_status (r : response) : outcome unit :=
  if (400 <=? status_code r)%Z && (status_code r <? 600)%Z
  then Raise (HTTPError (status_code r))
  else Ok tt.

(** The exception monad of the pure functions. *)
Definition obind {A B : Type} (o : outcome A) (k : A -> outcome B)
  : outcome B :=
  match o with
  | Ok a => k a
  | Raise e => Raise e
  end.

Fixpoint ofold {A S : Type} (l : list A) (body : A -> S -> outcome S)
  (acc : S) : outcome S :=
  match l with
  | [] => Ok acc
  | x :: l' => obind (body x acc) (ofold l' body)
  end.

Fixpoint omap {A B : Type} (f : A -> outcome B) (l : list A)
  : outcome (list B) :=
  match l with
  | [] => Ok []
  | x :: l' =>
      obind (f x) (fun y => obind (omap f l') (fun ys => Ok (y :: ys)))
  end.

End Transport.

Declare Scope py_scope.
Delimit Scope py_scope with py.

Notation "x <- m ;; k" := (Transport.bind m (fun x => k))
  (at level 100, m at next level, right associativity) : py_scope.
Notation "' p <- m ;; k" := (Transport.bind m (fun x => match x with p => k end))
  (at level 100, p pattern, m at next level, right associativity) : py_scope.
Notation "m ;; k" := (Transport.bind m (fun _ => k))
  (at level 100, right associativity) : py_scope.
Notation "x <~ o ;; k" := (Transport.obind o (fun x => k))
  (at level 100, o at next level, right associativity) : py_scope.
Notation "' p <~ o ;; k" :=
  (Transport.obind o (fun x => match x with p => k end))
  (at level 100, p pattern, o at next level, right associativity) : py_scope.

(* ================================================================== *)
(** ** Collaborators that live outside the module *)
(* ================================================================== *)

Module Collaborators.
Import Py.

(** One [(key, old, new)] triple of the settings differ. *)
Definition difference : Type := string * pyval * pyval.

(** [common_errata_tool.diff_settings], [describe_changes] and
    [task_diff_data] are imported by the module and defined elsewhere.
    They are taken as parameters: any deterministic functions of their
    arguments, the first and the last free to raise. *)
Class SettingsDiffer : Type := {
  diff_settings : pyval -> dict -> outcome (list difference);
  describe_changes : list difference -> list string;
  diff_data : Type;
  task_diff_data :
    pyval (* before *) -> pyval (* after *) -> pyval (* item_name *) ->
    string (* item_type *) -> list string (* keys_to_copy *) ->
    outcome diff_data
}.

End Collaborators.

(* ================================================================== *)
(** ** library/errata_tool_cdn_repo.py *)
(* ================================================================== *)

Module CdnRepo.
Import Py Transport Collaborators.
Local Open Scope py_scope.

Definition PAGE_SIZE : Z := 100.

(** *** Small steps shared by several functions *)

(** A value used as a dict key.  Lists and dicts are unhashable in Python
    too; other keys than strings are outside the model's dicts. *)
Definition as_key (v : pyval) : outcome string :=
  match v with
  | VStr s => Ok s
  | _ => Raise TypeError
  end.

(** [d[k1][k2] = v]. *)
Definition setitem2 (d : dict) (k1 k2 : string) (v : pyval) : outcome dict :=
  match dict_get k1 d with
  | Some (VDict inner) => Ok (dict_set k1 (VDict (dict_set k2 v inner)) d)
  | Some _ => Raise TypeError
  | None => Raise (KeyError (VStr k1))
  end.

(** [v.items()] and [v.keys()]: only dicts have them. *)
Definition py_items (v : pyval) : outcome dict :=
  match v with
  | VDict d => Ok d
  | _ => Raise AttributeError
  end.

(** [d.pop(k)] and [del d[k]] on a dict. *)
Definition dict_pop (k : string) (d : dict) : outcome (pyval * dict) :=
  match dict_get k d with
  | Some x => Ok (x, dict_del k d)
  | None => Raise (KeyError (VStr k))
  end.

(** [d.update(other)]: another dict, or a list of [[key, value]] pairs. *)
Definition py_update (d : dict) (other : pyval) : outcome dict :=
  match other with
  | VDict o => Ok (fold_left (fun acc kv => dict_set (fst kv) (snd kv) acc) o d)
  | VList l =>
      ofold l (fun pair acc =>
                 match pair with
                 | VList [VStr k; v] => Ok (dict_set k v acc)
                 | _ => Raise TypeError
                 end) d
  | _ => Raise TypeError
  end.

(** *** normalize_packages *)

(** The body of [for tag in tags]. *)
Definition normalize_tag (package_name : string) (tag : pyval)
  (normalized : dict) : outcome dict :=
  match tag with
  | VStr s =>
      (* No variant restrictions present *)
      setitem2 normalized package_name s (VDict [])
  | VDict d =>
      (* Variant restrictions present *)
      tag_string <~ match dict_keys d with
                    | k :: _ => Ok k
                    | [] => Raise StopIteration
                    end ;;
      variant_restriction <~ py_getitem tag (VStr tag_string) ;;
      setitem2 normalized package_name tag_string variant_restriction
  | _ => Raise (ValueError (VStr ("unexpected " @@ type_name tag)))
  end.

Definition normalize_packages (packages : pyval) : outcome dict :=
  let normalized := [] in
  items <~ py_items packages ;;
  ofold items
    (fun item normalized =>
       let package_name := fst item in
       let normalized := dict_set package_name (VDict []) normalized in
       tags <~ py_iter (snd item) ;;
       ofold tags (normalize_tag package_name) normalized)
    normalized.

Section WithClient.
Context {SO : SetOrder} {C : Client} {SD : SettingsDiffer}.

(** *** get_package_tags_page *)

Definition get_package_tags_page (name : pyval) (page_number : Z) : M pyval :=
  let params := [("page[size]", VInt PAGE_SIZE);
                 ("page[number]", VInt page_number);
                 ("filter[cdn_repo_name]", name)] in
  let endpoint := "api/v1/cdn_repo_package_tags" in
  response <- client_get endpoint params ;;
  lift (raise_for_status response) ;;
  let data := json response in
  lift (py_getitem data (VStr "data")).

(** *** get_package_tags *)

(** The [while] loop of lines 230-233.  [found] starts as the empty list and
    is compared with [PAGE_SIZE] by [==], as in the source.  [fuel] bounds
    the iterations the model follows. *)
Fixpoint fetch_pages (fuel : nat) (name : pyval) (page_number : Z)
  (elements : list pyval) (found : pyval) : M (list pyval) :=
  match fuel with
  | O => throw LoopBound
  | S fuel' =>
      if (page_number =? 0)%Z || py_eqb found (VInt PAGE_SIZE) then
        let page_number := (page_number + 1)%Z in
        found <- get_package_tags_page name page_number ;;
        more <- lift (py_iter found) ;;
        fetch_pages fuel' name page_number (elements ++ more) found
      else ret elements
  end.

(** The body of [for element in elements], lines 236-246. *)
Definition classify_element (element : pyval) (packages : dict)
  : outcome dict :=
  id_ <~ py_getitem element (VStr "id") ;;
  relationships <~ py_getitem element (VStr "relationships") ;;
  package <~ py_getitem relationships (VStr "package") ;;
  package_name <~ py_getitem package (VStr "name") ;;
  attributes <~ py_getitem element (VStr "attributes") ;;
  tag_template <~ py_getitem attributes (VStr "tag_template") ;;
  package_name <~ as_key package_name ;;
  let packages :=
    if negb (dict_mem package_name packages)
    then dict_set package_name (VDict []) packages
    else packages in
  has_variant <~ py_in "variant" relationships ;;
  if has_variant then
    variant <~ py_getitem relationships (VStr "variant") ;;
    variant_name <~ py_getitem variant (VStr "name") ;;
    tag_template <~ as_key tag_template ;;
    setitem2 packages package_name tag_template
      (VDict [("variant", variant_name); ("id", id_)])
  else
    tag_template <~ as_key tag_template ;;
    setitem2 packages package_name tag_template (VDict [("id", id_)]).

(** Iterations of the page loop the model is prepared to follow;
    [fetch_pages_fuel] shows that two are always enough. *)
Definition page_fuel : nat := 1000.

Definition get_package_tags (name : pyval) : M dict :=
  let page_number := 0%Z in
  let elements := [] in
  let found := VList [] in
  elements <- fetch_pages page_fuel name page_number elements found ;;
  let packages := [] in
  lift (ofold elements classify_element packages).

(** *** get_cdn_repo *)

(** Lines 273-287: the simplified dict built from one [cdn_repo_data]. *)
Definition simplify_cdn_repo (cdn_repo_data : pyval) : outcome pyval :=
  let cdn_repo := [] in
  id_ <~ py_getitem cdn_repo_data (VStr "id") ;;
  let cdn_repo := dict_set "id" id_ cdn_repo in
  attributes <~ py_getitem cdn_repo_data (VStr "attributes") ;;
  cdn_repo <~ py_update cdn_repo attributes ;;
  relationships <~ py_getitem cdn_repo_data (VStr "relationships") ;;
  arch <~ py_getitem relationships (VStr "arch") ;;
  arch_name <~ py_getitem arch (VStr "name") ;;
  let cdn_repo := dict_set "arch" arch_name cdn_repo in
  (* variants *)
  relationships <~ py_getitem cdn_repo_data (VStr "relationships") ;;
  variants <~ py_getitem relationships (VStr "variants") ;;
  variants <~ py_iter variants ;;
  variants <~ omap (fun variant => py_getitem variant (VStr "name")) variants ;;
  let cdn_repo := dict_set "variants" (VList variants) cdn_repo in
  (* packages (names only) *)
  relationships <~ py_getitem cdn_repo_data (VStr "relationships") ;;
  packages <~ py_get relationships "packages" (VList []) ;;
  packages <~ py_iter packages ;;
  package_names <~
    omap (fun package => py_getitem package (VStr "name")) packages ;;
  let cdn_repo := dict_set "package_names" (VList package_names) cdn_repo in
  Ok (VDict cdn_repo).

(** Returns [VNone] for Python's [None]. *)
Definition get_cdn_repo (name : pyval) (cdn_repo_data : option pyval)
  : M pyval :=
  match cdn_repo_data with
  | None =>
      response <- client_get "api/v1/cdn_repos" [("filter[name]", name)] ;;
      lift (raise_for_status response) ;;
      let json := json response in
      results <- lift (py_getitem json (VStr "data")) ;;
      if negb (truthy results) then ret VNone
      else
        n <- lift (py_len results) ;;
        if (1 <? n)%Z then
          throw (ValueError
                   (VStr ("multiple " @@ py_str name @@ " cdn_repos found")))
        else
          cdn_repo_data <- lift (py_getitem results (VInt 0)) ;;
          lift (simplify_cdn_repo cdn_repo_data)
  | Some cdn_repo_data => lift (simplify_cdn_repo cdn_repo_data)
  end.

(** *** cdn_repo_api_data, create_cdn_repo, edit_cdn_repo *)

Definition cdn_repo_api_data (params : dict) : pyval :=
  let cdn_repo := params in
  let cdn_repo :=
    match dict_get "arch" cdn_repo with
    | Some arch => dict_set "arch_name" arch (dict_del "arch" cdn_repo)
    | None => cdn_repo
    end in
  let cdn_repo :=
    match dict_get "variants" cdn_repo with
    | Some variants =>
        dict_set "variant_names" variants (dict_del "variants" cdn_repo)
    | None => cdn_repo
    end in
  VDict [("cdn_repo", VDict cdn_repo)].

Definition create_cdn_repo (params : dict) : M pyval :=
  let data := cdn_repo_api_data params in
  response <- client_post "api/v1/cdn_repos" data ;;
  let data := json response in
  (if negb (status_code response =? 201)%Z then
     error <- lift (py_get data "error" VNone) ;;
     throw (ValueError (if truthy error then error
                        else VStr (text response)))
   else ret tt) ;;
  name <- lift (py_getitem (VDict params) (VStr "name")) ;;
  cdn_repo_data <- lift (py_getitem data (VStr "data")) ;;
  get_cdn_repo name (Some cdn_repo_data).

Definition edit_cdn_repo (cdn_repo_id : pyval) (differences : list difference)
  : M unit :=
  let params :=
    fold_left (fun params (difference : difference) =>
                 let '(key, _, new) := difference in
                 dict_set key new params) differences [] in
  let data := cdn_repo_api_data params in
  id <- lift (py_int cdn_repo_id) ;;
  response <- client_put ("api/v1/cdn_repos/" @@ str_of_Z id) data ;;
  if negb (status_code response =? 200)%Z then
    let errors := json response in
    throw (ValueError errors)
  else ret tt.

(** *** add_package_tag, edit_package_tag, delete_package_tag *)

Definition add_package_tag (repo_name : pyval) (package_name : string)
  (tag_template variant : pyval) : M unit :=
  let endpoint := "api/v1/cdn_repo_package_tags" in
  let json_settings := [("cdn_repo_name", repo_name);
                        ("package_name", VStr package_name);
                        ("tag_template", tag_template)] in
  let json_settings :=
    if truthy variant then dict_set "variant_name" variant json_settings
    else json_settings in
  let json_ := VDict [("cdn_repo_package_tag", VDict json_settings)] in
  response <- client_post endpoint json_ ;;
  if negb (status_code response =? 201)%Z then
    let data := json response in
    error <- lift (py_getitem data (VStr "error")) ;;
    let message :=
      "request: " @@ py_str json_ @@ ", error: " @@ py_str error in
    throw (ValueError (VStr message))
  else ret tt.

Definition edit_package_tag (tag_id : pyval) (desired_tag : pyval) : M unit :=
  variant <- lift (py_get desired_tag "variant" VNone) ;;
  let settings :=
    if truthy variant then [("variant_name", variant)]
    else [("variant_id", VNone)] in
  let json_ := VDict [("cdn_repo_package_tag", VDict settings)] in
  id <- lift (py_int tag_id) ;;
  let endpoint := "api/v1/cdn_repo_package_tags/" @@ str_of_Z id in
  response <- client_put endpoint json_ ;;
  if negb (status_code response =? 200)%Z then
    let data := json response in
    error <- lift (py_getitem data (VStr "error")) ;;
    throw (ValueError error)
  else ret tt.

Definition delete_package_tag (tag_id : pyval) : M unit :=
  id <- lift (py_int tag_id) ;;
  response <- client_delete ("api/v1/cdn_repo_package_tags/" @@ str_of_Z id) ;;
  if negb (status_code response =? 204)%Z then
    let data := json response in
    error <- lift (py_getitem data (VStr "error")) ;;
    throw (ValueError error)
  else ret tt.

(** *** compare_package_tags *)

(** [None] is Python's implicit [return None] after the last [if]. *)
Definition compare_package_tags (package_name : string) (tag_template : pyval)
  (current desired : pyval) : outcome (option (list string)) :=
  current_variant <~ py_get current "variant" VNone ;;
  desired_variant <~ py_get desired "variant" VNone ;;
  if py_eqb current_variant desired_variant then Ok (Some [])
  else if truthy current_variant && negb (truthy desired_variant) then
    Ok (Some ["removing " @@ dq @@ py_str current_variant @@ dq
              @@ " variant from " @@ package_name @@ " "
              @@ dq @@ py_str tag_template @@ dq @@ " tag template"])
  else if negb (truthy current_variant) && truthy desired_variant then
    Ok (Some ["adding " @@ dq @@ py_str desired_variant @@ dq
              @@ " variant to " @@ package_name @@ " "
              @@ dq @@ py_str tag_template @@ dq @@ " tag template"])
  else if negb (py_eqb current_variant desired_variant) then
    Ok (Some ["changing " @@ package_name @@ " "
              @@ dq @@ py_str tag_template @@ dq @@ " variant from "
              @@ dq @@ py_str current_variant @@ dq @@ " to "
              @@ dq @@ py_str desired_variant @@ dq])
  else Ok None.

(** *** ensure_package_tags *)

(** Truthiness of what [compare_package_tags] returned. *)
Definition nonempty (differences : option (list string)) : bool :=
  match differences with
  | Some (_ :: _) => true
  | _ => false
  end.

Definition extend (changes : list string) (differences : option (list string))
  : list string :=
  match differences with
  | Some l => changes ++ l
  | None => changes
  end.

Definition ensure_package_tags (repo_name : pyval) (package_name : string)
  (check_mode : bool) (current_tags desired_tags : pyval) : M (list string) :=
  let changes := [] in
  (* Find tags to remove. *)
  current_set <- lift (py_set current_tags) ;;
  desired_set <- lift (py_set desired_tags) ;;
  let tag_templates_to_delete := set_sub current_set desired_set in
  changes <-
    for_each (set_iter tag_templates_to_delete)
      (fun tag_template changes =>
         let change := "removing " @@ dq @@ py_str tag_template @@ dq
                       @@ " tag template from " @@ dq @@ package_name @@ dq in
         let changes := changes ++ [change] in
         if check_mode then ret changes
         else
           current_tag <- lift (py_getitem current_tags tag_template) ;;
           id_to_delete <- lift (py_getitem current_tag (VStr "id")) ;;
           delete_package_tag id_to_delete ;;
           ret changes)
      changes ;;
  (* Find tags to modify (ie change the variant). *)
  current_set <- lift (py_set current_tags) ;;
  desired_set <- lift (py_set desired_tags) ;;
  let tag_templates_to_modify := set_and current_set desired_set in
  changes <-
    for_each (set_iter tag_templates_to_modify)
      (fun tag_template changes =>
         current_tag <- lift (py_getitem current_tags tag_template) ;;
         current_tag <- lift (py_copy current_tag) ;;
         desired_tag <- lift (py_getitem desired_tags tag_template) ;;
         desired_tag <- lift (py_copy desired_tag) ;;
         ' (tag_template_id, current_tag) <- lift (py_pop current_tag "id") ;;
         differences <- lift (compare_package_tags package_name tag_template
                                current_tag desired_tag) ;;
         if nonempty differences then
           let changes := extend changes differences in
           if check_mode then ret changes
           else
             edit_package_tag tag_template_id desired_tag ;;
             ret changes
         else ret changes)
      changes ;;
  (* Find tags to add. *)
  desired_set <- lift (py_set desired_tags) ;;
  current_set <- lift (py_set current_tags) ;;
  let tag_templates_to_add := set_sub desired_set current_set in
  changes <-
    for_each (set_iter tag_templates_to_add)
      (fun tag_template changes =>
         let changes :=
           changes ++ ["adding " @@ dq @@ py_str tag_template @@ dq
                       @@ " tag template to " @@ dq @@ package_name @@ dq] in
         if check_mode then ret changes
         else
           tag <- lift (py_getitem desired_tags tag_template) ;;
           variant <- lift (py_get tag "variant" VNone) ;;
           add_package_tag repo_name package_name tag_template variant ;;
           ret changes)
      changes ;;
  ret changes.

(** *** ensure_packages_tags *)

Definition ensure_packages_tags (name : pyval) (check_mode : bool)
  (packages : dict) : M (list string * dict) :=
  let changes := [] in
  current <- get_package_tags name ;;
  changes <-
    for_each (dict_keys packages)
      (fun package_name changes =>
         let current_tags :=
           match dict_get package_name current with
           | Some tags => tags
           | None => VList []
           end in
         desired_tags <-
           lift (py_getitem (VDict packages) (VStr package_name)) ;;
         package_changes <-
           ensure_package_tags name package_name check_mode
             current_tags desired_tags ;;
         ret (changes ++ package_changes))
      changes ;;
  (* The caller needs to know the list of changes and the current state *)
  ret (changes, current).

(** *** tag_name_or_variant_dict, package_list_for_diff, prepare_diff_data *)

Definition tag_name_or_variant_dict (tag_name : string) (tag_info : pyval)
  : outcome pyval :=
  has_variant <~ py_in "variant" tag_info ;;
  if has_variant then
    variant <~ py_getitem tag_info (VStr "variant") ;;
    Ok (VDict [(tag_name, VDict [("variant", variant)])])
  else Ok (VStr tag_name).

(** [sorted(items, key=lambda kv: kv[0])]: a stable insertion sort on the
    keys, compared as strings. *)
Fixpoint insert_by_key (kv : string * pyval) (l : dict) : dict :=
  match l with
  | [] => [kv]
  | kv' :: l' =>
      if String.leb (fst kv) (fst kv') then kv :: l
      else kv' :: insert_by_key kv l'
  end.

Definition sorted_by_key (l : dict) : dict :=
  fold_right insert_by_key [] l.

Definition package_list_for_diff (all_packages : pyval) : outcome pyval :=
  items <~ py_items all_packages ;;
  packages <~
    ofold items
      (fun item acc =>
         let package_name := fst item in
         package_tags <~ py_items (snd item) ;;
         tags <~ omap (fun kv => tag_name_or_variant_dict (fst kv) (snd kv))
                      (sorted_by_key package_tags) ;;
         Ok (dict_set package_name (VList tags) acc))
      [] ;;
  Ok (VDict packages).

(** [deepcopy] is the identity on values. *)
Definition prepare_diff_data (before : pyval) (after : dict)
  (before_packages after_packages : pyval) : outcome diff_data :=
  (* Add a packages key with the massaged packages info *)
  packages <~ package_list_for_diff after_packages ;;
  let after := dict_set "packages" packages after in
  (* Remove the package_names key since it's redundant *)
  ' (_, after) <~ dict_pop "package_names" after ;;
  (* Same thing for before if it's present *)
  before <~
    match before with
    | VNone => Ok VNone
    | VDict before =>
        packages <~ package_list_for_diff before_packages ;;
        let before := dict_set "packages" packages before in
        ' (_, before) <~ dict_pop "package_names" before ;;
        Ok (VDict before)
    | _ =>
        _ <~ package_list_for_diff before_packages ;;
        Raise TypeError
    end ;;
  item_name <~ py_getitem (VDict after) (VStr "name") ;;
  task_diff_data before (VDict after) item_name "cdn repo"
    ["quay_enabled"; "external_name"].

(** *** ensure_cdn_repo *)

(** The [result] dict: [changed], [stdout_lines] and, once set, [diff]. *)
Record run_result : Type := {
  changed : bool;
  stdout_lines : list string;
  diff : option diff_data
}.

Definition is_none (v : pyval) : bool :=
  match v with
  | VNone => true
  | _ => false
  end.

(** Lines 620-627: the settings of the repository record. *)
Definition settle_settings (check_mode : bool) (params : dict)
  (cdn_repo : pyval) (result : run_result) : M run_result :=
  differences <- lift (diff_settings cdn_repo params) ;;
  match differences with
  | _ :: _ =>
      let changes := describe_changes differences in
      let result := {| changed := true;
                       stdout_lines := stdout_lines result ++ changes;
                       diff := diff result |} in
      if negb check_mode then
        id_ <- lift (py_getitem cdn_repo (VStr "id")) ;;
        edit_cdn_repo id_ differences ;;
        ret result
      else ret result
  | [] => ret result
  end.

(** Lines 629-642: the package tags and the diff of the report. *)
Definition settle_packages (check_mode : bool) (name : pyval)
  (params packages : dict) (cdn_repo : pyval) (result : run_result)
  : M run_result :=
  (* packages (from /api/v1/cdn_repo_package_tags): *)
  ' (package_tag_changes, current_packages) <-
    ensure_packages_tags name check_mode packages ;;
  let result :=
    match package_tag_changes with
    | _ :: _ => {| changed := true;
                   stdout_lines := stdout_lines result ++ package_tag_changes;
                   diff := diff result |}
    | [] => result
    end in
  (* (Don't redo the diff if the repo was just created) *)
  match changed result, diff result with
  | true, None =>
      d <- lift (prepare_diff_data cdn_repo params
                   (VDict current_packages) (VDict packages)) ;;
      ret {| changed := changed result;
             stdout_lines := stdout_lines result;
             diff := Some d |}
  | _, _ => ret result
  end.

(** Lines 620-642, reached with the repository read or just created. *)
Definition converge_cdn_repo (check_mode : bool) (name : pyval)
  (params packages : dict) (cdn_repo : pyval) (result : run_result)
  : M run_result :=
  result <- settle_settings check_mode params cdn_repo result ;;
  settle_packages check_mode name params packages cdn_repo result.

Definition ensure_cdn_repo (check_mode : bool) (params : dict) : M run_result :=
  let result := {| changed := false; stdout_lines := []; diff := None |} in
  let params := filter (fun kv => negb (is_none (snd kv))) params in
  name <- lift (py_getitem (VDict params) (VStr "name")) ;;
  (* Special handling for packages parameter: *)
  ' (packages, params) <- lift (dict_pop "packages" params) ;;
  package_names <- lift (py_items packages) ;;
  let package_names := map VStr (dict_keys package_names) in
  let params := dict_set "package_names" (VList package_names) params in
  packages <- lift (normalize_packages packages) ;;
  (* main cdn_repo *)
  cdn_repo <- get_cdn_repo name None ;;
  if negb (truthy cdn_repo) then
    d <- lift (prepare_diff_data cdn_repo params (VDict []) (VDict packages)) ;;
    let result := {| changed := true;
                     stdout_lines := ["created " @@ py_str name];
                     diff := Some d |} in
    if check_mode then ret result
    else
      cdn_repo <- create_cdn_repo params ;;
      converge_cdn_repo check_mode name params packages cdn_repo result
  else converge_cdn_repo check_mode name params packages cdn_repo result.

(** *** run_module *)

(** How the module ends: [module.exit_json] with the result, or
    [module.fail_json] with a message. *)
Inductive module_exit : Type :=
| ExitJson (result : run_result)
| FailJson (msg : string).

(** Lines 660-685.  [AnsibleModule] parses and checks the arguments and is
    outside the module: [check_mode] and [params] are what it hands over.
    [fail_json] ends the run. *)
Definition run_module (check_mode : bool) (params : dict) : M module_exit :=
  (* The arch default value depends on content_type. *)
  arch <- lift (py_getitem (VDict params) (VStr "arch")) ;;
  params <-
    (if is_none arch then
       content_type <-
         lift (py_getitem (VDict params) (VStr "content_type")) ;;
       if py_eqb content_type (VStr "Docker")
       then ret (dict_set "arch" (VStr "multi") params)
       else ret (dict_set "arch" (VStr "x86_64") params)
     else ret params) ;;
  (* We will guard that here for now. *)
  content_type <- lift (py_getitem (VDict params) (VStr "content_type")) ;;
  let run :=
    result <- ensure_cdn_repo check_mode params ;;
    ret (ExitJson result) in
  if py_eqb content_type (VStr "Docker") then
    arch <- lift (py_getitem (VDict params) (VStr "arch")) ;;
    if negb (py_eqb arch (VStr "multi")) then
      ret (FailJson ("arch must be " @@ dq @@ "multi" @@ dq
                     @@ " for Docker repos"))
    else
      use_for_tps <- lift (py_getitem (VDict params) (VStr "use_for_tps")) ;;
      if truthy use_for_tps then
        ret (FailJson ("do not set " @@ dq @@ "use_for_tps" @@ dq
                       @@ " for Docker repos"))
      else run
  else run.

End WithClient.

End CdnRepo.

(* ================================================================== *)
(** ** Concrete collaborators, for running the module *)
(* ================================================================== *)

Module Reference.
Import Py Transport Collaborators.

(** *** Set iteration in insertion order *)

#[export] Instance insertion_order : SetOrder :=
  {| set_iter := fun l => l;
     set_iter_perm := fun l => Permutation_refl l |}.

(** *** The settings differ *)

(** Modelled from the spec: [common_errata_tool.diff_settings] is not in the
    sources at hand.  Section 4.3: the [(key, old_value, new_value)] triples
    for every key present in both structures whose values differ; the keys
    are visited in the order of the declared parameters. *)
Definition spec_diff_settings (settings : pyval) (params : dict)
  : outcome (list difference) :=
  match settings with
  | VDict current =>
      Ok (flat_map
            (fun kv : string * pyval =>
               match dict_get (fst kv) current with
               | Some old => if py_eqb old (snd kv) then []
                             else [(fst kv, old, snd kv)]
               | None => []
               end) params)
  | _ => Raise TypeError
  end.

(** Modelled from the spec: [common_errata_tool.describe_changes] is not in
    the sources at hand.  Section 6: each triple is rendered into one
    human-readable string; the wording is this model's. *)
Definition spec_describe_changes (differences : list difference)
  : list string :=
  map (fun d : difference =>
         let '(key, old, new) := d in
         "changing " @@ key @@ " from " @@ py_str old @@ " to " @@ py_str new)
      differences.

(** Modelled from the spec: [common_errata_tool.task_diff_data] is not in
    the sources at hand.  Section 6: a structured artifact built from
    [before], [after], the item name and type and the keys to carry through;
    it is kept as the record of those arguments. *)
Record spec_diff_data : Type := {
  diff_before : pyval;
  diff_after : pyval;
  diff_item_name : pyval;
  diff_item_type : string;
  diff_keys_to_copy : list string
}.

#[export] Instance spec_differ : SettingsDiffer :=
  {| diff_settings := spec_diff_settings;
     describe_changes := spec_describe_changes;
     diff_data := spec_diff_data;
     task_diff_data := fun before after item_name item_type keys =>
       Ok {| diff_before := before; diff_after := after;
             diff_item_name := item_name; diff_item_type := item_type;
             diff_keys_to_copy := keys |} |}.

(** *** An in-memory remote service

    It keeps the repository records and the tag associations as the JSON
    documents it serves, stores what it is sent, and pages the tag listing
    by [page[size]].  It stands for a remote that reflects every mutation
    in its later answers. *)

Record store : Type := {
  repos : list pyval;
  tags : list pyval;
  next_id : Z
}.

Definition field (k : string) (v : pyval) : pyval :=
  match v with
  | VDict d => match dict_get k d with Some x => x | None => VNone end
  | _ => VNone
  end.

Definition names (v : pyval) : pyval :=
  match v with
  | VList l => VList (map (fun n => VDict [("name", n)]) l)
  | _ => VList []
  end.

Definition reply (status : Z) (body : pyval) : response :=
  {| status_code := status; json := body; text := py_repr body |}.

Definition not_found : response :=
  reply 404 (VDict [("error", VStr "not found")]).

(** The repository document built from, or updated by, a [cdn_repo] body. *)
Definition repo_document (id : pyval) (old : pyval) (body : pyval) : pyval :=
  let pick k fallback :=
    match body with
    | VDict d => match dict_get k d with Some x => x | None => fallback end
    | _ => fallback
    end in
  let attrs := field "attributes" old in
  let rels := field "relationships" old in
  VDict
    [("id", id);
     ("type", VStr "cdn_repos");
     ("attributes",
      VDict [("name", pick "name" (field "name" attrs));
             ("release_type",
              pick "release_type" (field "release_type" attrs));
             ("content_type",
              pick "content_type" (field "content_type" attrs));
             ("use_for_tps", pick "use_for_tps" (field "use_for_tps" attrs))]);
     ("relationships",
      VDict [("arch",
              VDict [("name", pick "arch_name"
                                (field "name" (field "arch" rels)))]);
             ("variants",
              match body with
              | VDict d => match dict_get "variant_names" d with
                           | Some l => names l
                           | None => field "variants" rels
                           end
              | _ => field "variants" rels
              end);
             ("packages",
              match body with
              | VDict d => match dict_get "package_names" d with
                           | Some l => names l
                           | None => field "packages" rels
                           end
              | _ => field "packages" rels
              end)])].

(** The tag association document built from a [cdn_repo_package_tag] body. *)
Definition tag_document (id : Z) (body : pyval) : pyval :=
  let rels := [("cdn_repo", VDict [("name", field "cdn_repo_name" body)]);
               ("package", VDict [("name", field "package_name" body)])] in
  let rels :=
    match field "variant_name" body with
    | VNone => rels
    | v => rels ++ [("variant", VDict [("name", v)])]
    end in
  VDict [("id", VInt id);
         ("type", VStr "cdn_repo_package_tags");
         ("attributes", VDict [("tag_template", field "tag_template" body)]);
         ("relationships", VDict rels)].

(** A stored tag association with its variant set or cleared. *)
Definition retag (doc : pyval) (body : pyval) : pyval :=
  match doc with
  | VDict d =>
      match dict_get "relationships" d with
      | Some (VDict rels) =>
          let rels :=
            match field "variant_name" body with
            | VNone => dict_del "variant" rels
            | v => dict_set "variant" (VDict [("name", v)]) rels
            end in
          VDict (dict_set "relationships" (VDict rels) d)
      | _ => doc
      end
  | _ => doc
  end.

Definition has_path (prefix : string) (path : string) (doc : pyval) : bool :=
  match field "id" doc with
  | VInt id => String.eqb path (prefix @@ str_of_Z id)
  | _ => false
  end.

Definition page (size number : pyval) (l : list pyval) : list pyval :=
  match size, number with
  | VInt size, VInt number =>
      firstn (Z.to_nat size) (skipn (Z.to_nat ((number - 1) * size)) l)
  | _, _ => l
  end.

Definition reference_serve (r : request) (s : store) : response * store :=
  let body := match req_json r with Some b => b | None => VNone end in
  let repo_path := has_path "api/v1/cdn_repos/" (req_path r) in
  let tag_path := has_path "api/v1/cdn_repo_package_tags/" (req_path r) in
  match req_verb r with
  | GET =>
      if String.eqb (req_path r) "api/v1/cdn_repos" then
        let name := field "filter[name]" (VDict (req_params r)) in
        let found :=
          filter (fun doc => py_eqb (field "name" (field "attributes" doc)) name)
                 (repos s) in
        (reply 200 (VDict [("data", VList found)]), s)
      else if String.eqb (req_path r) "api/v1/cdn_repo_package_tags" then
        let name := field "filter[cdn_repo_name]" (VDict (req_params r)) in
        let found :=
          filter (fun doc =>
                    py_eqb (field "name"
                              (field "cdn_repo" (field "relationships" doc)))
                           name)
                 (tags s) in
        let found := page (field "page[size]" (VDict (req_params r)))
                          (field "page[number]" (VDict (req_params r)))
                          found in
        (reply 200 (VDict [("data", VList found)]), s)
      else (not_found, s)
  | POST =>
      if String.eqb (req_path r) "api/v1/cdn_repos" then
        let doc := repo_document (VInt (next_id s)) VNone
                                 (field "cdn_repo" body) in
        (reply 201 (VDict [("data", doc)]),
         {| repos := repos s ++ [doc]; tags := tags s;
            next_id := (next_id s + 1)%Z |})
      else if String.eqb (req_path r) "api/v1/cdn_repo_package_tags" then
        let doc := tag_document (next_id s)
                                (field "cdn_repo_package_tag" body) in
        (reply 201 (VDict [("data", doc)]),
         {| repos := repos s; tags := tags s ++ [doc];
            next_id := (next_id s + 1)%Z |})
      else (not_found, s)
  | PUT =>
      if existsb repo_path (repos s) then
        let update doc :=
          if repo_path doc
          then repo_document (field "id" doc) doc (field "cdn_repo" body)
          else doc in
        (reply 200 (VDict [("data", VList (filter repo_path
                                             (map update (repos s))))]),
         {| repos := map update (repos s); tags := tags s;
            next_id := next_id s |})
      else if existsb tag_path (tags s) then
        let update doc :=
          if tag_path doc
          then retag doc (field "cdn_repo_package_tag" body)
          else doc in
        (reply 200 (VDict []),
         {| repos := repos s; tags := map update (tags s);
            next_id := next_id s |})
      else (not_found, s)
  | DELETE =>
      if existsb tag_path (tags s) then
        (reply 204 VNone,
         {| repos := repos s;
            tags := filter (fun doc => negb (tag_path doc)) (tags s);
            next_id := next_id s |})
      else (not_found, s)
  end.

#[export] Instance reference_client : Client :=
  {| remote := store; serve := reference_serve |}.

Definition empty_store : store := {| repos := []; tags := []; next_id := 1 |}.

End Reference.

(* ================================================================== *)
(** ** Vocabulary of the statements *)
(* ================================================================== *)

Import Py Transport Collaborators CdnRepo.

(** The [variant] sub-field of a settings dict, [None] when absent. *)
Definition variant_of (settings : dict) : pyval :=
  match dict_get "variant" settings with
  | Some v => v
  | None => VNone
  end.




(** The requests the client methods issue. *)
Definition get_request (path : string) (params : dict) : request :=
  {| req_verb := GET; req_path := path;
     req_params := params; req_json := None |}.

Definition post_request (path : string) (body : pyval) : request :=
  {| req_verb := POST; req_path := path;
     req_params := []; req_json := Some body |}.

Definition put_request (path : string) (body : pyval) : request :=
  {| req_verb := PUT; req_path := path;
     req_params := []; req_json := Some body |}.

Definition delete_request (path : string) : request :=
  {| req_verb := DELETE; req_path := path;
     req_params := []; req_json := None |}.

(** Tag declarations as the module documents them: a bare tag template, or
    a single-key mapping from the template to its restriction. *)
Inductive tag_declaration : Type :=
| BareTag (tag_template : string)
| RestrictedTag (tag_template : string) (restriction : pyval).

Definition declared_tag (t : tag_declaration) : pyval :=
  match t with
  | BareTag s => VStr s
  | RestrictedTag s r => VDict [(s, r)]
  end.

Definition template_of (t : tag_declaration) : string :=
  match t with
  | BareTag s => s
  | RestrictedTag s _ => s
  end.

Definition restriction_of (t : tag_declaration) : pyval :=
  match t with
  | BareTag _ => VDict []
  | RestrictedTag _ r => r
  end.

(** The [packages] parameter: package names with their lists of
    declarations. *)
Definition declared_packages (packages : list (string * list tag_declaration))
  : pyval :=
  VDict (map (fun p => (fst p, VList (map declared_tag (snd p)))) packages).

(** The last declaration of a template in a list, if any. *)
Definition last_declared (tag_template : string) (tags : list tag_declaration)
  : option tag_declaration :=
  find (fun d => String.eqb (template_of d) tag_template) (rev tags).

(** The [packages] parameter with arbitrary values as declarations. *)
Definition raw_packages (packages : list (string * list pyval)) : pyval :=
  VDict (map (fun p => (fst p, VList (snd p))) packages).

(** What the Normalizer lets through: a string, or a mapping with at least
    one key. *)
Definition accepted (tag : pyval) : bool :=
  match tag with
  | VStr _ => true
  | VDict (_ :: _) => true
  | _ => false
  end.

Definition is_mapping (tag : pyval) : bool :=
  match tag with
  | VDict _ => true
  | _ => false
  end.

(** The first declaration, in iteration order, that is not let through. *)
Definition first_rejected (packages : list (string * list pyval))
  : option pyval :=
  find (fun tag => negb (accepted tag)) (concat (map snd packages)).

(** What the rejected declaration raises. *)
Definition rejection (tag : pyval) : exn :=
  if is_mapping tag then StopIteration
  else ValueError (VStr ("unexpected " @@ type_name tag)).

(** The entry one declaration contributes to the inner dict. *)
Definition tag_entry (tag : pyval) : outcome (string * pyval) :=
  match tag with
  | VStr s => Ok (s, VDict [])
  | VDict ((k, v) :: _) => Ok (k, v)
  | _ => Raise (rejection tag)
  end.

Fixpoint collect_tags (tags : list pyval) (inner : dict) : outcome dict :=
  match tags with
  | [] => Ok inner
  | tag :: tags' =>
      obind (tag_entry tag)
            (fun e => collect_tags tags' (dict_set (fst e) (snd e) inner))
  end.

Fixpoint collect_packages (packages : list (string * list pyval))
  (normalized : dict) : outcome dict :=
  match packages with
  | [] => Ok normalized
  | p :: rest =>
      obind (collect_tags (snd p) [])
            (fun inner =>
               collect_packages rest
                 (dict_set (fst p) (VDict inner) normalized))
  end.

(** The inner dict of a list of well-formed declarations. *)
Definition canonical_tags (tags : list tag_declaration) : dict :=
  fold_left (fun acc d => dict_set (template_of d) (restriction_of d) acc)
            tags [].

(** The parameters that are set: line 600 drops the [None] values. *)
Definition set_params (params : dict) : dict :=
  filter (fun kv => negb (is_none (snd kv))) params.

(** The lookup [get_cdn_repo] issues. *)
Definition repo_lookup_request (name : pyval) : request :=
  get_request "api/v1/cdn_repos" [("filter[name]", name)].

(** A well-formed repository document of the remote API: an id, the
    attributes, the architecture, the variants and, optionally, the
    packages of the relationship list. *)
Record repo_record : Type := {
  record_id : pyval;
  record_attributes : dict;
  record_arch : pyval;
  record_variants : list pyval;
  record_packages : option (list pyval)
}.

Definition named (name : pyval) : pyval := VDict [("name", name)].

Definition repo_json (r : repo_record) : pyval :=
  VDict [("id", record_id r);
         ("attributes", VDict (record_attributes r));
         ("relationships",
          VDict ([("arch", named (record_arch r));
                  ("variants", VList (map named (record_variants r)))]
                 ++ match record_packages r with
                    | Some l => [("packages", VList (map named l))]
                    | None => []
                    end))].

Definition package_names_of (r : repo_record) : list pyval :=
  match record_packages r with
  | Some l => l
  | None => []
  end.

(** The request for one page of the tag listing. *)
Definition tags_page_request (name : pyval) (page_number : Z) : request :=
  get_request "api/v1/cdn_repo_package_tags"
    [("page[size]", VInt PAGE_SIZE);
     ("page[number]", VInt page_number);
     ("filter[cdn_repo_name]", name)].

(** What [get_package_tags] makes of the answer to its first page. *)
Definition tags_of_response (resp : response) : outcome dict :=
  (_ <~ raise_for_status resp ;;
   found <~ py_getitem (json resp) (VStr "data") ;;
   elements <~ py_iter found ;;
   ofold elements classify_element [])%py.

(** A remote that holds [n] tag associations [t1] ... [tn] of package [foo]
    in repository [repo1], with ids [1] ... [n]. *)
Definition numbered_tag (i : nat) : pyval :=
  Reference.tag_document (Z.of_nat i)
    (VDict [("cdn_repo_name", VStr "repo1");
            ("package_name", VStr "foo");
            ("tag_template", VStr ("t" @@ str_of_Z (Z.of_nat i)))]).

Definition store_with_tags (n : nat) : Reference.store :=
  {| Reference.repos := [];
     Reference.tags := map numbered_tag (seq 1 n);
     Reference.next_id := Z.of_nat (S n) |}.

(** The messages of [ensure_package_tags]. *)
Definition removing_tag (package_name : string) (tag_template : pyval)
  : string :=
  "removing " @@ dq @@ py_str tag_template @@ dq
  @@ " tag template from " @@ dq @@ package_name @@ dq.

Definition adding_tag (package_name : string) (tag_template : pyval)
  : string :=
  "adding " @@ dq @@ py_str tag_template @@ dq
  @@ " tag template to " @@ dq @@ package_name @@ dq.

(** The planned changes: what the reconciliation reports, as a function of
    the current and the desired mappings alone.  For one template present
    on both sides, the messages of the variant comparison. *)
Definition plan_modify (package_name : string)
  (current_tags desired_tags tag_template : pyval) : outcome (list string) :=
  (current_tag <~ py_getitem current_tags tag_template ;;
   current_tag <~ py_copy current_tag ;;
   desired_tag <~ py_getitem desired_tags tag_template ;;
   desired_tag <~ py_copy desired_tag ;;
   popped <~ py_pop current_tag "id" ;;
   differences <~ compare_package_tags package_name tag_template
                    (snd popped) desired_tag ;;
   Ok (if nonempty differences then extend [] differences else []))%py.

(** For one package: removals, then modifications, then additions. *)
Definition plan_package_tags {SO : SetOrder} (package_name : string)
  (current_tags desired_tags : pyval) : outcome (list string) :=
  (current_set <~ py_set current_tags ;;
   desired_set <~ py_set desired_tags ;;
   modified <~ omap (plan_modify package_name current_tags desired_tags)
                    (set_iter (set_and current_set desired_set)) ;;
   Ok (map (removing_tag package_name)
           (set_iter (set_sub current_set desired_set))
       ++ concat modified
       ++ map (adding_tag package_name)
              (set_iter (set_sub desired_set current_set))))%py.



(** A desired tag mapping: tag templates with their settings dicts. *)
Definition tag_settings (desired : list (string * dict)) : pyval :=
  VDict (map (fun p => (fst p, VDict (snd p))) desired).

(** The edit [edit_cdn_repo] issues. *)
Definition edit_request (id : Z) (data : pyval) : request :=
  put_request ("api/v1/cdn_repos/" @@ str_of_Z id) data.






(** Scenario: repository [repo1] with package [foo] and one tag. *)
Definition scenario_params : dict :=
  [("name", VStr "repo1");
   ("release_type", VStr "Primary");
   ("content_type", VStr "Docker");
   ("arch", VStr "multi");
   ("use_for_tps", VBool false);
   ("variants", VList [VStr "V1"]);
   ("packages", VDict [("foo", VList [VStr "latest"])])].


(** A remote in which [repo1] exists, for architecture [x86_64], with
    package [foo] and its tag [beta], restricted to variant [V1]. *)
Definition store_with_repo : Reference.store :=
  {| Reference.repos :=
       [Reference.repo_document (VInt 1) VNone
          (VDict [("name", VStr "repo1");
                  ("release_type", VStr "Primary");
                  ("content_type", VStr "Docker");
                  ("use_for_tps", VBool false);
                  ("arch_name", VStr "x86_64");
                  ("variant_names", VList [VStr "V1"]);
                  ("package_names", VList [VStr "foo"])])];
     Reference.tags :=
       [Reference.tag_document 2
          (VDict [("cdn_repo_name", VStr "repo1");
                  ("package_name", VStr "foo");
                  ("tag_template", VStr "beta");
                  ("variant_name", VStr "V1")])];
     Reference.next_id := 3 |}.

Definition is_ok {A : Type} (o : outcome A) : bool :=
  match o with
  | Ok _ => true
  | Raise _ => false
  end.

(** The changed flag and the change list of a run. *)
Definition report {SD : SettingsDiffer} {W : Type}
  (run : outcome run_result * W) : outcome (bool * list string) :=
  match fst run with
  | Ok r => Ok (changed r, stdout_lines r)
  | Raise e => Raise e
  end.

(** Repository [repo1] declared with package [foo] and its [n] tags
    [t1] ... [tn]. *)
Definition params_with_tags (n : nat) : dict :=
  [("name", VStr "repo1");
   ("release_type", VStr "Primary");
   ("content_type", VStr "Docker");
   ("arch", VStr "multi");
   ("use_for_tps", VBool false);
   ("variants", VList [VStr "V1"]);
   ("packages",
    VDict [("foo",
            VList (map (fun i => VStr ("t" @@ str_of_Z (Z.of_nat i)))
                       (seq 1 n)))])].

(** The remote state a real run leaves behind, starting from the empty
    in-memory remote. *)
Definition state_after_run (params : dict) : Reference.store :=
  server (snd (@ensure_cdn_repo Reference.insertion_order
                 Reference.reference_client Reference.spec_differ
                 false params
                 (@fresh Reference.reference_client Reference.empty_store))).

(** A computation that, from any world and whatever it returns, issues only
    requests that satisfy [P]. *)
Definition issues {C : Client} {A : Type} (P : request -> Prop) (m : M A)
  : Prop :=
  forall w, exists l, calls (snd (m w)) = calls w ++ l /\ Forall P l.

(** A step of a loop over changes that issues only requests satisfying [P]
    and, when it returns, has appended as many messages to [acc] as it has
    issued requests. *)
Definition accounted {C : Client} (P : request -> Prop)
  (m : M (list string)) (acc : list string) : Prop :=
  forall w,
  exists l,
    calls (snd (m w)) = calls w ++ l /\
    Forall P l /\
    forall r, fst (m w) = Ok r ->
              exists d, r = acc ++ d /\ length l = length d.

Definition is_delete (r : request) : Prop := req_verb r = DELETE.
Definition is_put (r : request) : Prop := req_verb r = PUT.
Definition is_post (r : request) : Prop := req_verb r = POST.

(** The calls a run has added to those of [w]: deletions, then edits, then
    creations, and as many as the changes it returns, when it returns. *)
Definition ordered_calls {C : Client} (w : world)
  (run : outcome (list string) * world) : Prop :=
  exists deleted edited created,
    calls (snd run) = calls w ++ deleted ++ edited ++ created /\
    Forall is_delete deleted /\
    Forall is_put edited /\
    Forall is_post created /\
    forall changes,
      fst run = Ok changes ->
      length (deleted ++ edited ++ created) = length changes.

(** The name the mutation API gives to a parameter. *)
Definition wire_name (key : string) : string :=
  if String.eqb key "arch" then "arch_name"
  else if String.eqb key "variants" then "variant_names"
  else key.

(** The new value of the last difference on a key, if any. *)
Definition last_difference (key : string) (differences : list difference)
  : option pyval :=
  option_map snd
    (find (fun d : difference => String.eqb (fst (fst d)) key)
          (rev differences)).


(** The requests of the tag helpers. *)
Definition add_tag_request (repo_name : pyval) (package_name : string)
  (tag_template variant : pyval) : request :=
  post_request "api/v1/cdn_repo_package_tags"
    (VDict [("cdn_repo_package_tag",
             VDict ([("cdn_repo_name", repo_name);
                     ("package_name", VStr package_name);
                     ("tag_template", tag_template)]
                    ++ (if truthy variant then [("variant_name", variant)]
                        else [])))]).

Definition edit_tag_request (tag_id : Z) (desired_tag : dict) : request :=
  put_request ("api/v1/cdn_repo_package_tags/" @@ str_of_Z tag_id)
    (VDict [("cdn_repo_package_tag",
             VDict (if truthy (variant_of desired_tag)
                    then [("variant_name", variant_of desired_tag)]
                    else [("variant_id", VNone)]))]).

Definition delete_tag_request (tag_id : Z) : request :=
  delete_request ("api/v1/cdn_repo_package_tags/" @@ str_of_Z tag_id).


(** The world after one request. *)
Definition after_request {C : Client} (r : request) (w : world) : world :=
  {| server := snd (serve r (server w)); calls := calls w ++ [r] |}.

(** The requests of the module: reads of the two listings, creations on
    them, edits of one repository or of one tag association, and deletions
    of one tag association. *)
Definition known_request (r : request) : Prop :=
  match req_verb r with
  | GET | POST =>
      req_path r = "api/v1/cdn_repos" \/
      req_path r = "api/v1/cdn_repo_package_tags"
  | PUT =>
      (exists id, req_path r = "api/v1/cdn_repos/" @@ str_of_Z id) \/
      (exists id, req_path r = "api/v1/cdn_repo_package_tags/" @@ str_of_Z id)
  | DELETE =>
      exists id, req_path r = "api/v1/cdn_repo_package_tags/" @@ str_of_Z id
  end.

(** A remote that is down: it answers every request with 503. *)
Definition unavailable : Client :=
  {| remote := unit;
     serve := fun _ s =>
       ({| status_code := 503; json := VNone;
           text := "Service Unavailable" |}, s) |}.

(** A table of packages: package names with their tags and the settings of
    each tag, as [get_package_tags] and [normalize_packages] return it. *)
Definition package_table (packages : list (string * list (string * dict)))
  : pyval :=
  VDict (map (fun p => (fst p, tag_settings (snd p))) packages).

(** A tag of the diff listing as a declaration: the template alone, or the
    template with its variant restriction. *)
Definition listed_tag (tag : string * pyval) : tag_declaration :=
  match snd tag with
  | VDict settings =>
      match dict_get "variant" settings with
      | Some v => RestrictedTag (fst tag) (VDict [("variant", v)])
      | None => BareTag (fst tag)
      end
  | _ => BareTag (fst tag)
  end.

(** The settings of a tag without anything but the variant. *)
Definition variant_only (tag : string * pyval) : string * pyval :=
  (fst tag,
   match snd tag with
   | VDict settings =>
       match dict_get "variant" settings with
       | Some v => VDict [("variant", v)]
       | None => VDict []
       end
   | _ => VDict []
   end).

(** A well-formed tag association of the remote API: its id, the
    repository, the package, the tag template and, when it is restricted,
    the variant. *)
Record association : Type := {
  assoc_id : pyval;
  assoc_repo : pyval;
  assoc_package : string;
  assoc_template : string;
  assoc_variant : option pyval
}.

Definition association_json (a : association) : pyval :=
  VDict
    [("id", assoc_id a);
     ("type", VStr "cdn_repo_package_tags");
     ("attributes", VDict [("tag_template", VStr (assoc_template a))]);
     ("relationships",
      VDict ([("cdn_repo", VDict [("name", assoc_repo a)]);
              ("package", VDict [("name", VStr (assoc_package a))])]
             ++ match assoc_variant a with
                | Some v => [("variant", VDict [("name", v)])]
                | None => []
                end))].

(** The settings [get_package_tags] keeps of an association. *)
Definition association_settings (a : association) : pyval :=
  match assoc_variant a with
  | Some v => VDict [("variant", v); ("id", assoc_id a)]
  | None => VDict [("id", assoc_id a)]
  end.

Definition association_of (package_name tag_template : string)
  (a : association) : bool :=
  String.eqb (assoc_package a) package_name
  && String.eqb (assoc_template a) tag_template.

(** [packages[package_name][tag_template]], when both keys are there. *)
Definition table_lookup (packages : dict) (package_name tag_template : string)
  : option pyval :=
  match dict_get package_name packages with
  | Some (VDict inner) => dict_get tag_template inner
  | _ => None
  end.

(** [packages[package_name][tag_template] = v], the package entered first
    when it is missing. *)
Definition table_set (packages : dict) (package_name tag_template : string)
  (v : pyval) : dict :=
  let inner :=
    match dict_get package_name packages with
    | Some (VDict inner) => inner
    | _ => []
    end in
  dict_set package_name (VDict (dict_set tag_template v inner)) packages.

(** Every value of the table is a dict. *)
Definition table_shaped (packages : dict) : Prop :=
  forall package_name v,
    dict_get package_name packages = Some v -> exists inner, v = VDict inner.

(** Scenario: an RPM repository declared without an architecture. *)
Definition rpm_params : dict :=
  [("name", VStr "repo1");
   ("release_type", VStr "Primary");
   ("content_type", VStr "Binary");
   ("arch", VNone);
   ("use_for_tps", VBool true);
   ("variants", VList [VStr "V1"]);
   ("packages", VDict [])].


(* ================================================================== *)
(** ** Properties *)
(* ================================================================== *)

(** *** Dicts *)

Lemma dict_get_set_same (k : string) (v : pyval) (d : dict) :
  dict_get k (dict_set k v d) = Some v.
Proof.
  induction d as [|[k' v'] d IH]; simpl.
  - now rewrite String.eqb_refl.
  - destruct (String.eqb k k') eqn:E; simpl; rewrite E; auto.
Qed.

Lemma dict_get_set_other (k k' : string) (v : pyval) (d : dict) :
  k <> k' -> dict_get k (dict_set k' v d) = dict_get k d.
Proof.
  intros Hne. induction d as [|[k2 v2] d IH]; simpl.
  - destruct (String.eqb k k') eqn:E; auto.
    apply String.eqb_eq in E. contradiction.
  - destruct (String.eqb k' k2) eqn:E; simpl.
    + apply String.eqb_eq in E. subst k2.
      destruct (String.eqb k k') eqn:E'; auto.
      apply String.eqb_eq in E'. contradiction.
    + now rewrite IH.
Qed.

Lemma dict_get_none_keys (k : string) (d : dict) :
  dict_get k d = None <-> ~ In k (dict_keys d).
Proof.
  induction d as [|[k' v'] d IH]; simpl.
  - tauto.
  - destruct (String.eqb k k') eqn:E.
    + apply String.eqb_eq in E. subst. split; [discriminate | tauto].
    + apply String.eqb_neq in E. rewrite IH. split.
      * intros H [H1 | H1]; [congruence | tauto].
      * tauto.
Qed.

Lemma dict_set_fresh (k : string) (v : pyval) (d : dict) :
  dict_get k d = None -> dict_set k v d = d ++ [(k, v)].
Proof.
  induction d as [|[k' v'] d IH]; simpl; auto.
  destruct (String.eqb k k'); [discriminate |].
  intros H. now rewrite IH.
Qed.

Lemma dict_set_set (k : string) (v1 v2 : pyval) (d : dict) :
  dict_set k v2 (dict_set k v1 d) = dict_set k v2 d.
Proof.
  induction d as [|[k' v'] d IH]; simpl.
  - now rewrite String.eqb_refl.
  - destruct (String.eqb k k') eqn:E; simpl; rewrite E; auto.
    now rewrite IH.
Qed.

Lemma dict_keys_set (k : string) (v : pyval) (d : dict) :
  dict_keys (dict_set k v d) =
  if dict_mem k d then dict_keys d else dict_keys d ++ [k].
Proof.
  unfold dict_mem. induction d as [|[k' v'] d IH]; simpl; auto.
  destruct (String.eqb k k') eqn:E; simpl; auto.
  rewrite IH. destruct (dict_get k d); auto.
Qed.

Lemma dict_keys_set_nodup (k : string) (v : pyval) (d : dict) :
  NoDup (dict_keys d) -> NoDup (dict_keys (dict_set k v d)).
Proof.
  intros H. rewrite dict_keys_set. unfold dict_mem.
  destruct (dict_get k d) eqn:E; auto.
  apply dict_get_none_keys in E.
  apply NoDup_rev in H. rewrite <- (rev_involutive (dict_keys d ++ [k])).
  apply NoDup_rev. rewrite rev_app_distr. simpl.
  constructor; auto. now rewrite <- in_rev.
Qed.

(** *** The variant comparison (claim C8) *)



(** *** The mutation helpers and falsy variants (claim C10) *)

(** C10.  [add_package_tag] posts a body that carries [variant_name] exactly
    when the variant argument is true in Python's sense, and
    [edit_package_tag] puts [variant_name] when the desired settings'
    variant is true and [variant_id = None] otherwise; [None], the empty
    string and an absent key are all false, so they are treated alike and
    only a true variant sets a restriction.  The request is the same
    whatever the remote answers. *)
Theorem mutation_helpers_falsy_variant :
  forall (C : Client),
    (forall (repo_name : pyval) (package_name : string)
            (tag_template variant : pyval) (w : world),
        calls (snd (add_package_tag repo_name package_name tag_template
                      variant w))
        = calls w ++
          [post_request "api/v1/cdn_repo_package_tags"
             (VDict [("cdn_repo_package_tag",
                      VDict ([("cdn_repo_name", repo_name);
                              ("package_name", VStr package_name);
                              ("tag_template", tag_template)]
                             ++ (if truthy variant
                                 then [("variant_name", variant)]
                                 else [])))])]) /\
    (forall (tag_id : Z) (desired_tag : dict) (w : world),
        calls (snd (edit_package_tag (VInt tag_id) (VDict desired_tag) w))
        = calls w ++
          [put_request ("api/v1/cdn_repo_package_tags/" @@ str_of_Z tag_id)
             (VDict [("cdn_repo_package_tag",
                      VDict (if truthy (variant_of desired_tag)
                             then [("variant_name", variant_of desired_tag)]
                             else [("variant_id", VNone)]))])]) /\
    truthy VNone = false /\
    truthy (VStr EmptyString) = false /\
    variant_of [] = VNone.
Proof.
  intros C. split; [| split; [| repeat split]].
  - intros repo_name package_name tag_template variant w.
    unfold add_package_tag, bind, client_post, call, post_request.
    destruct (truthy variant); simpl;
      match goal with
      | |- context [serve ?r ?s] => destruct (serve r s) as [resp s']
      end;
      destruct (negb (status_code resp =? 201)%Z); simpl;
      try reflexivity;
      unfold lift; destruct (py_getitem (json resp) (VStr "error"));
      reflexivity.
  - intros tag_id desired_tag w.
    unfold edit_package_tag, bind, lift, client_put, call, put_request,
      variant_of.
    simpl.
    destruct (truthy match dict_get "variant" desired_tag with
                     | Some v => v
                     | None => VNone
                     end); simpl;
      match goal with
      | |- context [serve ?r ?s] => destruct (serve r s) as [resp s']
      end;
      destruct (negb (status_code resp =? 200)%Z); simpl;
      try reflexivity;
      destruct (py_getitem (json resp) (VStr "error"));
      reflexivity.
Qed.

(** *** The Normalizer (claims C5 and C6) *)

Lemma dict_set_same_value (k : string) (v : pyval) (d : dict) :
  dict_get k d = Some v -> dict_set k v d = d.
Proof.
  induction d as [|[k' v'] d IH]; simpl; [discriminate |].
  destruct (String.eqb k k') eqn:E.
  - intros [= ->]. reflexivity.
  - intros H. now rewrite IH.
Qed.

Lemma normalize_tag_entry (package_name : string) (tag : pyval)
  (normalized inner : dict) :
  dict_get package_name normalized = Some (VDict inner) ->
  normalize_tag package_name tag normalized =
  obind (tag_entry tag)
        (fun e => Ok (dict_set package_name
                        (VDict (dict_set (fst e) (snd e) inner)) normalized)).
Proof.
  intros H. unfold normalize_tag, setitem2.
  destruct tag as [| b | z | s | l | d]; simpl; try reflexivity.
  - now rewrite H.
  - destruct d as [|[k v] d]; simpl; [reflexivity |].
    rewrite String.eqb_refl. simpl. now rewrite H.
Qed.

Lemma normalize_tags_collect (package_name : string) (tags : list pyval) :
  forall normalized inner,
    dict_get package_name normalized = Some (VDict inner) ->
    ofold tags (normalize_tag package_name) normalized =
    obind (collect_tags tags inner)
          (fun inner' => Ok (dict_set package_name (VDict inner') normalized)).
Proof.
  induction tags as [|tag tags IH]; intros normalized inner H; simpl.
  - now rewrite dict_set_same_value.
  - rewrite (normalize_tag_entry _ _ _ _ H).
    destruct (tag_entry tag) as [[k v] | e]; simpl; [| reflexivity].
    rewrite (IH _ (dict_set k v inner)) by apply dict_get_set_same.
    destruct (collect_tags tags (dict_set k v inner)); simpl;
      [now rewrite dict_set_set | reflexivity].
Qed.

Lemma normalize_items_collect (packages : list (string * list pyval)) :
  forall normalized,
    ofold (map (fun p => (fst p, VList (snd p))) packages)
      (fun (item : string * pyval) (normalized : dict) =>
         let package_name := fst item in
         let normalized := dict_set package_name (VDict []) normalized in
         obind (py_iter (snd item))
               (fun tags => ofold tags (normalize_tag package_name) normalized))
      normalized
    = collect_packages packages normalized.
Proof.
  induction packages as [|[package_name tags] rest IH]; intros normalized;
    simpl; [reflexivity |].
  rewrite (normalize_tags_collect _ _ _ []) by apply dict_get_set_same.
  destruct (collect_tags tags []); simpl; [| reflexivity].
  rewrite dict_set_set. apply IH.
Qed.

Lemma normalize_packages_collect (packages : list (string * list pyval)) :
  normalize_packages (raw_packages packages) = collect_packages packages [].
Proof.
  unfold normalize_packages, raw_packages. simpl.
  apply normalize_items_collect.
Qed.

Lemma collect_tags_rejected (tags : list pyval) :
  forall inner,
    match find (fun tag => negb (accepted tag)) tags with
    | Some tag => collect_tags tags inner = Raise (rejection tag)
    | None => exists inner', collect_tags tags inner = Ok inner'
    end.
Proof.
  induction tags as [|tag tags IH]; intros inner; simpl.
  - now exists inner.
  - destruct tag as [| b | z | s | l | d]; simpl; try reflexivity.
    + apply IH.
    + destruct d as [|[k v] d]; simpl; [reflexivity | apply IH].
Qed.

Lemma find_app {A : Type} (f : A -> bool) (l1 l2 : list A) :
  find f (l1 ++ l2) =
  match find f l1 with
  | Some x => Some x
  | None => find f l2
  end.
Proof.
  induction l1 as [|x l1 IH]; simpl; auto.
  destruct (f x); auto.
Qed.

Lemma collect_packages_rejected (packages : list (string * list pyval)) :
  forall normalized,
    match first_rejected packages with
    | Some tag => collect_packages packages normalized = Raise (rejection tag)
    | None => exists n, collect_packages packages normalized = Ok n
    end.
Proof.
  unfold first_rejected.
  induction packages as [|[package_name tags] rest IH]; intros normalized;
    simpl.
  - now exists normalized.
  - rewrite find_app.
    pose proof (collect_tags_rejected tags []) as Ht.
    destruct (find (fun tag => negb (accepted tag)) tags) as [tag |].
    + now rewrite Ht.
    + destruct Ht as [inner ->]. simpl. apply IH.
Qed.

(** The outcome of the Normalizer on any lists of declarations. *)
Lemma normalize_packages_outcome (packages : list (string * list pyval)) :
  match first_rejected packages with
  | Some tag =>
      normalize_packages (raw_packages packages) = Raise (rejection tag)
  | None => exists n, normalize_packages (raw_packages packages) = Ok n
  end.
Proof.
  rewrite normalize_packages_collect. apply collect_packages_rejected.
Qed.

(** C6, as the code has it.  The Normalizer raises [ValueError] exactly when
    the first declaration, in iteration order, that is neither a string nor
    a mapping with at least one key is not a mapping at all (an empty
    mapping raises [StopIteration] instead).  A mapping with more than one
    key is let through, its first key being the template.  Whatever the
    Normalizer raises, [ensure_cdn_repo] raises it with the remote state and
    the trace of calls untouched. *)
Theorem normalize_packages_value_error :
  (forall packages : list (string * list pyval),
      (exists arg,
          normalize_packages (raw_packages packages) = Raise (ValueError arg))
      <->
      (exists tag,
          first_rejected packages = Some tag /\ is_mapping tag = false)) /\
  (forall (package_name k1 k2 : string) (v1 v2 : pyval),
      normalize_packages
        (raw_packages [(package_name, [VDict [(k1, v1); (k2, v2)]])])
      = Ok [(package_name, VDict [(k1, v1)])]) /\
  (forall (SO : SetOrder) (C : Client) (SD : SettingsDiffer)
          (check_mode : bool) (params : dict) (name packages : pyval)
          (e : exn) (w : world),
      dict_get "name" (set_params params) = Some name ->
      dict_get "packages" (set_params params) = Some packages ->
      normalize_packages packages = Raise e ->
      ensure_cdn_repo check_mode params w = (Raise e, w)).
Proof.
  split; [| split].
  - intros packages.
    pose proof (normalize_packages_outcome packages) as H.
    destruct (first_rejected packages) as [tag |].
    + rewrite H. unfold rejection. split.
      * intros [arg Harg]. exists tag. split; [reflexivity |].
        destruct (is_mapping tag); [discriminate | reflexivity].
      * intros (tag' & [= <-] & Hm). rewrite Hm. eexists. reflexivity.
    + destruct H as [n ->]. split.
      * intros [arg Harg]. discriminate.
      * intros (tag & Hnone & _). discriminate.
  - intros package_name k1 k2 v1 v2.
    unfold normalize_packages, raw_packages, normalize_tag, setitem2. simpl.
    repeat (rewrite String.eqb_refl; simpl). reflexivity.
  - intros SO C SD check_mode params name packages e w Hname Hpk Hnorm.
    unfold ensure_cdn_repo, bind, lift, dict_pop. fold (set_params params).
    simpl. rewrite Hname, Hpk.
    destruct packages as [| b | z | s | l | d];
      try (simpl in Hnorm; injection Hnorm as <-; reflexivity).
    simpl. rewrite Hnorm. reflexivity.
Qed.

(** C6 as stated fails: a mapping with two keys does not make the
    Normalizer raise; the first key is taken. *)
Lemma multi_key_mapping_accepted :
  normalize_packages
    (VDict [("foo", VList [VDict [("latest", VDict []);
                                  ("beta", VDict [])]])])
  = Ok [("foo", VDict [("latest", VDict [])])].
Proof. reflexivity. Qed.

Section NormalizerOnReference.
#[local] Existing Instance Reference.insertion_order.
#[local] Existing Instance Reference.reference_client.
#[local] Existing Instance Reference.spec_differ.

(** C6 at an integer declaration, against the in-memory remote: the run
    stops with [ValueError] and no call. *)
Lemma normalize_packages_value_error_witness :
  ensure_cdn_repo true
    [("name", VStr "repo1"); ("packages", VDict [("foo", VList [VInt 3])])]
    (fresh Reference.empty_store)
  = (Raise (ValueError (VStr "unexpected <class 'int'>")),
     fresh Reference.empty_store).
Proof.
  destruct normalize_packages_value_error as (_ & _ & H).
  apply (H _ _ _ true _ (VStr "repo1")
           (VDict [("foo", VList [VInt 3])])); reflexivity.
Defined.

End NormalizerOnReference.

Lemma collect_declared_tags (tags : list tag_declaration) :
  forall inner,
    collect_tags (map declared_tag tags) inner =
    Ok (fold_left (fun acc d => dict_set (template_of d) (restriction_of d) acc)
                  tags inner).
Proof.
  induction tags as [|d tags IH]; intros inner; simpl; [reflexivity |].
  destruct d; simpl; apply IH.
Qed.

Lemma canonical_tags_nodup (tags : list tag_declaration) :
  forall inner,
    NoDup (dict_keys inner) ->
    NoDup (dict_keys
             (fold_left (fun acc d =>
                           dict_set (template_of d) (restriction_of d) acc)
                        tags inner)).
Proof.
  induction tags as [|d tags IH]; intros inner H; simpl; auto.
  apply IH. now apply dict_keys_set_nodup.
Qed.

(** The last declaration of a template wins. *)
Lemma canonical_tags_last (tags : list tag_declaration) (t : string) :
  forall inner,
    dict_get t (fold_left (fun acc d =>
                             dict_set (template_of d) (restriction_of d) acc)
                          tags inner)
    = match last_declared t tags with
      | Some d => Some (restriction_of d)
      | None => dict_get t inner
      end.
Proof.
  unfold last_declared.
  induction tags as [|d tags IH] using rev_ind; intros inner; simpl;
    [reflexivity |].
  rewrite fold_left_app, rev_app_distr. simpl.
  destruct (String.eqb (template_of d) t) eqn:E.
  - apply String.eqb_eq in E. subst t. apply dict_get_set_same.
  - apply String.eqb_neq in E.
    rewrite dict_get_set_other by congruence. apply IH.
Qed.

Lemma collect_packages_fresh (packages : list (string * list tag_declaration)) :
  forall normalized,
    NoDup (dict_keys normalized ++ map fst packages) ->
    collect_packages
      (map (fun p => (fst p, map declared_tag (snd p))) packages) normalized
    = Ok (normalized
          ++ map (fun p => (fst p, VDict (canonical_tags (snd p)))) packages).
Proof.
  induction packages as [|[package_name tags] rest IH]; intros normalized H;
    simpl.
  - now rewrite app_nil_r.
  - rewrite collect_declared_tags. simpl.
    assert (Hfresh : dict_get package_name normalized = None).
    { apply dict_get_none_keys. intros Hin.
      apply NoDup_remove_2 in H. apply H. apply in_or_app. now left. }
    rewrite dict_set_fresh by exact Hfresh.
    rewrite IH.
    + now rewrite <- app_assoc.
    + unfold dict_keys in *. rewrite map_app. simpl.
      rewrite <- app_assoc. exact H.
Qed.

Lemma dict_get_map_in {A : Type} (f : string * A -> pyval)
  (l : list (string * A)) (k : string) (a : A) :
  NoDup (map fst l) -> In (k, a) l ->
  dict_get k (map (fun p => (fst p, f p)) l) = Some (f (k, a)).
Proof.
  induction l as [|[k' a'] l IH]; simpl; intros Hnd Hin; [contradiction |].
  inversion Hnd as [| ? ? Hnotin Hnd']; subst.
  destruct Hin as [[= -> ->] | Hin].
  - now rewrite String.eqb_refl.
  - destruct (String.eqb k k') eqn:E.
    + apply String.eqb_eq in E. subst k'. exfalso. apply Hnotin.
      change k with (fst (k, a)). now apply in_map.
    + now apply IH.
Qed.

(** C5.  For every packages input with distinct package names and lists of
    tag declarations, the Normalizer returns a mapping over the same package
    names whose inner maps are keyed by tag template, each template once,
    bound to the restriction of its last declaration; a bare string and a
    mapping with an empty restriction both become the empty dict. *)
Theorem normalize_packages_canonical :
  forall packages : list (string * list tag_declaration),
    NoDup (map fst packages) ->
    (exists normalized,
        normalize_packages (declared_packages packages) = Ok normalized /\
        dict_keys normalized = map fst packages /\
        forall package_name tags,
          In (package_name, tags) packages ->
          exists inner,
            dict_get package_name normalized = Some (VDict inner) /\
            NoDup (dict_keys inner) /\
            forall tag_template,
              dict_get tag_template inner =
              option_map restriction_of (last_declared tag_template tags)) /\
    (forall package_name tag_template,
        normalize_packages
          (declared_packages [(package_name, [BareTag tag_template])])
        = Ok [(package_name, VDict [(tag_template, VDict [])])] /\
        normalize_packages
          (declared_packages
             [(package_name, [RestrictedTag tag_template (VDict [])])])
        = Ok [(package_name, VDict [(tag_template, VDict [])])]).
Proof.
  intros packages Hnd. split.
  - exists (map (fun p => (fst p, VDict (canonical_tags (snd p)))) packages).
    split; [| split].
    + replace (declared_packages packages)
        with (raw_packages
                (map (fun p => (fst p, map declared_tag (snd p))) packages)).
      * rewrite normalize_packages_collect.
        now rewrite collect_packages_fresh.
      * unfold raw_packages, declared_packages. now rewrite map_map.
    + unfold dict_keys. rewrite map_map. reflexivity.
    + intros package_name tags Hin. exists (canonical_tags tags).
      split; [| split].
      * apply (dict_get_map_in (fun p => VDict (canonical_tags (snd p)))
                 packages package_name tags Hnd Hin).
      * apply canonical_tags_nodup. constructor.
      * intros tag_template. unfold canonical_tags.
        rewrite canonical_tags_last.
        destruct (last_declared tag_template tags); reflexivity.
  - intros package_name tag_template.
    unfold normalize_packages, declared_packages, normalize_tag, setitem2.
    simpl. repeat (rewrite String.eqb_refl; simpl). split; reflexivity.
Qed.

(** C5 at a package that declares [latest] twice: the restricted, later
    declaration is the one kept. *)
Lemma normalize_packages_canonical_witness :
  exists normalized,
    normalize_packages
      (declared_packages
         [("foo", [BareTag "latest";
                   RestrictedTag "latest" (VDict [("variant", VStr "V1")])])])
    = Ok normalized /\
    dict_keys normalized = ["foo"].
Proof.
  destruct (normalize_packages_canonical
              [("foo", [BareTag "latest";
                        RestrictedTag "latest"
                          (VDict [("variant", VStr "V1")])])])
    as [(normalized & Hn & Hk & _) _].
  - simpl. constructor; [simpl; tauto | constructor].
  - exists normalized. split; [exact Hn | exact Hk].
Defined.

(** *** Resource lookup (claim C7) *)

Lemma omap_named (l : list pyval) :
  omap (fun v => py_getitem v (VStr "name")) (map named l) = Ok l.
Proof.
  induction l as [|x l IH]; simpl; [reflexivity |].
  now rewrite IH.
Qed.

Lemma simplify_repo_json (r : repo_record) :
  exists repo,
    simplify_cdn_repo (repo_json r) = Ok (VDict repo) /\
    dict_get "package_names" repo = Some (VList (package_names_of r)) /\
    dict_get "variants" repo = Some (VList (record_variants r)) /\
    dict_get "arch" repo = Some (record_arch r).
Proof.
  destruct r as [id attrs arch variants packages].
  unfold simplify_cdn_repo, repo_json, package_names_of. simpl.
  rewrite omap_named. simpl.
  destruct packages as [l |]; simpl.
  - rewrite omap_named. simpl. eexists. split; [reflexivity |].
    split; [apply dict_get_set_same |].
    split.
    + rewrite dict_get_set_other by discriminate. apply dict_get_set_same.
    + rewrite !dict_get_set_other by discriminate. apply dict_get_set_same.
  - eexists. split; [reflexivity |].
    split; [apply dict_get_set_same |].
    split.
    + rewrite dict_get_set_other by discriminate. apply dict_get_set_same.
    + rewrite !dict_get_set_other by discriminate. apply dict_get_set_same.
Qed.

(** C7.  When the lookup is answered without an HTTP error and with a list
    under [data]: no match gives [None], not an error; more than one match
    raises [ValueError], the module's conflict error; exactly one match
    gives what lines 273-287 assemble from it, and for a well-formed
    document that is a dict whose [package_names] are the names of the
    relationship list ([[]] when the list is missing), with the variants
    and the architecture of the document.  One [GET] is issued in each
    case. *)
Theorem get_cdn_repo_lookup :
  forall (C : Client) (name : pyval) (w : world) (resp : response)
         (s' : remote) (results : list pyval),
    serve (repo_lookup_request name) (server w) = (resp, s') ->
    raise_for_status resp = Ok tt ->
    py_getitem (json resp) (VStr "data") = Ok (VList results) ->
    let w' := {| server := s';
                 calls := calls w ++ [repo_lookup_request name] |} in
    (results = [] -> get_cdn_repo name None w = (Ok VNone, w')) /\
    ((1 < length results)%nat ->
       get_cdn_repo name None w =
       (Raise (ValueError
                 (VStr ("multiple " @@ py_str name @@ " cdn_repos found"))),
        w')) /\
    (forall cdn_repo_data,
        results = [cdn_repo_data] ->
        get_cdn_repo name None w = (simplify_cdn_repo cdn_repo_data, w')) /\
    (forall r : repo_record,
        results = [repo_json r] ->
        exists repo,
          get_cdn_repo name None w = (Ok (VDict repo), w') /\
          dict_get "package_names" repo = Some (VList (package_names_of r)) /\
          dict_get "variants" repo = Some (VList (record_variants r)) /\
          dict_get "arch" repo = Some (record_arch r)).
Proof.
  intros C name w resp s' results Hserve Hstatus Hdata w'.
  assert (Hone : forall d, results = [d] ->
            get_cdn_repo name None w = (simplify_cdn_repo d, w')).
  { intros d ->.
    unfold get_cdn_repo, bind, client_get, call, lift.
    unfold repo_lookup_request, get_request in Hserve.
    rewrite Hserve, Hstatus, Hdata. simpl. reflexivity. }
  repeat split.
  - intros ->.
    unfold get_cdn_repo, bind, client_get, call, lift.
    unfold repo_lookup_request, get_request in Hserve.
    rewrite Hserve, Hstatus, Hdata. reflexivity.
  - intros Hlen.
    unfold get_cdn_repo, bind, client_get, call, lift.
    unfold repo_lookup_request, get_request in Hserve.
    rewrite Hserve, Hstatus, Hdata.
    destruct results as [|d1 [|d2 rest]]; simpl in Hlen; try lia.
    cbn -[Z.of_nat String.append py_str].
    replace (1 <? Z.of_nat (S (S (length rest))))%Z with true
      by (symmetry; apply Z.ltb_lt; lia).
    reflexivity.
  - exact Hone.
  - intros r Hr. destruct (simplify_repo_json r) as (repo & Hs & Hp & Hv & Ha).
    exists repo. rewrite (Hone _ Hr), Hs. auto.
Qed.

Section LookupOnReference.
#[local] Existing Instance Reference.reference_client.

(** C7 against the empty in-memory remote: no match, [None]. *)
Lemma get_cdn_repo_lookup_witness :
  get_cdn_repo (VStr "repo1") None (fresh Reference.empty_store)
  = (Ok VNone,
     {| server := Reference.empty_store;
        calls := [repo_lookup_request (VStr "repo1")] |}).
Proof.
  pose proof (get_cdn_repo_lookup Reference.reference_client (VStr "repo1")
                (@fresh Reference.reference_client Reference.empty_store)
                (Reference.reply 200 (VDict [("data", VList [])]))
                Reference.empty_store [] eq_refl eq_refl eq_refl) as H.
  cbv zeta in H. destruct H as (Hnone & _).
  exact (Hnone eq_refl).
Defined.

End LookupOnReference.

(** *** The page loop of the tag listing (claim C2) *)

Lemma py_iter_not_int (found : pyval) (l : list pyval) (n : Z) :
  py_iter found = Ok l -> py_eqb found (VInt n) = false.
Proof. destruct found; simpl; intros H; try discriminate; reflexivity. Qed.

(** Whatever the remote answers, the loop body runs once: the condition
    compares the list [found] with the integer [PAGE_SIZE]. *)
Lemma fetch_pages_once (C : Client) (fuel : nat) (name : pyval) (w : world) :
  fetch_pages (S (S fuel)) name 0 [] (VList []) w =
  bind (get_package_tags_page name 1)
       (fun found => lift (py_iter found)) w.
Proof.
  change (fetch_pages (S (S fuel)) name 0 [] (VList []) w)
    with (bind (get_package_tags_page name 1)
            (fun found =>
               bind (lift (py_iter found))
                    (fun more => fetch_pages (S fuel) name 1 ([] ++ more) found))
            w).
  unfold bind, lift.
  destruct (get_package_tags_page name 1 w) as [[found | e] w1];
    [| reflexivity].
  destruct (py_iter found) as [more | e] eqn:E; [| reflexivity].
  simpl. now rewrite (py_iter_not_int _ _ _ E).
Qed.

Lemma get_package_tags_page_run (C : Client) (name : pyval) (page_number : Z)
  (w : world) :
  get_package_tags_page name page_number w =
  let (resp, s) := serve (tags_page_request name page_number) (server w) in
  (obind (raise_for_status resp)
         (fun _ => py_getitem (json resp) (VStr "data")),
   {| server := s;
      calls := calls w ++ [tags_page_request name page_number] |}).
Proof.
  unfold get_package_tags_page, bind, client_get, call, lift,
    tags_page_request, get_request.
  destruct (serve _ (server w)) as [resp s].
  destruct (raise_for_status resp) as [[] | e]; reflexivity.
Qed.

(** [get_package_tags] is one request, for page 1, and a function of its
    answer. *)
Lemma get_package_tags_run (C : Client) (name : pyval) (w : world) :
  get_package_tags name w =
  let (resp, s) := serve (tags_page_request name 1) (server w) in
  (tags_of_response resp,
   {| server := s; calls := calls w ++ [tags_page_request name 1] |}).
Proof.
  unfold get_package_tags, page_fuel.
  change 1000 with (S (S 998)).
  unfold bind at 1. rewrite fetch_pages_once.
  unfold bind. rewrite get_package_tags_page_run.
  destruct (serve _ (server w)) as [resp s].
  unfold tags_of_response, lift.
  destruct (raise_for_status resp) as [[] | e]; simpl; [| reflexivity].
  destruct (py_getitem (json resp) (VStr "data")) as [found | e]; simpl;
    [| reflexivity].
  destruct (py_iter found); reflexivity.
Qed.

(** The bound on the loop is never reached: two iterations of fuel give the
    result of any larger bound. *)
Lemma fetch_pages_fuel (C : Client) (fuel : nat) (name : pyval) (w : world) :
  fetch_pages (S (S fuel)) name 0 [] (VList []) w =
  fetch_pages 2 name 0 [] (VList []) w.
Proof. now rewrite !fetch_pages_once. Qed.

Section PagesOnReference.
#[local] Existing Instance Reference.reference_client.

(** C2, where the code departs from it.  Against every remote the listing
    asks for page 1 and nothing else, even when that page is full.  With
    101 associations in the remote the reassembled result has the first
    100 and lacks the last one, [t101]. *)
Theorem get_package_tags_single_page :
  (forall (C : Client) (name : pyval) (w : world),
      calls (snd (get_package_tags name w))
      = calls w ++ [tags_page_request name 1]) /\
  In (numbered_tag 101) (Reference.tags (store_with_tags 101)) /\
  exists packages foo,
    fst (get_package_tags (VStr "repo1") (fresh (store_with_tags 101)))
    = Ok packages /\
    calls (snd (get_package_tags (VStr "repo1")
                  (fresh (store_with_tags 101))))
    = [tags_page_request (VStr "repo1") 1] /\
    dict_get "foo" packages = Some (VDict foo) /\
    length foo = 100%nat /\
    dict_mem "t100" foo = true /\
    dict_mem "t101" foo = false.
Proof.
  split; [| split].
  - intros C name w. rewrite get_package_tags_run.
    destruct (serve _ (server w)). reflexivity.
  - change (In (numbered_tag 101) (map numbered_tag (seq 1 101))).
    apply in_map. apply in_seq. lia.
  - pose (packages :=
            match fst (get_package_tags (VStr "repo1")
                         (fresh (store_with_tags 101))) with
            | Ok p => p
            | Raise _ => []
            end).
    pose (foo := match dict_get "foo" packages with
                 | Some (VDict d) => d
                 | _ => []
                 end).
    exists packages, foo. subst foo packages.
    repeat split; vm_compute; reflexivity.
Qed.

End PagesOnReference.

(** *** Loops that only accumulate messages *)

Lemma omap_total {A B : Type} (g : A -> B) (l : list A) :
  omap (fun x => Ok (g x)) l = Ok (map g l).
Proof.
  induction l as [|x l IH]; simpl; [reflexivity |]. now rewrite IH.
Qed.

Lemma concat_singletons {A B : Type} (g : A -> B) (l : list A) :
  concat (map (fun x => [g x]) l) = map g l.
Proof.
  induction l as [|x l IH]; simpl; [reflexivity |]. now rewrite IH.
Qed.

Lemma omap_ext_in {A B : Type} (f g : A -> outcome B) (l : list A) :
  (forall x, In x l -> f x = g x) -> omap f l = omap g l.
Proof.
  induction l as [|x l IH]; simpl; intros H; [reflexivity |].
  rewrite (H x) by now left.
  rewrite IH; [reflexivity |]. intros y Hy. apply H. now right.
Qed.

Section Loops.
Context {C : Client}.

(** A loop whose body only appends the messages [f x] leaves the world
    as it is and returns the concatenation. *)
Lemma for_each_plan {A : Type} (body : A -> list string -> M (list string))
  (f : A -> outcome (list string)) :
  (forall x acc w, body x acc w = (obind (f x) (fun r => Ok (acc ++ r)), w)) ->
  forall l acc w,
    for_each l body acc w =
    (obind (omap f l) (fun rs => Ok (acc ++ concat rs)), w).
Proof.
  intros Hbody. induction l as [|x l IH]; intros acc w; simpl.
  - unfold ret. now rewrite app_nil_r.
  - unfold bind. rewrite Hbody.
    destruct (f x) as [r | e]; simpl; [| reflexivity].
    rewrite IH. destruct (omap f l) as [rs | e]; simpl; [| reflexivity].
    now rewrite app_assoc.
Qed.

(** A loop whose body, when it returns, has appended the messages [f x],
    returns the concatenation when it returns. *)
Lemma for_each_inv {A : Type} (body : A -> list string -> M (list string))
  (f : A -> outcome (list string)) :
  (forall x acc w r w',
      body x acc w = (Ok r, w') -> exists d, f x = Ok d /\ r = acc ++ d) ->
  forall l acc w r w',
    for_each l body acc w = (Ok r, w') ->
    exists rs, omap f l = Ok rs /\ r = acc ++ concat rs.
Proof.
  intros Hbody. induction l as [|x l IH]; intros acc w r w' H; simpl in *.
  - injection H as <- <-. exists []. simpl. now rewrite app_nil_r.
  - unfold bind in H.
    destruct (body x acc w) as [[a | e] w1] eqn:E; [| discriminate].
    destruct (Hbody _ _ _ _ _ E) as (d & Hd & ->).
    destruct (IH _ _ _ _ H) as (rs & Hrs & ->).
    rewrite Hd, Hrs. simpl. exists (d :: rs). split; [reflexivity |].
    simpl. now rewrite app_assoc.
Qed.

End Loops.

(** *** The per-package reconciliation and its plan *)

(** Case analysis on every step of a run that is known to return. *)
Ltac run_steps H :=
  repeat match type of H with
         | context [match ?x with _ => _ end] =>
             destruct x eqn:?; try discriminate H
         end.

Section PackageTags.
Context {SO : SetOrder} {C : Client}.

(** In check mode the per-package reconciliation is its plan, and the world
    is left as it is. *)
Lemma ensure_package_tags_dry (repo_name : pyval) (package_name : string)
  (current_tags desired_tags : pyval) (w : world) :
  ensure_package_tags repo_name package_name true current_tags desired_tags w
  = (plan_package_tags package_name current_tags desired_tags, w).
Proof.
  unfold ensure_package_tags, plan_package_tags.
  unfold bind at 1 2 3. unfold lift at 1 2.
  destruct (py_set current_tags) as [cs | e]; [| reflexivity].
  destruct (py_set desired_tags) as [ds | e]; [| reflexivity].
  cbv beta iota zeta.
  rewrite (for_each_plan _ (fun t => Ok [removing_tag package_name t]))
    by (intros; reflexivity).
  rewrite omap_total. cbn [obind]. rewrite concat_singletons.
  unfold bind at 1 2 3. unfold lift at 1 2. cbv beta iota zeta.
  rewrite (for_each_plan _
             (plan_modify package_name current_tags desired_tags)).
  2:{ intros x acc w0. unfold plan_modify, bind, lift, ret, obind.
      destruct (py_getitem current_tags x) as [ct | e]; [| reflexivity].
      destruct (py_copy ct) as [ct' | e]; [| reflexivity].
      destruct (py_getitem desired_tags x) as [dt | e]; [| reflexivity].
      destruct (py_copy dt) as [dt' | e]; [| reflexivity].
      destruct (py_pop ct' "id") as [[id ct2] | e]; [| reflexivity].
      cbv beta iota zeta. cbn [snd].
      destruct (compare_package_tags package_name x ct2 dt')
        as [[[| m l] |] | e]; cbn [nonempty extend]; try reflexivity;
        now rewrite app_nil_r. }
  destruct (omap (plan_modify package_name current_tags desired_tags) _)
    as [modified | e]; cbn [obind]; [| reflexivity].
  unfold bind at 1 2 3. unfold lift at 1 2. cbv beta iota zeta.
  rewrite (for_each_plan _ (fun t => Ok [adding_tag package_name t]))
    by (intros; reflexivity).
  rewrite omap_total. cbn [obind]. rewrite concat_singletons.
  unfold ret. cbn [app]. now rewrite app_assoc.
Qed.

(** In either mode, when the per-package reconciliation returns, it returns
    its plan. *)
Lemma ensure_package_tags_ok (repo_name : pyval) (package_name : string)
  (check_mode : bool) (current_tags desired_tags : pyval) (w w' : world)
  (changes : list string) :
  ensure_package_tags repo_name package_name check_mode
    current_tags desired_tags w = (Ok changes, w') ->
  plan_package_tags package_name current_tags desired_tags = Ok changes.
Proof.
  unfold ensure_package_tags, plan_package_tags.
  unfold bind at 1 2 3. unfold lift at 1 2.
  destruct (py_set current_tags) as [cs | e]; [| discriminate].
  destruct (py_set desired_tags) as [ds | e]; [| discriminate].
  simpl.
  destruct (for_each (set_iter (set_sub cs ds)) _ [] w)
    as [[ch1 | e] w1] eqn:E1; [| discriminate].
  apply (for_each_inv _ (fun t => Ok [removing_tag package_name t])) in E1.
  2:{ intros x acc w0 r w0' H. exists [removing_tag package_name x].
      split; [reflexivity |].
      unfold bind, lift, ret in H. run_steps H;
        injection H as <- _; reflexivity. }
  destruct E1 as (rs1 & Hrs1 & ->).
  rewrite omap_total in Hrs1. injection Hrs1 as <-.
  rewrite concat_singletons. simpl.
  unfold bind at 1 2 3. unfold lift at 1 2. simpl.
  destruct (for_each (set_iter (set_and cs ds)) _ _ w1)
    as [[ch2 | e] w2] eqn:E2; [| discriminate].
  apply (for_each_inv _ (plan_modify package_name current_tags desired_tags))
    in E2.
  2:{ intros x acc w0 r w0' H. unfold plan_modify, obind.
      unfold bind, lift, ret in H.
      destruct (py_getitem current_tags x) as [ct | e]; [| discriminate].
      destruct (py_copy ct) as [ct' | e]; [| discriminate].
      destruct (py_getitem desired_tags x) as [dt | e]; [| discriminate].
      destruct (py_copy dt) as [dt' | e]; [| discriminate].
      destruct (py_pop ct' "id") as [[id ct2] | e]; [| discriminate].
      simpl in *.
      destruct (compare_package_tags package_name x ct2 dt')
        as [[[| m l] |] | e]; simpl in *; try discriminate;
        try (injection H as <- _; eexists; split;
             [reflexivity | now rewrite app_nil_r]).
      eexists. split; [reflexivity |].
      run_steps H; injection H as <- _; reflexivity. }
  destruct E2 as (rs2 & Hrs2 & ->). rewrite Hrs2. simpl.
  unfold bind at 1 2 3. unfold lift at 1 2. simpl.
  destruct (for_each (set_iter (set_sub ds cs)) _ _ w2)
    as [[ch3 | e] w3] eqn:E3; [| discriminate].
  apply (for_each_inv _ (fun t => Ok [adding_tag package_name t])) in E3.
  2:{ intros x acc w0 r w0' H. exists [adding_tag package_name x].
      split; [reflexivity |].
      unfold bind, lift, ret in H. run_steps H;
        injection H as <- _; reflexivity. }
  destruct E3 as (rs3 & Hrs3 & ->).
  rewrite omap_total in Hrs3. injection Hrs3 as <-.
  rewrite concat_singletons.
  unfold ret. intros [= <- _]. now rewrite app_assoc.
Qed.

End PackageTags.

(** *** The whole-repository reconciliation (claim C3) *)

Section PackagesTags.
Context {SO : SetOrder} {C : Client}.




End PackagesTags.


Section PackagesOnReference.
#[local] Existing Instance Reference.insertion_order.
#[local] Existing Instance Reference.reference_client.



End PackagesOnReference.

(** *** A package the remote does not have (claim C9) *)

Lemma mem_strs (x : string) (l : list string) :
  mem (VStr x) (map VStr l) = true <-> In x l.
Proof.
  unfold mem. rewrite existsb_exists. split.
  - intros (y & Hy & Heq). apply in_map_iff in Hy.
    destruct Hy as (k & <- & Hk). simpl in Heq.
    apply String.eqb_eq in Heq. now subst.
  - intros H. exists (VStr x). split; [now apply in_map |].
    simpl. apply String.eqb_refl.
Qed.

Lemma dedup_strs (l : list string) :
  NoDup l -> dedup (map VStr l) = map VStr l.
Proof.
  induction l as [|x l IH]; simpl; intros H; [reflexivity |].
  inversion H as [| ? ? Hnotin Hnd]; subst.
  destruct (mem (VStr x) (map VStr l)) eqn:E.
  - apply mem_strs in E. contradiction.
  - now rewrite IH.
Qed.

Lemma hashable_strs (l : list string) : forallb hashable (map VStr l) = true.
Proof. induction l; simpl; auto. Qed.

Lemma dict_keys_map {A : Type} (f : string * A -> pyval)
  (l : list (string * A)) :
  dict_keys (map (fun p => (fst p, f p)) l) = map fst l.
Proof. unfold dict_keys. rewrite map_map. reflexivity. Qed.

Lemma py_set_tag_settings (desired : list (string * dict)) :
  NoDup (map fst desired) ->
  py_set (tag_settings desired) = Ok (map VStr (map fst desired)).
Proof.
  intros H. unfold py_set, tag_settings, py_iter.
  rewrite dict_keys_map. rewrite hashable_strs. now rewrite dedup_strs.
Qed.

Lemma set_sub_nil_r (a : list pyval) : set_sub a [] = a.
Proof.
  unfold set_sub. induction a as [|x a IH]; simpl; [reflexivity |].
  f_equal. exact IH.
Qed.

Lemma set_iter_nil (SO : SetOrder) : set_iter [] = [].
Proof.
  apply Permutation_nil. apply Permutation_sym. apply set_iter_perm.
Qed.

Section Issued.
Context {C : Client}.

(** A loop whose body, on each element, appends one message and issues [n]
    requests that satisfy [P]. *)
Lemma for_each_issued {A : Type} (body : A -> list string -> M (list string))
  (f : A -> string) (P : request -> Prop) (n : nat) (l : list A) :
  (forall x acc w,
      In x l ->
      exists issued w',
        body x acc w = (Ok (acc ++ [f x]), w') /\
        calls w' = calls w ++ issued /\
        Forall P issued /\ length issued = n) ->
  forall acc w,
    exists issued w',
      for_each l body acc w = (Ok (acc ++ map f l), w') /\
      calls w' = calls w ++ issued /\
      Forall P issued /\ length issued = (n * length l)%nat.
Proof.
  induction l as [|x l IH]; intros Hbody acc w; simpl.
  - exists [], w. unfold ret. rewrite !app_nil_r.
    repeat split; auto; lia.
  - destruct (Hbody x acc w (or_introl eq_refl))
      as (i1 & w1 & Hb & Hc1 & HP1 & Hn1).
    destruct (IH (fun y a w0 Hy => Hbody y a w0 (or_intror Hy))
                 (acc ++ [f x]) w1)
      as (i2 & w2 & Hl & Hc2 & HP2 & Hn2).
    exists (i1 ++ i2), w2. unfold bind. rewrite Hb, Hl.
    rewrite <- app_assoc. simpl. repeat split.
    + rewrite Hc2, Hc1. now rewrite app_assoc.
    + apply Forall_app. now split.
    + rewrite length_app. lia.
Qed.

Lemma add_package_tag_created (repo_name : pyval) (package_name : string)
  (tag_template variant : pyval) (w : world) :
  (forall body s,
      status_code
        (fst (serve (post_request "api/v1/cdn_repo_package_tags" body) s))
      = 201%Z) ->
  exists r w',
    add_package_tag repo_name package_name tag_template variant w
    = (Ok tt, w') /\
    calls w' = calls w ++ [r] /\ req_verb r = POST.
Proof.
  intros Hcreated.
  unfold add_package_tag, bind, client_post, call.
  match goal with
  | |- context [serve ?r ?s] =>
      pose proof (Hcreated (match req_json r with
                            | Some b => b
                            | None => VNone
                            end) s) as H;
      destruct (serve r s) as [resp s'] eqn:E
  end.
  unfold post_request in H. simpl in H.
  destruct (truthy variant); simpl in *; rewrite E in H; simpl in H;
    rewrite H; simpl; eexists; eexists; repeat split.
Qed.

End Issued.

(** C9.  When a declared package is unknown to the remote, the per-package
    reconciliation is handed the empty list as current tags.  For every
    desired mapping of distinct tag templates to settings dicts it returns
    without raising, in check mode and, when the remote answers every
    creation with 201, in a real run; the changes are one adding message
    per desired template; the calls issued are creations only, none in
    check mode and one per template otherwise, so nothing is deleted or
    edited. *)
Theorem ensure_package_tags_empty_list_current :
  forall (SO : SetOrder) (C : Client) (repo_name : pyval)
         (package_name : string) (check_mode : bool)
         (desired : list (string * dict)) (w : world),
    NoDup (map fst desired) ->
    (check_mode = false ->
     forall body s,
       status_code
         (fst (serve (post_request "api/v1/cdn_repo_package_tags" body) s))
       = 201%Z) ->
    exists changes issued w',
      ensure_package_tags repo_name package_name check_mode
        (VList []) (tag_settings desired) w = (Ok changes, w') /\
      Permutation changes
        (map (fun p => adding_tag package_name (VStr (fst p))) desired) /\
      calls w' = calls w ++ issued /\
      Forall (fun r => req_verb r = POST) issued /\
      length issued = (if check_mode then 0 else length desired)%nat.
Proof.
  intros SO C repo_name package_name check_mode desired w Hnd Hcreated.
  unfold ensure_package_tags.
  rewrite (py_set_tag_settings _ Hnd).
  change (py_set (VList [])) with (Ok (@nil pyval)).
  unfold bind at 1 2 3. unfold lift at 1 2.
  cbv beta iota zeta.
  change (set_sub [] (map VStr (map fst desired))) with (@nil pyval).
  rewrite set_iter_nil. cbn [for_each]. unfold ret at 1.
  cbv beta iota zeta.
  unfold bind at 1 2 3. unfold lift at 1 2.
  cbv beta iota zeta.
  change (set_and [] (map VStr (map fst desired))) with (@nil pyval).
  rewrite set_iter_nil. cbn [for_each]. unfold ret at 1.
  cbv beta iota zeta.
  unfold bind at 1 2 3. unfold lift at 1 2.
  cbv beta iota zeta.
  rewrite set_sub_nil_r.
  set (l := set_iter (map VStr (map fst desired))).
  assert (Hperm : Permutation l (map VStr (map fst desired)))
    by apply set_iter_perm.
  match goal with
  | |- context [for_each l ?b [] w] =>
      destruct (for_each_issued b (adding_tag package_name)
                  (fun r => req_verb r = POST)
                  (if check_mode then 0 else 1)%nat l) with (acc := @nil string) (w := w)
        as (issued & w' & Hrun & Hcalls & HP & Hlen)
  end.
  - intros x acc w0 Hx.
    apply (Permutation_in _ Hperm) in Hx.
    apply in_map_iff in Hx. destruct Hx as (k & <- & Hk).
    apply in_map_iff in Hk. destruct Hk as ([k' settings] & <- & Hin).
    simpl fst.
    destruct check_mode.
    + exists [], w0. unfold ret. rewrite app_nil_r. repeat split; auto.
    + unfold bind at 1. unfold lift at 1. unfold tag_settings.
      simpl py_getitem.
      rewrite (dict_get_map_in (fun p => VDict (snd p)) desired k' settings
                 Hnd Hin).
      unfold bind at 1. unfold lift at 1. simpl py_get.
      destruct (add_package_tag_created repo_name package_name (VStr k')
                  match dict_get "variant" settings with
                  | Some v => v
                  | None => VNone
                  end w0 (Hcreated eq_refl))
        as (r & w1 & Hadd & Hc & Hr).
      exists [r], w1. cbn [fst]. unfold bind. rewrite Hadd. unfold ret.
      repeat split; auto.
  - exists (map (adding_tag package_name) l), issued, w'.
    rewrite Hrun. unfold ret. simpl. repeat split; auto.
    + rewrite <- (map_map fst (fun k => adding_tag package_name (VStr k))).
      rewrite <- (map_map VStr (adding_tag package_name)).
      now apply Permutation_map.
    + rewrite Hlen.
      assert (Hl : length l = length desired).
      { rewrite (Permutation_length Hperm). now rewrite !length_map. }
      destruct check_mode; lia.
Qed.

Section EmptyListOnReference.
#[local] Existing Instance Reference.insertion_order.
#[local] Existing Instance Reference.reference_client.

(** C9 at a real run against the in-memory remote, which answers every
    creation with 201: two desired templates, two additions. *)
Lemma ensure_package_tags_empty_list_current_witness :
  exists changes issued w',
    ensure_package_tags (VStr "repo1") "foo" false (VList [])
      (tag_settings [("latest", []); ("beta", [("variant", VStr "V1")])])
      (fresh Reference.empty_store) = (Ok changes, w') /\
    Permutation changes
      [adding_tag "foo" (VStr "latest"); adding_tag "foo" (VStr "beta")] /\
    calls w' = issued /\
    Forall (fun r => req_verb r = POST) issued /\
    length issued = 2%nat.
Proof.
  apply (ensure_package_tags_empty_list_current
           Reference.insertion_order Reference.reference_client
           (VStr "repo1") "foo" false
           [("latest", []); ("beta", [("variant", VStr "V1")])]
           (@fresh Reference.reference_client Reference.empty_store)).
  - simpl. repeat constructor; simpl; intuition discriminate.
  - intros _ body s. reflexivity.
Defined.

End EmptyListOnReference.

(** *** Check mode against a real run (claim C1) *)

Section DryRun.
Context {SO : SetOrder} {C : Client} {SD : SettingsDiffer}.


















End DryRun.


Section DryRunOnReference.
#[local] Existing Instance Reference.insertion_order.
#[local] Existing Instance Reference.reference_client.
#[local] Existing Instance Reference.spec_differ.




End DryRunOnReference.

(** *** Running twice (claim C4) *)

Section TwiceOnReference.
#[local] Existing Instance Reference.insertion_order.
#[local] Existing Instance Reference.reference_client.
#[local] Existing Instance Reference.spec_differ.

(** C4, where the code departs from it.  Against the in-memory remote,
    which reflects every mutation: with 100 declared tags the second run
    reports nothing; with 101 the first run creates the repository and
    adds the 101 tags, and the second run, which reads the first page of
    100 only, reports [t101] as added once more, with [changed = true]. *)
Theorem second_run_past_one_page :
  report (ensure_cdn_repo false (params_with_tags 100)
            (fresh (state_after_run (params_with_tags 100))))
  = Ok (false, []) /\
  is_ok (fst (ensure_cdn_repo false (params_with_tags 101)
                (fresh Reference.empty_store))) = true /\
  length (Reference.tags (state_after_run (params_with_tags 101))) = 101%nat /\
  report (ensure_cdn_repo false (params_with_tags 101)
            (fresh (state_after_run (params_with_tags 101))))
  = Ok (true, [adding_tag "foo" (VStr "t101")]).
Proof. repeat split; vm_compute; reflexivity. Qed.

End TwiceOnReference.

(** *** The calls of the per-package reconciliation *)

Section Accounting.
Context {SO : SetOrder} {C : Client}.

Lemma for_each_accounted {A : Type} (P : request -> Prop)
  (body : A -> list string -> M (list string)) (l : list A) :
  (forall x acc, accounted P (body x acc) acc) ->
  forall acc, accounted P (for_each l body acc) acc.
Proof.
  intros Hbody. induction l as [| x l IH]; intros acc w; cbn [for_each].
  - exists []. unfold ret. cbn [fst snd]. rewrite app_nil_r.
    split; [reflexivity |]. split; [constructor |].
    intros r [= <-]. exists []. now rewrite app_nil_r.
  - unfold bind.
    destruct (Hbody x acc w) as (l1 & Hc1 & HP1 & Hr1).
    destruct (body x acc w) as [[a | e] w1]; cbn [fst snd] in *.
    + destruct (Hr1 a eq_refl) as (d1 & -> & Hlen1).
      destruct (IH (acc ++ d1) w1) as (l2 & Hc2 & HP2 & Hr2).
      exists (l1 ++ l2). rewrite Hc2, Hc1, app_assoc.
      split; [reflexivity |]. split; [now apply Forall_app |].
      intros r Hr. destruct (Hr2 r Hr) as (d2 & -> & Hlen2).
      exists (d1 ++ d2). rewrite app_assoc, !length_app. split; [reflexivity | lia].
    + exists l1. split; [exact Hc1 |]. split; [exact HP1 |].
      intros r [=].
Qed.

(** Each mutation helper issues at most one request, of its verb, and
    exactly one when it returns. *)
Lemma delete_package_tag_one (tag_id : pyval) (w : world) :
  exists l,
    calls (snd (delete_package_tag tag_id w)) = calls w ++ l /\
    Forall is_delete l /\
    (fst (delete_package_tag tag_id w) = Ok tt -> length l = 1%nat).
Proof.
  unfold delete_package_tag, bind, lift, client_delete, call, ret, throw.
  destruct (py_int tag_id) as [id | e].
  - match goal with
    | |- context [serve ?r (server w)] =>
        destruct (serve r (server w)) as [resp s]; exists [r]
    end.
    destruct (negb (status_code resp =? 204)%Z);
      [destruct (py_getitem (json resp) (VStr "error")) |];
      cbn [fst snd calls]; repeat split; auto; repeat constructor.
  - exists []. cbn [fst snd]. rewrite app_nil_r.
    repeat split; auto. intros [=].
Qed.

Lemma edit_package_tag_one (tag_id desired_tag : pyval) (w : world) :
  exists l,
    calls (snd (edit_package_tag tag_id desired_tag w)) = calls w ++ l /\
    Forall is_put l /\
    (fst (edit_package_tag tag_id desired_tag w) = Ok tt -> length l = 1%nat).
Proof.
  unfold edit_package_tag, bind, lift, client_put, call, ret, throw.
  destruct (py_get desired_tag "variant" VNone) as [variant | e].
  - destruct (py_int tag_id) as [id | e].
    + match goal with
      | |- context [serve ?r (server w)] =>
          destruct (serve r (server w)) as [resp s]; exists [r]
      end.
      destruct (negb (status_code resp =? 200)%Z);
        [destruct (py_getitem (json resp) (VStr "error")) |];
        cbn [fst snd calls]; repeat split; auto; repeat constructor.
    + exists []. cbn [fst snd]. rewrite app_nil_r.
      repeat split; auto. intros [=].
  - exists []. cbn [fst snd]. rewrite app_nil_r.
    repeat split; auto. intros [=].
Qed.

Lemma add_package_tag_one (repo_name : pyval) (package_name : string)
  (tag_template variant : pyval) (w : world) :
  exists l,
    calls (snd (add_package_tag repo_name package_name tag_template
                  variant w)) = calls w ++ l /\
    Forall is_post l /\
    (fst (add_package_tag repo_name package_name tag_template variant w)
     = Ok tt -> length l = 1%nat).
Proof.
  unfold add_package_tag, bind, lift, client_post, call, ret, throw.
  match goal with
  | |- context [serve ?r (server w)] =>
      destruct (serve r (server w)) as [resp s]; exists [r]
  end.
  destruct (negb (status_code resp =? 201)%Z);
    [destruct (py_getitem (json resp) (VStr "error")) |];
    cbn [fst snd calls]; repeat split; auto; repeat constructor.
Qed.

Lemma compare_one_message (package_name : string)
  (tag_template current desired : pyval) (differences : option (list string)) :
  compare_package_tags package_name tag_template current desired
  = Ok differences ->
  nonempty differences = true ->
  exists message, differences = Some [message].
Proof.
  unfold compare_package_tags, obind.
  destruct (py_get current "variant" VNone) as [cv | e]; [| discriminate].
  destruct (py_get desired "variant" VNone) as [dv | e]; [| discriminate].
  destruct (py_eqb cv dv); cbn [negb].
  - intros [= <-]. discriminate.
  - destruct (truthy cv && negb (truthy dv));
      [intros [= <-] _; eexists; reflexivity |].
    destruct (negb (truthy cv) && truthy dv);
      intros [= <-] _; eexists; reflexivity.
Qed.

(** The calls of a real run of the per-package reconciliation: deletions,
    then edits, then creations, and, when it returns, one call per change
    reported. *)
Lemma ensure_package_tags_trace (repo_name : pyval) (package_name : string)
  (current_tags desired_tags : pyval) (w : world) :
  ordered_calls w
    (ensure_package_tags repo_name package_name false
       current_tags desired_tags w).
Proof.
  unfold ensure_package_tags.
  unfold bind at 1 2 3. unfold lift at 1 2.
  destruct (py_set current_tags) as [cs | e].
  2:{ exists [], [], []. cbn [fst snd app]. rewrite app_nil_r.
      repeat split; auto. intros changes [=]. }
  destruct (py_set desired_tags) as [ds | e].
  2:{ exists [], [], []. cbn [fst snd app]. rewrite app_nil_r.
      repeat split; auto. intros changes [=]. }
  cbv beta iota zeta.
  (* deletions *)
  match goal with
  | |- context [for_each ?l ?b [] w] =>
      assert (Hb1 : forall x acc, accounted is_delete (b x acc) acc);
      [| destruct (for_each_accounted is_delete b l Hb1 [] w)
           as (l1 & Hc1 & HP1 & Hr1);
         destruct (for_each l b [] w) as [[ch1 | e1] w1] ]
  end.
  { intros x acc w0. unfold bind, lift, ret.
    destruct (py_getitem current_tags x) as [ct | e].
    2:{ exists []. cbn [fst snd]. rewrite app_nil_r.
        split; [reflexivity |]. split; [constructor |]. intros r [=]. }
    destruct (py_getitem ct (VStr "id")) as [id | e].
    2:{ exists []. cbn [fst snd]. rewrite app_nil_r.
        split; [reflexivity |]. split; [constructor |]. intros r [=]. }
    destruct (delete_package_tag_one id w0) as (l & Hc & HP & Hlen).
    destruct (delete_package_tag id w0) as [[[] | e] w1];
      cbn [fst snd] in *; exists l;
      (split; [exact Hc |]); (split; [exact HP |]).
    - intros r [= <-]. eexists. split; [reflexivity |].
      rewrite (Hlen eq_refl). reflexivity.
    - intros r [=]. }
  2:{ cbv beta iota zeta. cbn [fst snd] in *.
      exists l1, [], []. cbn [fst snd app]. rewrite app_nil_r.
      repeat split; auto. intros changes [=]. }
  cbv beta iota zeta. cbn [fst snd] in Hc1, Hr1.
  destruct (Hr1 ch1 eq_refl) as (d1 & -> & Hlen1). cbn [app].
  (* edits *)
  unfold bind at 1 2 3. unfold lift at 1 2. cbv beta iota zeta.
  match goal with
  | |- context [for_each ?l ?b d1 w1] =>
      assert (Hb2 : forall x acc, accounted is_put (b x acc) acc);
      [| destruct (for_each_accounted is_put b l Hb2 d1 w1)
           as (l2 & Hc2 & HP2 & Hr2);
         destruct (for_each l b d1 w1) as [[ch2 | e2] w2] ]
  end.
  { intros x acc w0. unfold bind, lift, ret.
    assert (Hnone : forall (e : exn),
      exists l : list request,
        calls (snd (@Raise (list string) e, w0)) = calls w0 ++ l /\
        Forall is_put l /\
        forall r, fst (@Raise (list string) e, w0) = Ok r ->
                  exists d, r = acc ++ d /\ length l = length d).
    { intros e. exists []. cbn [fst snd]. rewrite app_nil_r.
      split; [reflexivity |]. split; [constructor |]. intros r [=]. }
    destruct (py_getitem current_tags x) as [ct | e]; [| apply Hnone].
    destruct (py_copy ct) as [ct' | e]; [| apply Hnone].
    destruct (py_getitem desired_tags x) as [dt | e]; [| apply Hnone].
    destruct (py_copy dt) as [dt' | e]; [| apply Hnone].
    destruct (py_pop ct' "id") as [[id ct2] | e]; [| apply Hnone].
    destruct (compare_package_tags package_name x ct2 dt')
      as [differences | e] eqn:Ecmp; [| apply Hnone].
    destruct (nonempty differences) eqn:Ene.
    - destruct (compare_one_message _ _ _ _ _ Ecmp Ene) as (m & ->).
      destruct (edit_package_tag_one id dt' w0) as (l & Hc & HP & Hlen).
      destruct (edit_package_tag id dt' w0) as [[[] | e] w3];
        cbn [fst snd] in *; exists l;
        (split; [exact Hc |]); (split; [exact HP |]).
      + intros r [= <-]. exists [m]. split; [reflexivity |].
        rewrite (Hlen eq_refl). reflexivity.
      + intros r [=].
    - exists []. cbn [fst snd]. rewrite app_nil_r.
      split; [reflexivity |]. split; [constructor |].
      intros r [= <-]. exists []. now rewrite app_nil_r. }
  2:{ cbv beta iota zeta. cbn [fst snd] in *.
      exists l1, l2, []. cbn [fst snd]. rewrite app_nil_r.
      rewrite Hc2, Hc1, app_assoc.
      repeat split; auto. intros changes [=]. }
  cbv beta iota zeta. cbn [fst snd] in Hc2, Hr2.
  destruct (Hr2 ch2 eq_refl) as (d2 & -> & Hlen2).
  (* creations *)
  unfold bind at 1 2 3. unfold lift at 1 2. cbv beta iota zeta.
  match goal with
  | |- context [for_each ?l ?b (d1 ++ d2) w2] =>
      assert (Hb3 : forall x acc, accounted is_post (b x acc) acc);
      [| destruct (for_each_accounted is_post b l Hb3 (d1 ++ d2) w2)
           as (l3 & Hc3 & HP3 & Hr3);
         destruct (for_each l b (d1 ++ d2) w2) as [[ch3 | e3] w3] ]
  end.
  { intros x acc w0. unfold bind, lift, ret.
    destruct (py_getitem desired_tags x) as [tag | e].
    2:{ exists []. cbn [fst snd]. rewrite app_nil_r.
        split; [reflexivity |]. split; [constructor |]. intros r [=]. }
    destruct (py_get tag "variant" VNone) as [variant | e].
    2:{ exists []. cbn [fst snd]. rewrite app_nil_r.
        split; [reflexivity |]. split; [constructor |]. intros r [=]. }
    destruct (add_package_tag_one repo_name package_name x variant w0)
      as (l & Hc & HP & Hlen).
    destruct (add_package_tag repo_name package_name x variant w0)
      as [[[] | e] w4];
      cbn [fst snd] in *; exists l;
      (split; [exact Hc |]); (split; [exact HP |]).
    - intros r [= <-]. eexists. split; [reflexivity |].
      rewrite (Hlen eq_refl). reflexivity.
    - intros r [=]. }
  - cbv beta iota zeta. cbn [fst snd] in *. unfold ret. cbn [fst snd].
    destruct (Hr3 ch3 eq_refl) as (d3 & -> & Hlen3).
    exists l1, l2, l3. cbn [fst snd]. rewrite Hc3, Hc2, Hc1, <- !app_assoc.
    repeat split; auto.
    intros changes [= <-]. rewrite !length_app. lia.
  - cbv beta iota zeta. cbn [fst snd] in *. exists l1, l2, l3.
    cbn [fst snd]. rewrite Hc3, Hc2, Hc1, <- !app_assoc.
    repeat split; auto. intros changes [=].
Qed.

End Accounting.

(** Whatever a real run of the per-package reconciliation returns or
    raises, the calls it has issued are deletions first, then edits, then
    creations. *)
Theorem ensure_package_tags_call_order :
  forall (SO : SetOrder) (C : Client) (repo_name : pyval)
         (package_name : string) (current_tags desired_tags : pyval)
         (w : world),
  exists deleted edited created,
    calls (snd (ensure_package_tags repo_name package_name false
                  current_tags desired_tags w))
    = calls w ++ deleted ++ edited ++ created /\
    Forall (fun r => req_verb r = DELETE) deleted /\
    Forall (fun r => req_verb r = PUT) edited /\
    Forall (fun r => req_verb r = POST) created.
Proof.
  intros SO C repo_name package_name current_tags desired_tags w.
  destruct (ensure_package_tags_trace repo_name package_name
              current_tags desired_tags w)
    as (deleted & edited & created & Hc & Hd & He & Hcr & _).
  exists deleted, edited, created. auto.
Qed.

(** When a real run of the per-package reconciliation returns, it has
    issued exactly one mutating call per change it reports. *)
Theorem ensure_package_tags_one_call_per_change :
  forall (SO : SetOrder) (C : Client) (repo_name : pyval)
         (package_name : string) (current_tags desired_tags : pyval)
         (w w' : world) (changes : list string),
    ensure_package_tags repo_name package_name false
      current_tags desired_tags w = (Ok changes, w') ->
    exists issued,
      calls w' = calls w ++ issued /\
      length issued = length changes /\
      Forall (fun r => mutating r = true) issued.
Proof.
  intros SO C repo_name package_name current_tags desired_tags w w' changes
    Hrun.
  destruct (ensure_package_tags_trace repo_name package_name
              current_tags desired_tags w)
    as (deleted & edited & created & Hc & Hd & He & Hcr & Hlen).
  rewrite Hrun in Hc, Hlen. cbn [fst snd] in Hc, Hlen.
  exists (deleted ++ edited ++ created). split; [exact Hc |].
  split; [now apply Hlen |].
  repeat (apply Forall_app; split);
    eapply Forall_impl; try eassumption;
    intros r Hr; unfold mutating; now rewrite Hr.
Qed.

(** Check mode of the per-package reconciliation leaves the remote and the
    trace as they are, and returns from any state what a real run returns
    when it returns. *)
Theorem ensure_package_tags_check_mode :
  forall (SO : SetOrder) (C : Client) (repo_name : pyval)
         (package_name : string) (current_tags desired_tags : pyval),
    (forall w,
        snd (ensure_package_tags repo_name package_name true
               current_tags desired_tags w) = w) /\
    (forall w w' changes,
        ensure_package_tags repo_name package_name false
          current_tags desired_tags w = (Ok changes, w') ->
        forall w0,
          ensure_package_tags repo_name package_name true
            current_tags desired_tags w0 = (Ok changes, w0)).
Proof.
  intros SO C repo_name package_name current_tags desired_tags. split.
  - intros w. now rewrite ensure_package_tags_dry.
  - intros w w' changes Hrun w0. rewrite ensure_package_tags_dry.
    now rewrite (ensure_package_tags_ok _ _ _ _ _ _ _ _ Hrun).
Qed.

Section AccountingOnReference.
#[local] Existing Instance Reference.insertion_order.
#[local] Existing Instance Reference.reference_client.

(** Against the in-memory remote: tag [beta] of [foo] is deleted and tag
    [latest] created, two changes and two calls. *)
Lemma ensure_package_tags_one_call_per_change_witness :
  exists issued,
    map req_verb issued = [DELETE; POST] /\
    length issued = 2%nat.
Proof.
  destruct (ensure_package_tags_one_call_per_change
              Reference.insertion_order Reference.reference_client
              (VStr "repo1") "foo"
              (VDict [("beta", VDict [("id", VInt 2)])])
              (VDict [("latest", VDict [])])
              (@fresh Reference.reference_client store_with_repo)
              (snd (ensure_package_tags (VStr "repo1") "foo" false
                      (VDict [("beta", VDict [("id", VInt 2)])])
                      (VDict [("latest", VDict [])])
                      (@fresh Reference.reference_client store_with_repo)))
              [removing_tag "foo" (VStr "beta");
               adding_tag "foo" (VStr "latest")])
    as (issued & Hc & Hlen & _).
  - reflexivity.
  - exists issued. split; [| exact Hlen].
    cbn [calls fresh app] in Hc. rewrite <- Hc. reflexivity.
Defined.

(** Against the in-memory remote: the changes of the real run above are
    the changes of check mode. *)
Lemma ensure_package_tags_check_mode_witness :
  ensure_package_tags (VStr "repo1") "foo" true
    (VDict [("beta", VDict [("id", VInt 2)])])
    (VDict [("latest", VDict [])])
    (fresh store_with_repo)
  = (Ok [removing_tag "foo" (VStr "beta"); adding_tag "foo" (VStr "latest")],
     fresh store_with_repo).
Proof.
  destruct (ensure_package_tags_check_mode
              Reference.insertion_order Reference.reference_client
              (VStr "repo1") "foo"
              (VDict [("beta", VDict [("id", VInt 2)])])
              (VDict [("latest", VDict [])])) as (_ & H).
  apply (H (@fresh Reference.reference_client store_with_repo)
           (snd (ensure_package_tags (VStr "repo1") "foo" false
                   (VDict [("beta", VDict [("id", VInt 2)])])
                   (VDict [("latest", VDict [])])
                   (@fresh Reference.reference_client store_with_repo)))).
  reflexivity.
Defined.

End AccountingOnReference.

(** *** A package that needs no change *)

Lemma dict_get_del_other (k k' : string) (d : dict) :
  k <> k' -> dict_get k (dict_del k' d) = dict_get k d.
Proof.
  intros Hne. induction d as [| [k2 v2] d IH]; cbn [dict_del dict_get];
    [reflexivity |].
  destruct (String.eqb k' k2) eqn:E.
  - apply String.eqb_eq in E. subst k2.
    destruct (String.eqb k k') eqn:E'; [| reflexivity].
    apply String.eqb_eq in E'. contradiction.
  - cbn [dict_get]. now rewrite IH.
Qed.

Lemma set_sub_all_in (a b : list pyval) :
  (forall x, In x a -> mem x b = true) -> set_sub a b = [].
Proof.
  unfold set_sub. induction a as [| x a IH]; intros H; cbn [filter];
    [reflexivity |].
  rewrite (H x) by now left. cbn [negb]. apply IH.
  intros y Hy. apply H. now right.
Qed.

Lemma set_and_all_in (a b : list pyval) :
  (forall x, In x a -> mem x b = true) -> set_and a b = a.
Proof.
  unfold set_and. induction a as [| x a IH]; intros H; cbn [filter];
    [reflexivity |].
  rewrite (H x) by now left. f_equal. apply IH.
  intros y Hy. apply H. now right.
Qed.

Lemma for_each_unchanged {C : Client} {A S : Type}
  (body : A -> S -> M S) (l : list A) (acc : S) (w : world) :
  (forall x, In x l -> body x acc w = (Ok acc, w)) ->
  for_each l body acc w = (Ok acc, w).
Proof.
  induction l as [| x l IH]; intros H; cbn [for_each]; [reflexivity |].
  unfold bind. rewrite (H x) by now left.
  apply IH. intros y Hy. apply H. now right.
Qed.

(** A package whose remote tags are the declared ones, template by template
    and with equal variants, is left alone: the per-package reconciliation
    reports nothing and issues no call, in check mode and in a real run. *)
Theorem ensure_package_tags_converged :
  forall (SO : SetOrder) (C : Client) (repo_name : pyval)
         (package_name : string) (check_mode : bool)
         (current desired : list (string * dict)) (w : world),
    NoDup (map fst current) ->
    NoDup (map fst desired) ->
    (forall t, In t (map fst desired) -> In t (map fst current)) ->
    (forall t c,
        In (t, c) current ->
        dict_mem "id" c = true /\
        exists d, In (t, d) desired /\
                  py_eqb (variant_of c) (variant_of d) = true) ->
    ensure_package_tags repo_name package_name check_mode
      (tag_settings current) (tag_settings desired) w = (Ok [], w).
Proof.
  intros SO C repo_name package_name check_mode current desired w
    Hndc Hndd Hsub Hsame.
  assert (Hcd : forall x, In x (map VStr (map fst current)) ->
                          mem x (map VStr (map fst desired)) = true).
  { intros x Hx. apply in_map_iff in Hx. destruct Hx as (t & <- & Ht).
    apply mem_strs. apply in_map_iff in Ht.
    destruct Ht as ([t' c] & <- & Hin).
    destruct (Hsame _ _ Hin) as (_ & d & Hd & _).
    cbn [fst]. apply in_map_iff. exists (t', d). now split. }
  assert (Hdc : forall x, In x (map VStr (map fst desired)) ->
                          mem x (map VStr (map fst current)) = true).
  { intros x Hx. apply in_map_iff in Hx. destruct Hx as (t & <- & Ht).
    apply mem_strs. now apply Hsub. }
  unfold ensure_package_tags.
  rewrite (py_set_tag_settings _ Hndc), (py_set_tag_settings _ Hndd).
  unfold bind at 1 2 3. unfold lift at 1 2. cbv beta iota zeta.
  rewrite (set_sub_all_in _ _ Hcd), set_iter_nil. cbn [for_each].
  unfold ret at 1. cbv beta iota zeta.
  unfold bind at 1 2 3. unfold lift at 1 2. cbv beta iota zeta.
  rewrite (set_and_all_in _ _ Hcd).
  rewrite for_each_unchanged.
  - unfold bind at 1 2 3. unfold lift at 1 2. cbv beta iota zeta.
    rewrite (set_sub_all_in _ _ Hdc), set_iter_nil. cbn [for_each].
    reflexivity.
  - intros x Hx.
    apply (Permutation_in _ (set_iter_perm _)) in Hx.
    apply in_map_iff in Hx. destruct Hx as (t & <- & Ht).
    apply in_map_iff in Ht. destruct Ht as ([t' c] & <- & Hin).
    cbn [fst].
    destruct (Hsame _ _ Hin) as (Hid & d & Hd & Heq).
    unfold tag_settings. cbn [py_getitem].
    rewrite (dict_get_map_in (fun p => VDict (snd p)) current t' c Hndc Hin).
    rewrite (dict_get_map_in (fun p => VDict (snd p)) desired t' d Hndd Hd).
    cbn [snd]. unfold bind, lift. cbn [py_copy py_pop].
    unfold dict_mem in Hid.
    destruct (dict_get "id" c) as [idv |]; [| discriminate].
    unfold compare_package_tags. cbn [py_get obind].
    rewrite (dict_get_del_other "variant" "id") by discriminate.
    unfold variant_of in Heq. rewrite Heq. reflexivity.
Qed.

Section ConvergedOnReference.
#[local] Existing Instance Reference.insertion_order.
#[local] Existing Instance Reference.reference_client.

(** Two tags, one restricted to a variant, declared in another order than
    the remote lists them. *)
Lemma ensure_package_tags_converged_witness :
  ensure_package_tags (VStr "repo1") "foo" false
    (tag_settings [("latest", [("id", VInt 4)]);
                   ("beta", [("variant", VStr "V1"); ("id", VInt 2)])])
    (tag_settings [("beta", [("variant", VStr "V1")]); ("latest", [])])
    (fresh store_with_repo)
  = (Ok [], fresh store_with_repo).
Proof.
  apply (ensure_package_tags_converged
           Reference.insertion_order Reference.reference_client
           (VStr "repo1") "foo" false
           [("latest", [("id", VInt 4)]);
            ("beta", [("variant", VStr "V1"); ("id", VInt 2)])]
           [("beta", [("variant", VStr "V1")]); ("latest", [])]).
  - repeat constructor; cbn; intuition discriminate.
  - repeat constructor; cbn; intuition discriminate.
  - cbn. tauto.
  - intros t c [[= <- <-] | [[= <- <-] | []]].
    + split; [reflexivity |]. exists []. split; [cbn; tauto | reflexivity].
    + split; [reflexivity |]. exists [("variant", VStr "V1")].
      split; [cbn; tauto | reflexivity].
Defined.

End ConvergedOnReference.

(** *** The wire format and the repository mutations *)

Lemma dict_get_del_same (k : string) (d : dict) :
  NoDup (dict_keys d) -> dict_get k (dict_del k d) = None.
Proof.
  induction d as [| [k' v'] d IH]; cbn [dict_del dict_get dict_keys map fst];
    intros H; [reflexivity |].
  inversion H as [| ? ? Hnotin Hnd]; subst.
  destruct (String.eqb k k') eqn:E.
  - apply String.eqb_eq in E. subst k'.
    now apply dict_get_none_keys.
  - cbn [dict_get]. rewrite E. now apply IH.
Qed.

Lemma dict_keys_del_in (k k' : string) (d : dict) :
  In k (dict_keys (dict_del k' d)) -> In k (dict_keys d).
Proof.
  induction d as [| [k2 v2] d IH]; cbn [dict_del dict_keys map fst];
    [tauto |].
  destruct (String.eqb k' k2); cbn [dict_keys map fst In].
  - tauto.
  - intros [H | H]; [now left | right; now apply IH].
Qed.

Lemma dict_del_nodup (k : string) (d : dict) :
  NoDup (dict_keys d) -> NoDup (dict_keys (dict_del k d)).
Proof.
  induction d as [| [k2 v2] d IH]; cbn [dict_del dict_keys map fst];
    intros H; [constructor |].
  inversion H as [| ? ? Hnotin Hnd]; subst.
  destruct (String.eqb k k2); [exact Hnd |].
  cbn [dict_keys map fst]. constructor; [| now apply IH].
  intros Hin. apply Hnotin. now apply (dict_keys_del_in _ k).
Qed.

(** [cdn_repo_api_data] renames [arch] to [arch_name] and [variants] to
    [variant_names], carrying their values, and leaves every other
    parameter as it is; the old names are gone from the body. *)
Theorem cdn_repo_api_data_wire_names :
  forall params : dict,
    NoDup (dict_keys params) ->
    exists body,
      cdn_repo_api_data params = VDict [("cdn_repo", VDict body)] /\
      NoDup (dict_keys body) /\
      dict_get "arch" body = None /\
      dict_get "variants" body = None /\
      (forall v, dict_get "arch" params = Some v ->
                 dict_get "arch_name" body = Some v) /\
      (forall v, dict_get "variants" params = Some v ->
                 dict_get "variant_names" body = Some v) /\
      (forall k, k <> "arch" -> k <> "variants" ->
                 k <> "arch_name" -> k <> "variant_names" ->
                 dict_get k body = dict_get k params).
Proof.
  intros params Hnd. unfold cdn_repo_api_data.
  destruct (dict_get "arch" params) as [arch |] eqn:Ea;
    destruct (dict_get "variants" params) as [variants |] eqn:Ev.
  - rewrite dict_get_set_other by discriminate.
    rewrite dict_get_del_other by discriminate. rewrite Ev.
    eexists. split; [reflexivity |].
    split; [apply dict_keys_set_nodup, dict_del_nodup,
            dict_keys_set_nodup, dict_del_nodup, Hnd |].
    repeat split.
    + rewrite dict_get_set_other by discriminate.
      rewrite dict_get_del_other by discriminate.
      rewrite dict_get_set_other by discriminate.
      now apply dict_get_del_same.
    + rewrite dict_get_set_other by discriminate.
      apply dict_get_del_same.
      apply dict_keys_set_nodup, dict_del_nodup, Hnd.
    + intros v [= <-].
      rewrite dict_get_set_other by discriminate.
      rewrite dict_get_del_other by discriminate.
      apply dict_get_set_same.
    + intros v [= <-]. apply dict_get_set_same.
    + intros k H1 H2 H3 H4.
      rewrite dict_get_set_other by assumption.
      rewrite dict_get_del_other by assumption.
      rewrite dict_get_set_other by assumption.
      now rewrite dict_get_del_other.
  - rewrite dict_get_set_other by discriminate.
    rewrite dict_get_del_other by discriminate. rewrite Ev.
    eexists. split; [reflexivity |].
    split; [apply dict_keys_set_nodup, dict_del_nodup, Hnd |].
    repeat split.
    + rewrite dict_get_set_other by discriminate.
      now apply dict_get_del_same.
    + rewrite dict_get_set_other by discriminate.
      now rewrite dict_get_del_other.
    + intros v [= <-]. apply dict_get_set_same.
    + intros v [=].
    + intros k H1 H2 H3 H4.
      rewrite dict_get_set_other by assumption.
      now rewrite dict_get_del_other.
  - eexists. split; [reflexivity |].
    split; [apply dict_keys_set_nodup, dict_del_nodup, Hnd |].
    repeat split.
    + rewrite dict_get_set_other by discriminate.
      now rewrite dict_get_del_other.
    + rewrite dict_get_set_other by discriminate.
      now apply dict_get_del_same.
    + intros v [=].
    + intros v [= <-]. apply dict_get_set_same.
    + intros k H1 H2 H3 H4.
      rewrite dict_get_set_other by assumption.
      now rewrite dict_get_del_other.
  - eexists. split; [reflexivity |]. split; [exact Hnd |].
    repeat split; auto; intros v [=].
Qed.

(** The parameters of the scenario, sent as they would be on creation. *)
Lemma cdn_repo_api_data_wire_names_witness :
  exists body,
    cdn_repo_api_data
      [("name", VStr "repo1"); ("arch", VStr "multi");
       ("variants", VList [VStr "V1"])]
    = VDict [("cdn_repo", VDict body)] /\
    dict_get "arch_name" body = Some (VStr "multi") /\
    dict_get "arch" body = None.
Proof.
  destruct (cdn_repo_api_data_wire_names
              [("name", VStr "repo1"); ("arch", VStr "multi");
               ("variants", VList [VStr "V1"])])
    as (body & Hb & _ & Harch & _ & Hname & _).
  - repeat constructor; cbn; intuition discriminate.
  - exists body. split; [exact Hb |]. split; [| exact Harch].
    apply Hname. reflexivity.
Defined.

Lemma changed_keys_nodup (differences : list difference) :
  forall acc : dict,
    NoDup (dict_keys acc) ->
    NoDup (dict_keys
             (fold_left (fun params (difference : difference) =>
                           let '(key, _, new) := difference in
                           dict_set key new params) differences acc)).
Proof.
  induction differences as [| [[key old] new] l IH]; intros acc H;
    cbn [fold_left]; [exact H |].
  apply IH. now apply dict_keys_set_nodup.
Qed.

Lemma changed_keys_last (differences : list difference) (k : string) :
  forall acc : dict,
    dict_get k (fold_left (fun params (difference : difference) =>
                             let '(key, _, new) := difference in
                             dict_set key new params) differences acc)
    = match last_difference k differences with
      | Some v => Some v
      | None => dict_get k acc
      end.
Proof.
  unfold last_difference.
  induction differences as [| [[key old] new] l IH] using rev_ind;
    intros acc; [reflexivity |].
  rewrite fold_left_app, rev_app_distr. cbn [fold_left rev app find fst snd].
  destruct (String.eqb key k) eqn:E.
  - apply String.eqb_eq in E. subst k. cbn [option_map snd].
    apply dict_get_set_same.
  - apply String.eqb_neq in E.
    rewrite dict_get_set_other by congruence. apply IH.
Qed.

(** [edit_cdn_repo] is one [PUT] on the record of the repository; its body
    is the wire form of a dict that binds each changed key, once, to the
    new value of its last difference; it returns on status 200 and raises
    [ValueError] with the answer otherwise.  An id that is not a number
    raises [TypeError] before any call. *)
Theorem edit_cdn_repo_sends_changed_keys :
  forall (C : Client) (differences : list difference) (w : world),
    (exists changed,
        NoDup (dict_keys changed) /\
        (forall key,
            dict_get key changed = last_difference key differences) /\
        forall id : Z,
          let request := edit_request id (cdn_repo_api_data changed) in
          let resp := fst (serve request (server w)) in
          edit_cdn_repo (VInt id) differences w
          = (if (status_code resp =? 200)%Z then Ok tt
             else Raise (ValueError (json resp)),
             after_request request w)) /\
    (forall id, as_index id = None ->
                edit_cdn_repo id differences w = (Raise TypeError, w)).
Proof.
  intros C differences w. split.
  - eexists. split; [| split].
    + apply (changed_keys_nodup differences []). constructor.
    + intros key. rewrite (changed_keys_last differences key []).
      now destruct (last_difference key differences).
    + intros id. cbv zeta.
      unfold edit_cdn_repo, bind, lift, client_put, call, ret, throw,
        after_request, edit_request, put_request.
      cbn [py_int as_index].
      destruct (serve _ (server w)) as [resp s]. cbn [fst snd].
      destruct (status_code resp =? 200)%Z; reflexivity.
  - intros id Hid. unfold edit_cdn_repo, bind, lift, py_int.
    now rewrite Hid.
Qed.


(** The tag helpers return exactly on the status they expect, 201 for a
    creation, 200 for an edit and 204 for a deletion, each after the one
    request it issues. *)
Theorem tag_mutations_expected_status :
  forall (C : Client) (w : world),
    (forall repo_name package_name tag_template variant,
        let request := add_tag_request repo_name package_name tag_template
                         variant in
        snd (add_package_tag repo_name package_name tag_template variant w)
        = after_request request w /\
        (fst (add_package_tag repo_name package_name tag_template variant w)
         = Ok tt
         <-> status_code (fst (serve request (server w))) = 201%Z)) /\
    (forall tag_id desired_tag,
        let request := edit_tag_request tag_id desired_tag in
        snd (edit_package_tag (VInt tag_id) (VDict desired_tag) w)
        = after_request request w /\
        (fst (edit_package_tag (VInt tag_id) (VDict desired_tag) w) = Ok tt
         <-> status_code (fst (serve request (server w))) = 200%Z)) /\
    (forall tag_id,
        let request := delete_tag_request tag_id in
        snd (delete_package_tag (VInt tag_id) w) = after_request request w /\
        (fst (delete_package_tag (VInt tag_id) w) = Ok tt
         <-> status_code (fst (serve request (server w))) = 204%Z)).
Proof.
  intros C w. split; [| split].
  - intros repo_name package_name tag_template variant. cbv zeta.
    unfold add_package_tag, add_tag_request, after_request, post_request,
      bind, lift, client_post, call, ret, throw.
    destruct (truthy variant); cbn [dict_set String.eqb Ascii.eqb Bool.eqb app];
      destruct (serve _ (server w)) as [resp s]; cbn [fst snd];
      destruct (status_code resp =? 201)%Z eqn:E; cbn [negb];
      try (destruct (py_getitem (json resp) (VStr "error")));
      cbn [fst snd];
      (split; [reflexivity |]);
      (split; [intros H; try discriminate H; now apply Z.eqb_eq
              | intros H; apply Z.eqb_eq in H; congruence]).
  - intros tag_id desired_tag. cbv zeta.
    unfold edit_package_tag, edit_tag_request, after_request, put_request,
      variant_of, bind, lift, client_put, call, ret, throw.
    cbn [py_get py_int as_index].
    destruct (truthy _);
      destruct (serve _ (server w)) as [resp s]; cbn [fst snd];
      destruct (status_code resp =? 200)%Z eqn:E; cbn [negb];
      try (destruct (py_getitem (json resp) (VStr "error")));
      cbn [fst snd];
      (split; [reflexivity |]);
      (split; [intros H; try discriminate H; now apply Z.eqb_eq
              | intros H; apply Z.eqb_eq in H; congruence]).
  - intros tag_id. cbv zeta.
    unfold delete_package_tag, delete_tag_request, after_request,
      delete_request, bind, lift, client_delete, call, ret, throw.
    cbn [py_int as_index].
    destruct (serve _ (server w)) as [resp s]; cbn [fst snd];
      destruct (status_code resp =? 204)%Z eqn:E; cbn [negb];
      try (destruct (py_getitem (json resp) (VStr "error")));
      cbn [fst snd];
      (split; [reflexivity |]);
      (split; [intros H; try discriminate H; now apply Z.eqb_eq
              | intros H; apply Z.eqb_eq in H; congruence]).
Qed.

(** *** The result of [ensure_cdn_repo] and its first steps *)

Section Result.
Context {SO : SetOrder} {C : Client} {SD : SettingsDiffer}.

Lemma settle_settings_result (check_mode : bool) (params : dict)
  (cdn_repo : pyval) (result r : run_result) (w w' : world) :
  settle_settings check_mode params cdn_repo result w = (Ok r, w') ->
  r = result \/ (changed r = true /\ diff r = diff result).
Proof.
  unfold settle_settings, bind, lift, ret.
  destruct (diff_settings cdn_repo params) as [[| d ds] | e];
    [| | discriminate].
  - intros [= <- _]. now left.
  - cbv zeta. destruct (negb check_mode).
    + destruct (py_getitem cdn_repo (VStr "id")) as [id_ | e];
        [| discriminate].
      destruct (edit_cdn_repo id_ (d :: ds) w) as [[[] | e] w1];
        [| discriminate].
      intros [= <- _]. right. split; reflexivity.
    + intros [= <- _]. right. split; reflexivity.
Qed.

Lemma settle_packages_result (check_mode : bool) (name : pyval)
  (params packages : dict) (cdn_repo : pyval) (result r : run_result)
  (w w' : world) :
  settle_packages check_mode name params packages cdn_repo result w
  = (Ok r, w') ->
  (changed r = true /\ diff r <> None) \/
  (r = result /\ changed result = false).
Proof.
  unfold settle_packages, bind.
  destruct (ensure_packages_tags name check_mode packages w)
    as [[[changes current] | e] w1]; [| discriminate].
  cbv zeta.
  destruct changes as [| c cs].
  - destruct (changed result) eqn:Ec.
    + destruct (diff result) eqn:Ed.
      * unfold ret. intros [= <- _]. left. rewrite ?Ec, ?Ed.
        split; [reflexivity | discriminate].
      * unfold lift, bind, ret.
        destruct (prepare_diff_data _ _ _ _); [| discriminate].
        intros [= <- _]. left. cbn [changed diff]. rewrite ?Ec.
        split; [reflexivity | discriminate].
    + unfold ret. destruct (diff result); intros [= <- _]; right; now split.
  - cbn [changed diff].
    destruct (diff result) eqn:Ed.
    + unfold ret. intros [= <- _]. left. cbn [changed diff]. rewrite ?Ed.
      split; [reflexivity | discriminate].
    + unfold lift, bind, ret.
      destruct (prepare_diff_data _ _ _ _); [| discriminate].
      intros [= <- _]. left. cbn [changed diff].
      split; [reflexivity | discriminate].
Qed.

End Result.

(** Whenever [ensure_cdn_repo] returns: if it reports a change, the result
    carries a diff; if it reports none, the change list is empty and there
    is no diff. *)
Theorem ensure_cdn_repo_result_consistent :
  forall (SO : SetOrder) (C : Client) (SD : SettingsDiffer)
         (check_mode : bool) (params : dict) (w w' : world)
         (r : run_result),
    ensure_cdn_repo check_mode params w = (Ok r, w') ->
    (changed r = true -> diff r <> None) /\
    (changed r = false -> stdout_lines r = [] /\ diff r = None).
Proof.
  intros SO C SD check_mode params w w' r.
  unfold ensure_cdn_repo.
  unfold bind at 1. unfold lift at 1.
  destruct (py_getitem _ (VStr "name")) as [name | e]; [| discriminate].
  unfold bind at 1. unfold lift at 1.
  destruct (dict_pop "packages" _) as [[packages params'] | e];
    [| discriminate].
  unfold bind at 1. unfold lift at 1.
  destruct (py_items packages) as [items | e]; [| discriminate].
  unfold bind at 1. unfold lift at 1.
  destruct (normalize_packages packages) as [normalized | e];
    [| discriminate].
  unfold bind at 1.
  destruct (get_cdn_repo name None w) as [[cdn_repo | e] w1];
    [| discriminate].
  destruct (negb (truthy cdn_repo)).
  - unfold bind at 1. unfold lift at 1.
    destruct (prepare_diff_data _ _ _ _) as [d | e]; [| discriminate].
    destruct check_mode.
    + unfold ret. intros [= <- _]. cbn [changed diff stdout_lines].
      split; [discriminate | discriminate].
    + unfold bind at 1.
      destruct (create_cdn_repo _ w1) as [[created | e] w2];
        [| discriminate].
      unfold converge_cdn_repo, bind.
      destruct (settle_settings false _ created _ w2)
        as [[r1 | e] w3] eqn:E1; [| discriminate].
      intros E2.
      apply settle_settings_result in E1.
      apply settle_packages_result in E2.
      destruct E2 as [[Hc Hd] | [-> Hfalse]].
      * split; [auto | congruence].
      * destruct E1 as [-> | [Hc _]]; cbn [changed] in *; congruence.
  - unfold converge_cdn_repo, bind.
    destruct (settle_settings check_mode _ cdn_repo _ w1)
      as [[r1 | e] w3] eqn:E1; [| discriminate].
    intros E2.
    apply settle_settings_result in E1.
    apply settle_packages_result in E2.
    destruct E2 as [[Hc Hd] | [-> Hfalse]].
    + split; [auto | congruence].
    + destruct E1 as [-> | [Hc _]]; [| congruence].
      cbn [changed stdout_lines diff]. split; [discriminate | auto].
Qed.

Lemma dict_get_filter_none (k : string) (d : dict) :
  NoDup (dict_keys d) ->
  dict_get k d = Some VNone ->
  dict_get k (set_params d) = None.
Proof.
  unfold set_params.
  induction d as [| [k' v'] d IH]; cbn [dict_get filter dict_keys map fst snd];
    intros Hnd; [discriminate |].
  inversion Hnd as [| ? ? Hnotin Hnd']; subst.
  destruct (String.eqb k k') eqn:E.
  - intros [= ->]. cbn [is_none negb].
    apply String.eqb_eq in E. subst k'.
    apply dict_get_none_keys. intros Hin. apply Hnotin.
    unfold dict_keys in *. apply in_map_iff in Hin.
    destruct Hin as (p & Hp & Hin). apply filter_In in Hin.
    apply in_map_iff. exists p. tauto.
  - intros H. destruct (negb (is_none v')); cbn [dict_get];
      [rewrite E |]; now apply IH.
Qed.

(** Parameters that are [None] count as missing: without a name, or with
    [packages] missing or [None], [ensure_cdn_repo] raises [KeyError] and
    issues no call. *)
Theorem ensure_cdn_repo_missing_parameter :
  forall (SO : SetOrder) (C : Client) (SD : SettingsDiffer)
         (check_mode : bool) (params : dict) (w : world),
    (dict_get "name" (set_params params) = None ->
     ensure_cdn_repo check_mode params w
     = (Raise (KeyError (VStr "name")), w)) /\
    (forall name,
        dict_get "name" (set_params params) = Some name ->
        dict_get "packages" (set_params params) = None ->
        ensure_cdn_repo check_mode params w
        = (Raise (KeyError (VStr "packages")), w)) /\
    (forall key,
        NoDup (dict_keys params) ->
        dict_get key params = Some VNone ->
        dict_get key (set_params params) = None).
Proof.
  intros SO C SD check_mode params w. split; [| split].
  - intros Hname. unfold ensure_cdn_repo. fold (set_params params).
    unfold bind at 1. unfold lift at 1. cbn [py_getitem].
    now rewrite Hname.
  - intros name Hname Hpk. unfold ensure_cdn_repo. fold (set_params params).
    unfold bind at 1. unfold lift at 1. cbn [py_getitem].
    rewrite Hname.
    unfold bind at 1. unfold lift at 1. unfold dict_pop.
    now rewrite Hpk.
  - intros key. apply dict_get_filter_none.
Qed.

(** When the lookup of the repository is answered with a 4xx or 5xx status,
    [ensure_cdn_repo] raises [HTTPError] after that one read: nothing is
    created or changed. *)
Theorem ensure_cdn_repo_lookup_error :
  forall (SO : SetOrder) (C : Client) (SD : SettingsDiffer)
         (check_mode : bool) (params : dict) (w : world)
         (name packages : pyval) (normalized : dict),
    dict_get "name" (set_params params) = Some name ->
    dict_get "packages" (set_params params) = Some packages ->
    normalize_packages packages = Ok normalized ->
    let resp := fst (serve (repo_lookup_request name) (server w)) in
    (400 <= status_code resp < 600)%Z ->
    ensure_cdn_repo check_mode params w
    = (Raise (HTTPError (status_code resp)),
       after_request (repo_lookup_request name) w).
Proof.
  intros SO C SD check_mode params w name packages normalized
    Hname Hpk Hnorm resp Hstatus.
  unfold ensure_cdn_repo. fold (set_params params).
  unfold bind at 1. unfold lift at 1. cbn [py_getitem]. rewrite Hname.
  unfold bind at 1. unfold lift at 1. unfold dict_pop. rewrite Hpk.
  destruct packages as [| b | z | s | l | d]; try discriminate Hnorm.
  unfold bind at 1. unfold lift at 1. cbn [py_items].
  unfold bind at 1. unfold lift at 1. rewrite Hnorm.
  unfold bind at 1.
  unfold get_cdn_repo. unfold bind at 1. unfold client_get, call.
  subst resp. unfold after_request, repo_lookup_request, get_request in *.
  destruct (serve _ (server w)) as [resp s]. cbn [fst snd] in *.
  unfold bind at 1. unfold lift at 1. unfold raise_for_status.
  replace (400 <=? status_code resp)%Z with true
    by (symmetry; apply Z.leb_le; lia).
  replace (status_code resp <? 600)%Z with true
    by (symmetry; apply Z.ltb_lt; lia).
  reflexivity.
Qed.

(** *** The requests of a run *)

Section Requests.
Context {SO : SetOrder} {C : Client} {SD : SettingsDiffer}.

Lemma issues_ret {A : Type} (P : request -> Prop) (a : A) : issues P (ret a).
Proof.
  intros w. exists []. unfold ret. cbn [snd]. rewrite app_nil_r.
  split; [reflexivity | constructor].
Qed.

Lemma issues_lift {A : Type} (P : request -> Prop) (o : outcome A) :
  issues P (lift o).
Proof.
  intros w. exists []. unfold lift. cbn [snd]. rewrite app_nil_r.
  split; [reflexivity | constructor].
Qed.

Lemma issues_throw {A : Type} (P : request -> Prop) (e : exn) :
  issues P (@throw C A e).
Proof.
  intros w. exists []. unfold throw. cbn [snd]. rewrite app_nil_r.
  split; [reflexivity | constructor].
Qed.

Lemma issues_bind {A B : Type} (P : request -> Prop) (m : M A)
  (k : A -> M B) :
  issues P m -> (forall a, issues P (k a)) -> issues P (bind m k).
Proof.
  intros Hm Hk w. unfold bind.
  destruct (Hm w) as (l1 & Hc1 & HP1).
  destruct (m w) as [[a | e] w1]; cbn [snd] in *.
  - destruct (Hk a w1) as (l2 & Hc2 & HP2).
    exists (l1 ++ l2). rewrite Hc2, Hc1, app_assoc.
    split; [reflexivity | now apply Forall_app].
  - exists l1. now split.
Qed.

Lemma issues_call (P : request -> Prop) (r : request) :
  P r -> issues P (call r).
Proof.
  intros HP w. exists [r]. unfold call.
  destruct (serve r (server w)) as [resp s]. cbn [snd calls].
  split; [reflexivity | apply Forall_cons; [exact HP | constructor]].
Qed.

Lemma issues_for_each {A S : Type} (P : request -> Prop)
  (body : A -> S -> M S) (l : list A) :
  (forall x acc, issues P (body x acc)) ->
  forall acc, issues P (for_each l body acc).
Proof.
  intros Hbody. induction l as [| x l IH]; intros acc; cbn [for_each].
  - apply issues_ret.
  - apply issues_bind; [apply Hbody | intros a; apply IH].
Qed.

Lemma issues_weaken {A : Type} (P Q : request -> Prop) (m : M A) :
  (forall r, P r -> Q r) -> issues P m -> issues Q m.
Proof.
  intros HPQ Hm w. destruct (Hm w) as (l & Hc & HP).
  exists l. split; [exact Hc |].
  eapply Forall_impl; [exact HPQ | exact HP].
Qed.

Ltac issues_steps :=
  repeat first
    [ apply issues_ret
    | apply issues_lift
    | apply issues_throw
    | apply issues_bind; [| intros ?]
    | match goal with
      | |- issues _ (if ?b then _ else _) => destruct b
      | |- issues _ (let '(_, _) := ?p in _) => destruct p
      | |- issues _ (match ?p with (_, _) => _ end) => destruct p
      end ].

Lemma get_cdn_repo_known (name : pyval) (data : option pyval) :
  issues known_request (get_cdn_repo name data).
Proof.
  unfold get_cdn_repo. destruct data as [d | ].
  - issues_steps.
  - unfold client_get. cbv zeta.
    apply issues_bind;
      [apply issues_call; unfold known_request; cbn [req_verb req_path];
       now left | intros response].
    issues_steps.
Qed.

Lemma get_package_tags_known (name : pyval) :
  issues known_request (get_package_tags name).
Proof.
  intros w. rewrite get_package_tags_run.
  destruct (serve _ (server w)) as [resp s].
  exists [tags_page_request name 1]. split; [reflexivity |].
  apply Forall_cons; [| constructor].
  unfold known_request, tags_page_request, get_request.
  cbn [req_verb req_path]. now right.
Qed.

Lemma create_cdn_repo_known (params : dict) :
  issues known_request (create_cdn_repo params).
Proof.
  unfold create_cdn_repo, client_post. cbv zeta.
  apply issues_bind; [apply issues_call; unfold known_request; cbn [req_verb req_path]; now left | intros response].
  apply issues_bind; [issues_steps | intros _].
  apply issues_bind; [apply issues_lift | intros name].
  apply issues_bind; [apply issues_lift | intros d].
  apply get_cdn_repo_known.
Qed.

Lemma edit_cdn_repo_known (cdn_repo_id : pyval)
  (differences : list difference) :
  issues known_request (edit_cdn_repo cdn_repo_id differences).
Proof.
  unfold edit_cdn_repo, client_put. cbv zeta.
  apply issues_bind; [apply issues_lift | intros id].
  apply issues_bind; [| intros response; issues_steps].
  apply issues_call. unfold known_request. cbn [req_verb req_path]. left. now exists id.
Qed.

Lemma add_package_tag_known (repo_name : pyval) (package_name : string)
  (tag_template variant : pyval) :
  issues known_request
    (add_package_tag repo_name package_name tag_template variant).
Proof.
  unfold add_package_tag, client_post. cbv zeta.
  apply issues_bind; [| intros response; issues_steps].
  apply issues_call. unfold known_request. cbn [req_verb req_path]. now right.
Qed.

Lemma edit_package_tag_known (tag_id desired_tag : pyval) :
  issues known_request (edit_package_tag tag_id desired_tag).
Proof.
  unfold edit_package_tag, client_put. cbv zeta.
  apply issues_bind; [apply issues_lift | intros variant].
  apply issues_bind; [apply issues_lift | intros id].
  apply issues_bind; [| intros response; issues_steps].
  apply issues_call. unfold known_request. cbn [req_verb req_path]. right. now exists id.
Qed.

Lemma delete_package_tag_known (tag_id : pyval) :
  issues known_request (delete_package_tag tag_id).
Proof.
  unfold delete_package_tag, client_delete. cbv zeta.
  apply issues_bind; [apply issues_lift | intros id].
  apply issues_bind; [| intros response; issues_steps].
  apply issues_call. unfold known_request. cbn [req_verb req_path]. now exists id.
Qed.

Lemma ensure_package_tags_known (repo_name : pyval) (package_name : string)
  (check_mode : bool) (current_tags desired_tags : pyval) :
  issues known_request
    (ensure_package_tags repo_name package_name check_mode
       current_tags desired_tags).
Proof.
  unfold ensure_package_tags. cbv zeta.
  apply issues_bind; [apply issues_lift | intros cs1].
  apply issues_bind; [apply issues_lift | intros ds1].
  apply issues_bind.
  { apply issues_for_each. intros t acc.
    destruct check_mode; [apply issues_ret |].
    apply issues_bind; [apply issues_lift | intros current_tag].
    apply issues_bind; [apply issues_lift | intros id_].
    apply issues_bind; [apply delete_package_tag_known | intros _].
    apply issues_ret. }
  intros changes1.
  apply issues_bind; [apply issues_lift | intros cs2].
  apply issues_bind; [apply issues_lift | intros ds2].
  apply issues_bind.
  { apply issues_for_each. intros t acc.
    apply issues_bind; [apply issues_lift | intros c1].
    apply issues_bind; [apply issues_lift | intros c2].
    apply issues_bind; [apply issues_lift | intros d1].
    apply issues_bind; [apply issues_lift | intros d2].
    apply issues_bind; [apply issues_lift | intros [tag_id c3]].
    apply issues_bind; [apply issues_lift | intros differences].
    destruct (nonempty differences); [| apply issues_ret].
    destruct check_mode; [apply issues_ret |].
    apply issues_bind; [apply edit_package_tag_known | intros _].
    apply issues_ret. }
  intros changes2.
  apply issues_bind; [apply issues_lift | intros ds3].
  apply issues_bind; [apply issues_lift | intros cs3].
  apply issues_bind; [| intros changes3; apply issues_ret].
  apply issues_for_each. intros t acc.
  destruct check_mode; [apply issues_ret |].
  apply issues_bind; [apply issues_lift | intros tag].
  apply issues_bind; [apply issues_lift | intros variant].
  apply issues_bind; [apply add_package_tag_known | intros _].
  apply issues_ret.
Qed.

Lemma ensure_packages_tags_known (name : pyval) (check_mode : bool)
  (packages : dict) :
  issues known_request (ensure_packages_tags name check_mode packages).
Proof.
  unfold ensure_packages_tags. cbv zeta.
  apply issues_bind; [apply get_package_tags_known | intros current].
  apply issues_bind; [| intros changes; apply issues_ret].
  apply issues_for_each. intros package_name acc.
  apply issues_bind; [apply issues_lift | intros desired_tags].
  apply issues_bind; [apply ensure_package_tags_known | intros pc].
  apply issues_ret.
Qed.

Lemma converge_cdn_repo_known (check_mode : bool) (name : pyval)
  (params packages : dict) (cdn_repo : pyval) (result : run_result) :
  issues known_request
    (converge_cdn_repo check_mode name params packages cdn_repo result).
Proof.
  unfold converge_cdn_repo, settle_settings, settle_packages.
  apply issues_bind.
  { apply issues_bind; [apply issues_lift | intros differences].
    destruct differences as [| d ds]; [apply issues_ret |].
    cbv zeta. destruct (negb check_mode); [| apply issues_ret].
    apply issues_bind; [apply issues_lift | intros id_].
    apply issues_bind; [apply edit_cdn_repo_known | intros _].
    apply issues_ret. }
  intros result'.
  apply issues_bind; [apply ensure_packages_tags_known |].
  intros [package_tag_changes current_packages].
  cbv zeta.
  match goal with
  | |- issues _ (match ?b with true => _ | false => _ end) => destruct b
  end; [| apply issues_ret].
  match goal with
  | |- issues _ (match ?d with Some _ => _ | None => _ end) => destruct d
  end; [apply issues_ret |].
  apply issues_bind; [apply issues_lift |].
  intros d. apply issues_ret.
Qed.

End Requests.

(** Whatever the parameters, the mode, the answers of the remote and the
    outcome, [ensure_cdn_repo] issues only requests of the module's six
    kinds: reads and creations on the two listings, edits of one repository
    or one tag association, deletions of one tag association.  In
    particular it never deletes a repository. *)
Theorem ensure_cdn_repo_known_requests :
  forall (SO : SetOrder) (C : Client) (SD : SettingsDiffer)
         (check_mode : bool) (params : dict),
    issues known_request (ensure_cdn_repo check_mode params).
Proof.
  intros SO C SD check_mode params.
  unfold ensure_cdn_repo. cbv zeta.
  apply issues_bind; [apply issues_lift | intros name].
  apply issues_bind; [apply issues_lift | intros [packages params']].
  apply issues_bind; [apply issues_lift | intros items].
  apply issues_bind; [apply issues_lift | intros normalized].
  apply issues_bind; [apply get_cdn_repo_known | intros cdn_repo].
  destruct (negb (truthy cdn_repo)).
  - apply issues_bind; [apply issues_lift | intros d].
    destruct check_mode; [apply issues_ret |].
    apply issues_bind; [apply create_cdn_repo_known | intros created].
    apply converge_cdn_repo_known.
  - apply converge_cdn_repo_known.
Qed.

Section ResultOnReference.
#[local] Existing Instance Reference.insertion_order.
#[local] Existing Instance Reference.reference_client.
#[local] Existing Instance Reference.spec_differ.

(** Against the in-memory remote holding [repo1]: the run reports a change
    and carries a diff. *)
Lemma ensure_cdn_repo_result_consistent_witness :
  exists r,
    fst (ensure_cdn_repo false scenario_params (fresh store_with_repo))
    = Ok r /\
    changed r = true /\ diff r <> None.
Proof.
  assert (Hrep :
    report (ensure_cdn_repo false scenario_params (fresh store_with_repo))
    = Ok (true, ["changing arch from x86_64 to multi";
                 removing_tag "foo" (VStr "beta");
                 adding_tag "foo" (VStr "latest")]))
    by (vm_compute; reflexivity).
  unfold report in Hrep.
  destruct (ensure_cdn_repo false scenario_params
              (@fresh Reference.reference_client store_with_repo))
    as [[r | e] w'] eqn:E; cbn [fst] in *; [| discriminate Hrep].
  injection Hrep as Hc _.
  exists r. split; [reflexivity |]. split; [exact Hc |].
  exact (proj1 (ensure_cdn_repo_result_consistent
                  Reference.insertion_order Reference.reference_client
                  Reference.spec_differ false scenario_params
                  (@fresh Reference.reference_client store_with_repo)
                  w' r E) Hc).
Defined.

End ResultOnReference.

(** Against a remote that is down, the run ends with [HTTPError 503] after
    the lookup. *)
Lemma ensure_cdn_repo_lookup_error_witness :
  let run :=
    @ensure_cdn_repo Reference.insertion_order unavailable
      Reference.spec_differ false scenario_params (@fresh unavailable tt) in
  fst run = Raise (HTTPError 503) /\
  calls (snd run) = [repo_lookup_request (VStr "repo1")].
Proof.
  cbv zeta.
  rewrite (ensure_cdn_repo_lookup_error
             Reference.insertion_order unavailable Reference.spec_differ
             false scenario_params (@fresh unavailable tt)
             (VStr "repo1") (VDict [("foo", VList [VStr "latest"])])
             [("foo", VDict [("latest", VDict [])])]
             eq_refl eq_refl eq_refl).
  - split; reflexivity.
  - cbn. lia.
Defined.

(** *** run_module *)

Lemma py_getitem_dict (k : string) (v : pyval) (d : dict) :
  dict_get k d = Some v -> py_getitem (VDict d) (VStr k) = Ok v.
Proof. intros H. cbn [py_getitem]. now rewrite H. Qed.

(** The guard of [run_module] for Docker repositories: an architecture
    other than [multi], or a truthy [use_for_tps], ends the module with
    [fail_json] before any call. *)
Theorem run_module_docker_guard :
  forall (SO : SetOrder) (C : Client) (SD : SettingsDiffer)
         (check_mode : bool) (params : dict) (w : world) (arch : pyval),
    dict_get "content_type" params = Some (VStr "Docker") ->
    dict_get "arch" params = Some arch ->
    (is_none arch = false ->
     py_eqb arch (VStr "multi") = false ->
     run_module check_mode params w
     = (Ok (FailJson ("arch must be " @@ dq @@ "multi" @@ dq
                      @@ " for Docker repos")), w)) /\
    (forall use_for_tps,
        is_none arch = true \/ py_eqb arch (VStr "multi") = true ->
        dict_get "use_for_tps" params = Some use_for_tps ->
        truthy use_for_tps = true ->
        run_module check_mode params w
        = (Ok (FailJson ("do not set " @@ dq @@ "use_for_tps" @@ dq
                         @@ " for Docker repos")), w)).
Proof.
  intros SO C SD check_mode params w arch Hct Harch. split.
  - intros Hnone Hne. unfold run_module.
    unfold bind at 1. unfold lift at 1.
    rewrite (py_getitem_dict _ _ _ Harch). rewrite Hnone.
    unfold bind at 1. unfold ret at 1.
    unfold bind at 1. unfold lift at 1.
    rewrite (py_getitem_dict _ _ _ Hct).
    cbv zeta. replace (py_eqb (VStr "Docker") (VStr "Docker")) with true
      by reflexivity.
    unfold bind at 1. unfold lift at 1.
    rewrite (py_getitem_dict _ _ _ Harch). rewrite Hne. reflexivity.
  - intros use_for_tps Hmulti Htps Htruthy. unfold run_module.
    unfold bind at 1. unfold lift at 1.
    rewrite (py_getitem_dict _ _ _ Harch).
    destruct (is_none arch) eqn:Hnone.
    + unfold bind at 1. unfold bind at 1. unfold lift at 1.
      rewrite (py_getitem_dict _ _ _ Hct).
      replace (py_eqb (VStr "Docker") (VStr "Docker")) with true
        by reflexivity.
      unfold ret at 1.
      unfold bind at 1. unfold lift at 1.
      rewrite (py_getitem_dict "content_type" (VStr "Docker"))
        by (rewrite dict_get_set_other by discriminate; exact Hct).
      cbv zeta. replace (py_eqb (VStr "Docker") (VStr "Docker")) with true
        by reflexivity.
      unfold bind at 1. unfold lift at 1.
      rewrite (py_getitem_dict "arch" (VStr "multi"))
        by apply dict_get_set_same.
      replace (py_eqb (VStr "multi") (VStr "multi")) with true
        by reflexivity.
      cbn [negb].
      unfold bind at 1. unfold lift at 1.
      rewrite (py_getitem_dict "use_for_tps" use_for_tps)
        by (rewrite dict_get_set_other by discriminate; exact Htps).
      rewrite Htruthy. reflexivity.
    + destruct Hmulti as [Hn | Hmulti]; [discriminate |].
      unfold bind at 1. unfold ret at 1.
      unfold bind at 1. unfold lift at 1.
      rewrite (py_getitem_dict _ _ _ Hct).
      cbv zeta. replace (py_eqb (VStr "Docker") (VStr "Docker")) with true
        by reflexivity.
      unfold bind at 1. unfold lift at 1.
      rewrite (py_getitem_dict _ _ _ Harch). rewrite Hmulti. cbn [negb].
      unfold bind at 1. unfold lift at 1.
      rewrite (py_getitem_dict _ _ _ Htps).
      rewrite Htruthy. reflexivity.
Qed.

Section GuardOnReference.
#[local] Existing Instance Reference.insertion_order.
#[local] Existing Instance Reference.reference_client.
#[local] Existing Instance Reference.spec_differ.

(** A Docker repository declared for [x86_64] is refused. *)
Lemma run_module_docker_guard_witness :
  run_module false
    (dict_set "arch" (VStr "x86_64") scenario_params)
    (fresh store_with_repo)
  = (Ok (FailJson ("arch must be " @@ dq @@ "multi" @@ dq
                   @@ " for Docker repos")),
     fresh store_with_repo).
Proof.
  apply (proj1 (run_module_docker_guard
                  Reference.insertion_order Reference.reference_client
                  Reference.spec_differ false
                  (dict_set "arch" (VStr "x86_64") scenario_params)
                  (@fresh Reference.reference_client store_with_repo)
                  (VStr "x86_64") eq_refl eq_refl));
    reflexivity.
Defined.

End GuardOnReference.

(** *** The package listing of the diff *)

Lemma insert_by_key_perm (kv : string * pyval) (l : dict) :
  Permutation (insert_by_key kv l) (kv :: l).
Proof.
  induction l as [| kv' l IH]; cbn [insert_by_key]; [apply Permutation_refl |].
  destruct (String.leb (fst kv) (fst kv')); [apply Permutation_refl |].
  eapply Permutation_trans; [apply perm_skip, IH | apply perm_swap].
Qed.

Lemma sorted_by_key_perm (l : dict) : Permutation (sorted_by_key l) l.
Proof.
  unfold sorted_by_key.
  induction l as [| kv l IH]; cbn [fold_right]; [apply Permutation_refl |].
  eapply Permutation_trans; [apply insert_by_key_perm |].
  now apply perm_skip.
Qed.

Lemma tag_name_or_variant_dict_listed (tag_name : string) (settings : dict) :
  tag_name_or_variant_dict tag_name (VDict settings)
  = Ok (declared_tag (listed_tag (tag_name, VDict settings))).
Proof.
  unfold tag_name_or_variant_dict, listed_tag, obind, py_in, dict_mem.
  cbn [fst snd py_getitem].
  destruct (dict_get "variant" settings); reflexivity.
Qed.

Lemma canonical_tags_fresh (tags : list tag_declaration) :
  forall inner,
    NoDup (dict_keys inner ++ map template_of tags) ->
    fold_left (fun acc d => dict_set (template_of d) (restriction_of d) acc)
              tags inner
    = inner ++ map (fun d => (template_of d, restriction_of d)) tags.
Proof.
  induction tags as [| d tags IH]; intros inner H; cbn [fold_left map].
  - now rewrite app_nil_r.
  - assert (Hfresh : dict_get (template_of d) inner = None).
    { apply dict_get_none_keys. intros Hin.
      apply NoDup_remove_2 in H. apply H. apply in_or_app. now left. }
    rewrite (dict_set_fresh _ _ _ Hfresh).
    rewrite IH.
    + now rewrite <- app_assoc.
    + unfold dict_keys. rewrite map_app. cbn [map fst].
      rewrite <- app_assoc. exact H.
Qed.

Lemma package_list_fold (packages : list (string * list (string * dict))) :
  forall acc,
    NoDup (dict_keys acc ++ map fst packages) ->
    ofold (map (fun p => (fst p, tag_settings (snd p))) packages)
      (fun (item : string * pyval) (acc : dict) =>
         let package_name := fst item in
         obind (py_items (snd item))
           (fun package_tags =>
              obind (omap (fun kv => tag_name_or_variant_dict (fst kv) (snd kv))
                          (sorted_by_key package_tags))
                    (fun tags => Ok (dict_set package_name (VList tags) acc))))
      acc
    = Ok (acc ++
          map (fun p =>
                 (fst p,
                  VList (map declared_tag
                           (map listed_tag
                              (sorted_by_key
                                 (map (fun t => (fst t, VDict (snd t)))
                                      (snd p)))))))
              packages).
Proof.
  induction packages as [| [package_name tags] rest IH]; intros acc H;
    cbn [map ofold fst snd].
  - now rewrite app_nil_r.
  - cbv zeta. unfold tag_settings at 1. cbn [py_items obind].
    rewrite (omap_ext_in _ (fun kv => Ok (declared_tag (listed_tag kv)))).
    2:{ intros [k v] Hin.
        apply (Permutation_in _ (sorted_by_key_perm _)) in Hin.
        apply in_map_iff in Hin. destruct Hin as ([k' s] & [= <- <-] & _).
        apply tag_name_or_variant_dict_listed. }
    rewrite omap_total. cbn [obind]. rewrite <- map_map.
    assert (Hfresh : dict_get package_name acc = None).
    { apply dict_get_none_keys. intros Hin.
      apply NoDup_remove_2 in H. apply H. apply in_or_app. now left. }
    rewrite (dict_set_fresh _ _ _ Hfresh).
    rewrite IH.
    + now rewrite <- app_assoc.
    + unfold dict_keys. rewrite map_app. cbn [map fst].
      rewrite <- app_assoc. exact H.
Qed.

(** The package listing of the diff is in the format of the [packages]
    parameter: on a table with distinct package names and distinct tag
    templates per package, [package_list_for_diff] returns a listing that
    [normalize_packages] turns back into the table, with the tags of each
    package sorted by template and nothing but the variant kept of their
    settings. *)
Theorem package_list_for_diff_round_trip :
  forall packages : list (string * list (string * dict)),
    NoDup (map fst packages) ->
    (forall p, In p packages -> NoDup (map fst (snd p))) ->
    exists listed,
      package_list_for_diff (package_table packages) = Ok listed /\
      normalize_packages listed
      = Ok (map (fun p =>
                   (fst p,
                    VDict (map variant_only
                             (sorted_by_key
                                (map (fun t => (fst t, VDict (snd t)))
                                     (snd p))))))
                packages).
Proof.
  intros packages Hnd Htags.
  set (declared :=
         map (fun p =>
                (fst p,
                 map listed_tag
                   (sorted_by_key
                      (map (fun t => (fst t, VDict (snd t))) (snd p)))))
             packages).
  exists (declared_packages declared). split.
  - unfold package_list_for_diff, package_table. cbn [py_items obind].
    rewrite package_list_fold by exact Hnd. cbn [obind app].
    unfold declared_packages, declared. rewrite map_map. reflexivity.
  - replace (declared_packages declared)
      with (raw_packages
              (map (fun p => (fst p, map declared_tag (snd p))) declared))
      by (unfold raw_packages, declared_packages; now rewrite map_map).
    rewrite normalize_packages_collect.
    rewrite collect_packages_fresh
      by (unfold declared; cbn [dict_keys map app]; rewrite map_map;
          exact Hnd).
    cbn [app]. unfold declared. rewrite map_map. f_equal.
    apply map_ext_in. intros [package_name tags] Hin. cbn [fst snd].
    f_equal. f_equal.
    unfold canonical_tags. rewrite canonical_tags_fresh.
    + cbn [app]. rewrite map_map. apply map_ext_in.
      intros [k v] Hk.
      apply (Permutation_in _ (sorted_by_key_perm _)) in Hk.
      apply in_map_iff in Hk. destruct Hk as ([k' s] & [= <- <-] & _).
      unfold listed_tag, variant_only. cbn [fst snd].
      destruct (dict_get "variant" s); reflexivity.
    + cbn [dict_keys map app]. rewrite map_map.
      assert (Hfst : forall l : dict,
                 (forall kv, In kv l -> exists s, snd kv = VDict s) ->
                 map (fun t => template_of (listed_tag t)) l = map fst l).
      { intros l Hl. apply map_ext_in. intros [k v] Hk.
        destruct (Hl _ Hk) as [s Hs]. cbn [snd] in Hs. subst v.
        unfold listed_tag. cbn [fst snd].
        destruct (dict_get "variant" s); reflexivity. }
      rewrite Hfst.
      * eapply Permutation_NoDup.
        { apply Permutation_map. apply Permutation_sym.
          apply sorted_by_key_perm. }
        rewrite map_map. cbn [fst]. apply (Htags _ Hin).
      * intros kv Hk.
        apply (Permutation_in _ (sorted_by_key_perm _)) in Hk.
        apply in_map_iff in Hk. destruct Hk as ([k' s] & <- & _).
        now exists s.
Qed.

(** A table with two packages; the tags of [foo] come back sorted, the id
    of [latest] is gone and the variant of [beta] is kept. *)
Lemma package_list_for_diff_round_trip_witness :
  exists listed,
    package_list_for_diff
      (package_table
         [("foo", [("latest", [("id", VInt 4)]);
                   ("beta", [("variant", VStr "V1"); ("id", VInt 2)])]);
          ("bar", [])])
    = Ok listed /\
    normalize_packages listed
    = Ok [("foo", VDict [("beta", VDict [("variant", VStr "V1")]);
                         ("latest", VDict [])]);
          ("bar", VDict [])].
Proof.
  apply (package_list_for_diff_round_trip
           [("foo", [("latest", [("id", VInt 4)]);
                     ("beta", [("variant", VStr "V1"); ("id", VInt 2)])]);
            ("bar", [])]).
  - repeat constructor; cbn; intuition discriminate.
  - intros p [<- | [<- | []]]; repeat constructor; cbn; intuition discriminate.
Defined.

(** *** The reassembly of the tag listing *)

Lemma classify_association (a : association) (packages : dict) :
  table_shaped packages ->
  classify_element (association_json a) packages
  = Ok (table_set packages (assoc_package a) (assoc_template a)
          (association_settings a)).
Proof.
  intros Hshape.
  unfold classify_element, association_json, association_settings, table_set.
  destruct a as [id_ repo package_name tag_template variant].
  cbn [assoc_id assoc_repo assoc_package assoc_template assoc_variant].
  unfold obind, as_key, py_in, py_getitem, dict_mem.
  destruct variant as [v |];
    cbn [app dict_get String.eqb Ascii.eqb Bool.eqb negb];
    unfold setitem2;
    destruct (dict_get package_name packages) as [old |] eqn:E;
    cbn [negb];
    try (destruct (Hshape _ _ E) as [inner ->]);
    rewrite ?E, ?dict_get_set_same;
    try reflexivity;
    rewrite dict_set_set; reflexivity.
Qed.

Lemma table_set_shaped (packages : dict) (p t : string) (v : pyval) :
  table_shaped packages -> table_shaped (table_set packages p t v).
Proof.
  intros H p' v'. unfold table_set. cbv zeta.
  destruct (String.eqb p' p) eqn:E.
  - apply String.eqb_eq in E. subst p'. rewrite dict_get_set_same.
    intros [= <-]. eexists; reflexivity.
  - rewrite dict_get_set_other
      by (intros ->; rewrite String.eqb_refl in E; discriminate).
    apply H.
Qed.

Lemma table_lookup_set (packages : dict) (p t p' t' : string) (v : pyval) :
  table_shaped packages ->
  table_lookup (table_set packages p t v) p' t'
  = if String.eqb p p' && String.eqb t t' then Some v
    else table_lookup packages p' t'.
Proof.
  intros H. unfold table_lookup, table_set. cbv zeta.
  destruct (String.eqb p p') eqn:Ep; cbn [andb].
  - apply String.eqb_eq in Ep. subst p'. rewrite dict_get_set_same.
    destruct (String.eqb t t') eqn:Et.
    + apply String.eqb_eq in Et. subst t'. apply dict_get_set_same.
    + rewrite dict_get_set_other
        by (intros ->; rewrite String.eqb_refl in Et; discriminate).
      destruct (dict_get p packages) as [old |] eqn:E; [| reflexivity].
      destruct (H _ _ E) as [inner ->]. reflexivity.
  - rewrite dict_get_set_other
      by (intros ->; rewrite String.eqb_refl in Ep; discriminate).
    reflexivity.
Qed.

Lemma dict_set_keys_in (k k' : string) (x : pyval) (d : dict) :
  In k' (dict_keys (dict_set k x d)) <-> In k' (dict_keys d) \/ k' = k.
Proof.
  unfold dict_keys.
  induction d as [| [k0 v0] d IH]; cbn [dict_set map fst In].
  - intuition.
  - destruct (String.eqb k k0) eqn:E; cbn [map fst In].
    + apply String.eqb_eq in E. subst k0. intuition.
    + rewrite IH. intuition.
Qed.

Lemma table_set_keys (packages : dict) (p t p' : string) (v : pyval) :
  In p' (dict_keys (table_set packages p t v))
  <-> In p' (dict_keys packages) \/ p' = p.
Proof. unfold table_set. cbv zeta. apply dict_set_keys_in. Qed.

Lemma classify_associations (elements : list association) :
  forall packages,
    table_shaped packages ->
    exists result,
      ofold (map association_json elements) classify_element packages
      = Ok result /\
      table_shaped result /\
      (forall p, In p (dict_keys result)
                 <-> In p (dict_keys packages) \/
                     exists a, In a elements /\ assoc_package a = p) /\
      forall p t,
        table_lookup result p t
        = match find (association_of p t) (rev elements) with
          | Some a => Some (association_settings a)
          | None => table_lookup packages p t
          end.
Proof.
  induction elements as [| a rest IH]; intros packages Hshape;
    cbn [map ofold].
  - exists packages. split; [reflexivity |]. split; [exact Hshape |].
    split; [| reflexivity].
    intros p. split; [now left |]. intros [H | (a & [] & _)]. exact H.
  - rewrite (classify_association a packages Hshape). cbn [obind].
    destruct (IH _ (table_set_shaped packages (assoc_package a)
                      (assoc_template a) (association_settings a) Hshape))
      as (result & Hrun & Hres & Hkeys & Hlook).
    exists result. split; [exact Hrun |]. split; [exact Hres |]. split.
    + intros p. rewrite Hkeys, table_set_keys. split.
      * intros [[H | ->] | (b & Hb & Hp)].
        -- now left.
        -- right. exists a. split; [now left | reflexivity].
        -- right. exists b. split; [now right | exact Hp].
      * intros [H | (b & [<- | Hb] & Hp)].
        -- left. now left.
        -- left. right. now symmetry.
        -- right. exists b. now split.
    + intros p t. rewrite Hlook. cbn [rev]. rewrite find_app.
      destruct (find (association_of p t) (rev rest)); [reflexivity |].
      rewrite (table_lookup_set _ _ _ _ _ _ Hshape).
      cbn [find]. unfold association_of.
      destruct (String.eqb (assoc_package a) p
                && String.eqb (assoc_template a) t); reflexivity.
Qed.

(** When the remote answers the listing with well-formed associations,
    [get_package_tags] returns, after that one read, the table of their
    settings: a package is in the table exactly when an association names
    it, and the entry of a package and a template holds the id, and the
    variant if there is one, of the last association listed for them. *)
Theorem get_package_tags_reassembly :
  forall (C : Client) (name : pyval) (w : world)
         (elements : list association),
    let resp := fst (serve (tags_page_request name 1) (server w)) in
    raise_for_status resp = Ok tt ->
    py_getitem (json resp) (VStr "data")
    = Ok (VList (map association_json elements)) ->
    exists packages,
      get_package_tags name w
      = (Ok packages, after_request (tags_page_request name 1) w) /\
      (forall p, In p (dict_keys packages)
                 <-> exists a, In a elements /\ assoc_package a = p) /\
      forall p t,
        table_lookup packages p t
        = option_map association_settings
            (find (association_of p t) (rev elements)).
Proof.
  intros C name w elements resp Hstatus Hdata.
  destruct (classify_associations elements [])
    as (result & Hrun & _ & Hkeys & Hlook).
  { intros p v [=]. }
  exists result. split; [| split].
  - rewrite get_package_tags_run. unfold after_request. subst resp.
    destruct (serve (tags_page_request name 1) (server w)) as [resp s].
    cbn [fst snd] in *. unfold tags_of_response.
    rewrite Hstatus. cbn [obind]. rewrite Hdata. cbn [obind py_iter].
    now rewrite Hrun.
  - intros p. rewrite Hkeys. cbn [dict_keys map In]. tauto.
  - intros p t. rewrite Hlook.
    destruct (find (association_of p t) (rev elements)); reflexivity.
Qed.

Section ReassemblyOnReference.
#[local] Existing Instance Reference.reference_client.

(** Against the in-memory remote holding [repo1]: package [foo] with its
    tag [beta], restricted to [V1]. *)
Lemma get_package_tags_reassembly_witness :
  exists packages,
    fst (get_package_tags (VStr "repo1") (fresh store_with_repo))
    = Ok packages /\
    table_lookup packages "foo" "beta"
    = Some (VDict [("variant", VStr "V1"); ("id", VInt 2)]).
Proof.
  destruct (get_package_tags_reassembly
              Reference.reference_client (VStr "repo1")
              (@fresh Reference.reference_client store_with_repo)
              [{| assoc_id := VInt 2; assoc_repo := VStr "repo1";
                  assoc_package := "foo"; assoc_template := "beta";
                  assoc_variant := Some (VStr "V1") |}]
              eq_refl eq_refl)
    as (packages & Hrun & _ & Hlook).
  exists packages. split; [now rewrite Hrun |].
  now rewrite Hlook.
Defined.

End ReassemblyOnReference.

(** *** The calls of the repository-wide reconciliation *)

Lemma ensure_packages_tags_step {SO : SetOrder} {C : Client}
  (name : pyval) (current packages : dict) (package_name : string)
  (acc : list string) :
  accounted (fun r => mutating r = true)
    (desired_tags <-
       lift (py_getitem (VDict packages) (VStr package_name)) ;;
     package_changes <-
       ensure_package_tags name package_name false
         (match dict_get package_name current with
          | Some tags => tags
          | None => VList []
          end) desired_tags ;;
     ret (acc ++ package_changes))%py
    acc.
Proof.
  intros w. unfold bind, lift, ret.
  destruct (py_getitem (VDict packages) (VStr package_name))
    as [desired_tags | e].
  2:{ exists []. cbn [fst snd]. rewrite app_nil_r.
      split; [reflexivity |]. split; [constructor |]. intros r [=]. }
  destruct (ensure_package_tags_trace name package_name
              (match dict_get package_name current with
               | Some tags => tags
               | None => VList []
               end) desired_tags w)
    as (deleted & edited & created & Hc & Hd & He & Hcr & Hlen).
  destruct (ensure_package_tags name package_name false _ desired_tags w)
    as [[package_changes | e] w1]; cbn [fst snd] in *.
  - exists (deleted ++ edited ++ created).
    split; [exact Hc |]. split.
    + repeat (apply Forall_app; split);
        eapply Forall_impl; try eassumption;
        intros r Hr; unfold mutating; now rewrite Hr.
    + intros r [= <-]. exists package_changes.
      split; [reflexivity | now apply Hlen].
  - exists (deleted ++ edited ++ created).
    split; [exact Hc |]. split.
    + repeat (apply Forall_app; split);
        eapply Forall_impl; try eassumption;
        intros r Hr; unfold mutating; now rewrite Hr.
    + intros r [=].
Qed.

(** When a real run of the repository-wide reconciliation returns, it has
    issued one read of the tag listing, before anything else, and then
    exactly one mutating call per change it reports. *)
Theorem ensure_packages_tags_one_read_then_changes :
  forall (SO : SetOrder) (C : Client) (name : pyval) (packages : dict)
         (w w' : world) (changes : list string) (current : dict),
    ensure_packages_tags name false packages w
    = (Ok (changes, current), w') ->
    exists issued,
      calls w' = calls w ++ tags_page_request name 1 :: issued /\
      length issued = length changes /\
      Forall (fun r => mutating r = true) issued.
Proof.
  intros SO C name packages w w' changes current.
  unfold ensure_packages_tags. cbv zeta.
  unfold bind at 1.
  pose proof (get_package_tags_run C name w) as Hget.
  destruct (serve (tags_page_request name 1) (server w)) as [resp s].
  rewrite Hget. clear Hget.
  destruct (tags_of_response resp) as [found | e]; [| discriminate].
  unfold bind at 1.
  match goal with
  | |- context [for_each ?l ?body ?acc ?w1] =>
      destruct (for_each_accounted (fun r => mutating r = true) body l
                  (fun x a => ensure_packages_tags_step name found packages
                                x a)
                  acc w1)
        as (issued & Hc & HP & Hr);
      destruct (for_each l body acc w1) as [[all | e] w2]
  end; [| discriminate].
  unfold ret. intros [= <- _ <-]. cbn [fst snd calls] in *.
  destruct (Hr all eq_refl) as (d & -> & Hlen).
  exists issued. split; [| split].
  - rewrite Hc, <- app_assoc. reflexivity.
  - cbn [app]. exact Hlen.
  - exact HP.
Qed.

Section RepositoryOnReference.
#[local] Existing Instance Reference.insertion_order.
#[local] Existing Instance Reference.reference_client.

(** Against the in-memory remote holding [repo1]: the listing is read,
    then tag [beta] of [foo] is deleted and tag [latest] created. *)
Lemma ensure_packages_tags_one_read_then_changes_witness :
  exists issued,
    map req_verb issued = [DELETE; POST] /\
    length issued = 2%nat.
Proof.
  assert (Hrep :
    fst (ensure_packages_tags (VStr "repo1") false
           [("foo", VDict [("latest", VDict [])])]
           (fresh store_with_repo))
    = Ok ([removing_tag "foo" (VStr "beta");
           adding_tag "foo" (VStr "latest")],
          [("foo", VDict [("beta", VDict [("variant", VStr "V1");
                                           ("id", VInt 2)])])]))
    by (vm_compute; reflexivity).
  assert (Hverbs :
    map req_verb
      (calls (snd (ensure_packages_tags (VStr "repo1") false
                     [("foo", VDict [("latest", VDict [])])]
                     (fresh store_with_repo))))
    = [GET; DELETE; POST])
    by (vm_compute; reflexivity).
  destruct (ensure_packages_tags (VStr "repo1") false
              [("foo", VDict [("latest", VDict [])])]
              (@fresh Reference.reference_client store_with_repo))
    as [[[changes current] | e] w'] eqn:E; cbn [fst snd] in *;
    [| discriminate Hrep].
  injection Hrep as -> ->.
  destruct (ensure_packages_tags_one_read_then_changes
              Reference.insertion_order Reference.reference_client
              (VStr "repo1") [("foo", VDict [("latest", VDict [])])]
              (@fresh Reference.reference_client store_with_repo) w'
              _ _ E)
    as (issued & Hc & Hlen & _).
  exists issued. split; [| exact Hlen].
  rewrite Hc in Hverbs. cbn [calls fresh app map] in Hverbs.
  now injection Hverbs.
Defined.

End RepositoryOnReference.

(** *** The defaults of run_module *)

(** When the guard lets the parameters through, [run_module] is the engine
    on them, with [arch] defaulted when it is [None]: to [multi] for a
    Docker repository and to [x86_64] for any other content type. *)
Theorem run_module_arch_default :
  forall (SO : SetOrder) (C : Client) (SD : SettingsDiffer)
         (check_mode : bool) (params : dict) (w : world)
         (content_type arch use_for_tps : pyval),
    dict_get "content_type" params = Some content_type ->
    dict_get "arch" params = Some arch ->
    dict_get "use_for_tps" params = Some use_for_tps ->
    let default :=
      if py_eqb content_type (VStr "Docker") then VStr "multi"
      else VStr "x86_64" in
    let params' :=
      if is_none arch then dict_set "arch" default params else params in
    py_eqb content_type (VStr "Docker") = false \/
    ((is_none arch = true \/ py_eqb arch (VStr "multi") = true) /\
     truthy use_for_tps = false) ->
    run_module check_mode params w
    = (result <- ensure_cdn_repo check_mode params' ;;
       ret (ExitJson result))%py w.
Proof.
  intros SO C SD check_mode params w content_type arch use_for_tps
    Hct Harch Htps default params' Hguard.
  assert (Hct' : dict_get "content_type" params' = Some content_type).
  { unfold params'. destruct (is_none arch); [| exact Hct].
    rewrite dict_get_set_other by discriminate. exact Hct. }
  assert (Htps' : dict_get "use_for_tps" params' = Some use_for_tps).
  { unfold params'. destruct (is_none arch); [| exact Htps].
    rewrite dict_get_set_other by discriminate. exact Htps. }
  assert (Harch' : dict_get "arch" params'
                   = Some (if is_none arch then default else arch)).
  { unfold params'. destruct (is_none arch); [| exact Harch].
    apply dict_get_set_same. }
  unfold run_module.
  unfold bind at 1. unfold lift at 1.
  rewrite (py_getitem_dict _ _ _ Harch).
  assert (Hparams :
    (if is_none arch
     then
       (content_type <-
          lift (py_getitem (VDict params) (VStr "content_type")) ;;
        if py_eqb content_type (VStr "Docker")
        then ret (dict_set "arch" (VStr "multi") params)
        else ret (dict_set "arch" (VStr "x86_64") params))%py
     else ret params) w = (Ok params', w)).
  { unfold params', default. destruct (is_none arch); [| reflexivity].
    unfold bind, lift. rewrite (py_getitem_dict _ _ _ Hct).
    destruct (py_eqb content_type (VStr "Docker")); reflexivity. }
  unfold bind at 1. rewrite Hparams. fold params'.
  unfold bind at 1. unfold lift at 1.
  rewrite (py_getitem_dict _ _ _ Hct'). cbv zeta.
  destruct (py_eqb content_type (VStr "Docker")) eqn:Hdocker;
    [| reflexivity].
  destruct Hguard as [Hno | [Hmulti Hfalsy]]; [discriminate |].
  unfold bind at 1. unfold lift at 1.
  rewrite (py_getitem_dict _ _ _ Harch').
  assert (Hm : py_eqb (if is_none arch then default else arch)
                      (VStr "multi") = true).
  { destruct (is_none arch); [reflexivity |].
    destruct Hmulti as [Hn | Hm]; [discriminate | exact Hm]. }
  rewrite Hm. cbn [negb].
  unfold bind at 1. unfold lift at 1.
  rewrite (py_getitem_dict _ _ _ Htps'). rewrite Hfalsy. reflexivity.
Qed.

Section DefaultOnReference.
#[local] Existing Instance Reference.insertion_order.
#[local] Existing Instance Reference.reference_client.
#[local] Existing Instance Reference.spec_differ.

(** An RPM repository declared without [arch] is run for [x86_64]. *)
Lemma run_module_arch_default_witness :
  run_module true rpm_params (fresh store_with_repo)
  = (result <-
       ensure_cdn_repo true (dict_set "arch" (VStr "x86_64") rpm_params) ;;
     ret (ExitJson result))%py (fresh store_with_repo).
Proof.
  apply (run_module_arch_default
           Reference.insertion_order Reference.reference_client
           Reference.spec_differ true rpm_params
           (@fresh Reference.reference_client store_with_repo)
           (VStr "Binary") VNone (VBool true) eq_refl eq_refl eq_refl).
  left. reflexivity.
Defined.

End DefaultOnReference.

(** *** The attributes of the simplified repository *)

Lemma dict_get_update (o d : dict) (k : string) :
  NoDup (dict_keys o) ->
  dict_get k (fold_left (fun acc (kv : string * pyval) =>
                           dict_set (fst kv) (snd kv) acc) o d)
  = match dict_get k o with
    | Some v => Some v
    | None => dict_get k d
    end.
Proof.
  revert d. induction o as [| [k0 v0] o IH]; intros d Hnd;
    cbn [fold_left dict_get fst snd]; [reflexivity |].
  inversion Hnd as [| ? ? Hnotin Hnd']; subst.
  rewrite IH by exact Hnd'.
  destruct (String.eqb k k0) eqn:E.
  - apply String.eqb_eq in E. subst k0.
    rewrite (proj2 (dict_get_none_keys _ _) Hnotin). apply dict_get_set_same.
  - destruct (dict_get k o); [reflexivity |].
    apply dict_get_set_other.
    intros ->. rewrite String.eqb_refl in E. discriminate.
Qed.

(** Given the document of a repository, [get_cdn_repo] issues no request,
    and the attributes of the document are carried into the result as they
    are: apart from [arch], [variants] and [package_names], which come from
    the relationships, a key of the result is bound to the attribute of
    that name, and [id] to the id of the document when no attribute is
    called [id]. *)
Theorem get_cdn_repo_attributes :
  forall (C : Client) (name : pyval) (r : repo_record) (w : world),
    NoDup (dict_keys (record_attributes r)) ->
    exists repo,
      get_cdn_repo name (Some (repo_json r)) w = (Ok (VDict repo), w) /\
      forall key,
        key <> "arch" -> key <> "variants" -> key <> "package_names" ->
        dict_get key repo
        = match dict_get key (record_attributes r) with
          | Some v => Some v
          | None => if String.eqb key "id" then Some (record_id r) else None
          end.
Proof.
  intros C name r w Hnd.
  destruct r as [id attrs arch variants packages].
  cbn [record_attributes record_id] in *.
  unfold get_cdn_repo, lift, simplify_cdn_repo, repo_json.
  cbn [record_id record_attributes record_arch record_variants
       record_packages].
  cbn [py_getitem dict_get String.eqb Ascii.eqb Bool.eqb obind py_update
       app named py_iter].
  rewrite omap_named. cbn [obind].
  destruct packages as [l |];
    cbn [app py_get py_getitem dict_get String.eqb Ascii.eqb Bool.eqb obind
         py_iter];
    rewrite ?omap_named; cbn [obind omap];
    (eexists; split; [reflexivity |]);
    intros key Harch Hvariants Hnames;
    rewrite !dict_get_set_other by assumption;
    rewrite dict_get_update by exact Hnd;
    cbn [dict_get]; reflexivity.
Qed.

(** A document whose attributes are the four settings of a repository. *)
Lemma get_cdn_repo_attributes_witness :
  exists repo,
    fst (@get_cdn_repo Reference.reference_client (VStr "repo1")
           (Some (repo_json
                    {| record_id := VInt 1;
                       record_attributes :=
                         [("name", VStr "repo1");
                          ("release_type", VStr "Primary")];
                       record_arch := VStr "x86_64";
                       record_variants := [VStr "V1"];
                       record_packages := None |}))
           (@fresh Reference.reference_client store_with_repo))
    = Ok (VDict repo) /\
    dict_get "release_type" repo = Some (VStr "Primary") /\
    dict_get "id" repo = Some (VInt 1).
Proof.
  destruct (get_cdn_repo_attributes
              Reference.reference_client (VStr "repo1")
              {| record_id := VInt 1;
                 record_attributes :=
                   [("name", VStr "repo1");
                    ("release_type", VStr "Primary")];
                 record_arch := VStr "x86_64";
                 record_variants := [VStr "V1"];
                 record_packages := None |}
              (@fresh Reference.reference_client store_with_repo))
    as (repo & Hrun & Hget).
  - repeat constructor; cbn; intuition discriminate.
  - exists repo. split; [now rewrite Hrun |].
    split; [apply Hget | apply Hget]; discriminate.
Defined.
